(** * Offline-first content cache and synchronisation layer

    A shallow embedding of the cache manager (offlineStorage: every function
    of the module), of the article service (articleService.ts), of the quiz
    service (quizService.ts) and of the handlers of the two article screens
    that call them (loadArticles, getFilteredArticles, handleMarkAsRead),
    followed by the properties the specification states about them and by
    further properties read off the code.

    The platform pieces the code calls (AsyncStorage, NetInfo, the backend
    client, the clock, the console) are kept in one explicit [World] that
    every asynchronous function threads through: an [Async A] takes the world
    and gives back what the awaited promise settles to, a value or a thrown
    error, with the world it leaves. *)

From Stdlib Require Import ZArith String List DecimalString.
From stdpp Require Import gmap strings list fin_maps.

Open Scope Z_scope.
Open Scope string_scope.

(** ** Entities (types/article.ts, and the quiz interfaces declared in
    types/env.d.ts) *)

Module Article.
Record t := make {
  id : string;
  title : string;
  content : string;
  summary : string;
  is_premium : bool;
  image_url : option string;
  created_at : string;
  updated_at : string;
  category : option string;
  reading_time_minutes : option Z;
}.
End Article.

(** [Partial<Article>]: what [getOfflineArticles] is typed to return; every
    field may be absent. *)
Module PartialArticle.
Record t := make {
  id : option string;
  title : option string;
  content : option string;
  summary : option string;
  is_premium : option bool;
  image_url : option string;
  created_at : option string;
  updated_at : option string;
  category : option string;
  reading_time_minutes : option Z;
}.

(** An [Article] seen at the type [Partial<Article>]. *)
Definition of_article (a : Article.t) : t :=
  {| id := Some (Article.id a);
     title := Some (Article.title a);
     content := Some (Article.content a);
     summary := Some (Article.summary a);
     is_premium := Some (Article.is_premium a);
     image_url := Article.image_url a;
     created_at := Some (Article.created_at a);
     updated_at := Some (Article.updated_at a);
     category := Article.category a;
     reading_time_minutes := Article.reading_time_minutes a |}.
End PartialArticle.

(** Text of a date.  [new Date().toISOString()] yields the ISO-8601 text of an
    instant; the model keeps the instant (milliseconds since the epoch) in
    place of its characters, so [new Date(text).getTime()] reads it back. *)
Inductive DateText := ISO8601 (ms : Z).

Module ArticleProgress.
Record t := make {
  id : string;
  user_id : string;
  article_id : string;
  completed : bool;
  last_read_at : DateText;
  created_at : DateText;
}.
End ArticleProgress.

(** [interface QuizQuestion] *)
Module QuizQuestion.
Record t := make {
  id : string;
  quiz_id : string;
  question_text : string;
  options : list string;
  correct_option : Z;
  explanation : option string;
  question_order : Z;
  created_at : string;
  updated_at : string;
}.
End QuizQuestion.

(** The joined [articles (id, title)] of a quiz row. *)
Module ArticleRef.
Record t := make { id : string; title : string }.
End ArticleRef.

Module Quiz.
Record t := make {
  id : string;
  title : string;
  description : option string;
  article_id : string;
  time_limit_minutes : option Z;
  passing_score : Z;
  created_at : string;
  updated_at : string;
  questions : option (list QuizQuestion.t);
  articles : option ArticleRef.t;
}.

(** [{ ...quizData, questions: questionsData }] *)
Definition with_questions (quizData : t) (questionsData : list QuizQuestion.t) : t :=
  {| id := id quizData;
     title := title quizData;
     description := description quizData;
     article_id := article_id quizData;
     time_limit_minutes := time_limit_minutes quizData;
     passing_score := passing_score quizData;
     created_at := created_at quizData;
     updated_at := updated_at quizData;
     questions := Some questionsData;
     articles := articles quizData |}.
End Quiz.

(** [Partial<Quiz>] *)
Module PartialQuiz.
Record t := make {
  id : option string;
  title : option string;
  description : option string;
  article_id : option string;
  time_limit_minutes : option Z;
  passing_score : option Z;
  created_at : option string;
  updated_at : option string;
  questions : option (list QuizQuestion.t);
  articles : option ArticleRef.t;
}.
End PartialQuiz.

(** [interface QuizAttempt], without the joined [quizzes]. *)
Module QuizAttempt.
Record t := make {
  id : string;
  user_id : string;
  quiz_id : string;
  score : Z;
  completed_at : DateText;
  created_at : DateText;
}.
End QuizAttempt.

(** The answer row as [saveQuizAttempt] inserts it; the [id] and the
    [created_at] of [interface QuizAnswer] are supplied by the backend and no
    function embedded here reads them. *)
Module QuizAnswer.
Record t := make {
  attempt_id : string;
  question_id : string;
  selected_option : Z;
}.
End QuizAnswer.

(** ** What AsyncStorage holds

    AsyncStorage maps string keys to strings.  The strings this module writes
    are [JSON.stringify] of a value, or an ISO date; a payload records which
    value was serialised, so that [JSON.parse] after [JSON.stringify] is the
    identity on the value (fields that are [undefined] are the [None]s). *)
Inductive Payload :=
| JsonArticles (articlesList : list PartialArticle.t)
| JsonArticle (article : Article.t)
| JsonQuizzes (quizzesList : list PartialQuiz.t)
| JsonQuiz (quiz : Quiz.t)
| DateString (text : DateText).

Module PostgrestError.
Record t := make { code : string; message : string }.
End PostgrestError.

Inductive JsError :=
| StorageError                       (* an AsyncStorage call rejected *)
| SyntaxError                        (* JSON.parse *)
| Postgrest (e : PostgrestError.t)   (* the [error] of a backend response *)
| NewError (message : string).       (* new Error(message) *)

(** Everything observable outside the caller's return value. *)
Inductive Event :=
| NetInfoFetch
| StorageSet (key : string) (value : Payload) (succeeded : bool)
| StorageGet (key : string) (succeeded : bool)
| StorageKeys (succeeded : bool)
| StorageMultiRemove (keys : list string) (succeeded : bool)
| RemoteCall (table verb : string)
| ConsoleError (label : string) (error : JsError)
| ConsoleLog (text : string).

(** ** The backend

    Modelled from the spec: the backend behind the Remote Data Gateway is an
    external service; it is modelled as named collections of rows answering
    select / filter / order / single and insert / update requests (spec,
    sections 4.4 and 6). *)
Module Backend.
Record t := make {
  articles : list Article.t;
  quizzes : list Quiz.t;
  quiz_questions : list QuizQuestion.t;
  user_article_progress : list ArticleProgress.t;
  quiz_attempts : list QuizAttempt.t;
  quiz_answers : list QuizAnswer.t;
  serial : Z;                       (* source of generated row ids *)
}.
End Backend.

Record World := mkWorld {
  storage : gmap string Payload;            (* AsyncStorage *)
  storage_faults : list bool;               (* outcome of the coming AsyncStorage calls, [true] rejects *)
  isConnected : option bool;                (* NetInfo state, [null] when unknown *)
  backend : Backend.t;
  backend_faults : list (option PostgrestError.t);  (* outcome of the coming backend requests *)
  clock : Z;                                (* Date.now(), in milliseconds *)
  journal : list Event;                     (* oldest first *)
}.

Definition set_storage (f : gmap string Payload -> gmap string Payload) (w : World) : World :=
  mkWorld (f (storage w)) (storage_faults w) (isConnected w) (backend w)
          (backend_faults w) (clock w) (journal w).

Definition next_storage_call (w : World) : World :=
  mkWorld (storage w) (tail (storage_faults w)) (isConnected w) (backend w)
          (backend_faults w) (clock w) (journal w).

Definition set_backend (b : Backend.t) (w : World) : World :=
  mkWorld (storage w) (storage_faults w) (isConnected w) b
          (backend_faults w) (clock w) (journal w).

Definition next_backend_call (w : World) : World :=
  mkWorld (storage w) (storage_faults w) (isConnected w) (backend w)
          (tail (backend_faults w)) (clock w) (journal w).

Definition record_event (e : Event) (w : World) : World :=
  mkWorld (storage w) (storage_faults w) (isConnected w) (backend w)
          (backend_faults w) (clock w) (journal w ++ [e]).

(** Time passing between two operations. *)
Definition elapse (ms : Z) (w : World) : World :=
  mkWorld (storage w) (storage_faults w) (isConnected w) (backend w)
          (backend_faults w) (clock w + ms) (journal w).

(** ** Asynchronous functions: state passing with exceptions *)

Inductive Outcome (A : Type) :=
| Returned (a : A)
| Thrown (e : JsError).
Arguments Returned {A} a.
Arguments Thrown {A} e.

Definition Async (A : Type) : Type := World -> Outcome A * World.

#[global] Instance Async_ret : MRet Async := fun A a w => (Returned a, w).

#[global] Instance Async_bind : MBind Async := fun A B k m w =>
  match m w with
  | (Returned a, w') => k a w'
  | (Thrown e, w') => (Thrown e, w')
  end.

Definition throw {A} (e : JsError) : Async A := fun w => (Thrown e, w).

(** [try { body } catch (error) { handler }] *)
Definition try_catch {A} (body : Async A) (handler : JsError -> Async A) : Async A :=
  fun w =>
    match body w with
    | (Returned a, w') => (Returned a, w')
    | (Thrown e, w') => handler e w'
    end.

(** [Promise.all(xs.map(x => call(x)))]: [map] makes every call before
    anything is awaited, so each operation is started whatever becomes of the
    others; the operations take effect in the order they were started, and
    the promise rejects with the first rejection, if any. *)
Fixpoint Promise_all {A} (promises : list (Async A)) : Async (list A) :=
  fun w =>
    match promises with
    | [] => (Returned [], w)
    | p :: rest =>
        let (r, w1) := p w in
        let (rs, w2) := Promise_all rest w1 in
        (match r, rs with
         | Thrown e, _ => Thrown e
         | Returned _, Thrown e => Thrown e
         | Returned a, Returned l => Returned (a :: l)
         end, w2)
    end.

(** JavaScript truthiness of an optional flag. *)
Definition truthy (flag : option bool) : bool :=
  match flag with Some true => true | _ => false end.

Module console.
Definition error (label : string) (e : JsError) : Async unit :=
  fun w => (Returned tt, record_event (ConsoleError label e) w).
Definition log (text : string) : Async unit :=
  fun w => (Returned tt, record_event (ConsoleLog text) w).
End console.

Module NetInfo.
(** [NetInfo.fetch()], of which the callers read [isConnected]. *)
Definition fetch : Async (option bool) :=
  fun w => (Returned (isConnected w), record_event NetInfoFetch w).
End NetInfo.

Module Date.
Definition now : Async Z := fun w => (Returned (clock w), w).
(** [new Date().toISOString()] *)
Definition toISOString : Async DateText := fun w => (Returned (ISO8601 (clock w)), w).
End Date.

(** ** AsyncStorage

    Each call consumes the head of [storage_faults] (no fault once the list is
    exhausted), is journalled, and on a fault rejects without touching the
    store. *)
Module AsyncStorage.
Definition rejects (w : World) : bool := hd false (storage_faults w).

Definition setItem (key : string) (value : Payload) : Async unit :=
  fun w =>
    let w1 := record_event (StorageSet key value (negb (rejects w))) (next_storage_call w) in
    if rejects w then (Thrown StorageError, w1)
    else (Returned tt, set_storage (insert key value) w1).

Definition getItem (key : string) : Async (option Payload) :=
  fun w =>
    let w1 := record_event (StorageGet key (negb (rejects w))) (next_storage_call w) in
    if rejects w then (Thrown StorageError, w1)
    else (Returned (storage w !! key), w1).

Definition getAllKeys : Async (list string) :=
  fun w =>
    let w1 := record_event (StorageKeys (negb (rejects w))) (next_storage_call w) in
    if rejects w then (Thrown StorageError, w1)
    else (Returned (elements (dom (storage w))), w1).

Definition multiRemove (keys : list string) : Async unit :=
  fun w =>
    let w1 := record_event (StorageMultiRemove keys (negb (rejects w))) (next_storage_call w) in
    if rejects w then (Thrown StorageError, w1)
    else (Returned tt, set_storage (fun m => foldr delete m keys) w1).
End AsyncStorage.

(** [JSON.parse(text)] read at the type the caller gives it.  A text that is
    not JSON (a date) throws, as in the code.

    Scope of the typed embedding: on a JSON text of another shape than the
    one the caller expects, the code's [JSON.parse] returns the value and the
    caller goes on with it (a [.filter] on a value that is no array raises a
    TypeError, for one).  Such a value has no counterpart at the caller's
    type; the model raises there instead, which the readers of the cache
    catch and answer with the empty result.  The model therefore follows the
    code only on records that have the shape their key is read at, or that
    are no JSON at all: [reads_as_article_list] names that condition for the
    article list, and the properties that say what a read returns state the
    record read or carry the condition.  The writers of the cache never put a
    record of another shape under one of their keys, as is proved of them
    below. *)
Module JSON.
Definition parse_articles (text : Payload) : Async (list PartialArticle.t) :=
  match text with JsonArticles l => mret l | _ => throw SyntaxError end.
Definition parse_article (text : Payload) : Async Article.t :=
  match text with JsonArticle a => mret a | _ => throw SyntaxError end.
Definition parse_quizzes (text : Payload) : Async (list PartialQuiz.t) :=
  match text with JsonQuizzes l => mret l | _ => throw SyntaxError end.
Definition parse_quiz (text : Payload) : Async Quiz.t :=
  match text with JsonQuiz q => mret q | _ => throw SyntaxError end.
End JSON.

(** ** The cache manager (offlineStorage) *)

Module KEYS.
Definition ARTICLES := "econquiz_articles".
Definition ARTICLE_PREFIX := "econquiz_article_".
Definition QUIZZES := "econquiz_quizzes".
Definition QUIZ_PREFIX := "econquiz_quiz_".
Definition LAST_SYNC := "econquiz_last_sync".
End KEYS.

Definition saveLastSyncTime : Async unit :=
  try_catch
    (text ← Date.toISOString;
     AsyncStorage.setItem KEYS.LAST_SYNC (DateString text))
    (fun error => console.error "Error saving last sync time:" error).

Definition getLastSyncTime : Async (option Payload) :=
  try_catch
    (AsyncStorage.getItem KEYS.LAST_SYNC)
    (fun error => console.error "Error getting last sync time:" error;; mret None).

(** The list entry kept for an article. *)
Definition article_list_entry (article : Article.t) : PartialArticle.t :=
  {| PartialArticle.id := Some (Article.id article);
     PartialArticle.title := Some (Article.title article);
     PartialArticle.content := None;
     PartialArticle.summary := Some (Article.summary article);
     PartialArticle.is_premium := Some (Article.is_premium article);
     PartialArticle.image_url := None;
     PartialArticle.created_at := Some (Article.created_at article);
     PartialArticle.updated_at := Some (Article.updated_at article);
     PartialArticle.category := Article.category article;
     PartialArticle.reading_time_minutes := Article.reading_time_minutes article |}.

Definition saveArticlesOffline (articles : list Article.t) : Async unit :=
  try_catch
    (let articlesList := map article_list_entry articles in
     AsyncStorage.setItem KEYS.ARTICLES (JsonArticles articlesList);;
     Promise_all
       (map (fun article =>
               AsyncStorage.setItem (KEYS.ARTICLE_PREFIX +:+ Article.id article)
                                    (JsonArticle article))
            articles);;
     saveLastSyncTime)
    (fun error => console.error "Error saving articles offline:" error).

Definition getOfflineArticles : Async (list PartialArticle.t) :=
  try_catch
    (articlesJson ← AsyncStorage.getItem KEYS.ARTICLES;
     match articlesJson with
     | None => mret []
     | Some text => JSON.parse_articles text
     end)
    (fun error => console.error "Error getting offline articles:" error;; mret []).

Definition getOfflineArticle (articleId : string) : Async (option Article.t) :=
  try_catch
    (articleJson ← AsyncStorage.getItem (KEYS.ARTICLE_PREFIX +:+ articleId);
     match articleJson with
     | None => mret None
     | Some text => article ← JSON.parse_article text; mret (Some article)
     end)
    (fun error => console.error "Error getting offline article:" error;; mret None).

(** The list entry kept for a quiz. *)
Definition quiz_list_entry (quiz : Quiz.t) : PartialQuiz.t :=
  {| PartialQuiz.id := Some (Quiz.id quiz);
     PartialQuiz.title := Some (Quiz.title quiz);
     PartialQuiz.description := Quiz.description quiz;
     PartialQuiz.article_id := Some (Quiz.article_id quiz);
     PartialQuiz.time_limit_minutes := Quiz.time_limit_minutes quiz;
     PartialQuiz.passing_score := Some (Quiz.passing_score quiz);
     PartialQuiz.created_at := Some (Quiz.created_at quiz);
     PartialQuiz.updated_at := Some (Quiz.updated_at quiz);
     PartialQuiz.questions := None;
     PartialQuiz.articles := Quiz.articles quiz |}.

Definition saveQuizzesOffline (quizzes : list Quiz.t) : Async unit :=
  try_catch
    (let quizzesList := map quiz_list_entry quizzes in
     AsyncStorage.setItem KEYS.QUIZZES (JsonQuizzes quizzesList);;
     Promise_all
       (map (fun quiz =>
               AsyncStorage.setItem (KEYS.QUIZ_PREFIX +:+ Quiz.id quiz) (JsonQuiz quiz))
            quizzes);;
     saveLastSyncTime)
    (fun error => console.error "Error saving quizzes offline:" error).

Definition getOfflineQuizzes : Async (list PartialQuiz.t) :=
  try_catch
    (quizzesJson ← AsyncStorage.getItem KEYS.QUIZZES;
     match quizzesJson with
     | None => mret []
     | Some text => JSON.parse_quizzes text
     end)
    (fun error => console.error "Error getting offline quizzes:" error;; mret []).

Definition getOfflineQuiz (quizId : string) : Async (option Quiz.t) :=
  try_catch
    (quizJson ← AsyncStorage.getItem (KEYS.QUIZ_PREFIX +:+ quizId);
     match quizJson with
     | None => mret None
     | Some text => quiz ← JSON.parse_quiz text; mret (Some quiz)
     end)
    (fun error => console.error "Error getting offline quiz:" error;; mret None).

(** [q.article_id === articleId] *)
Definition article_id_is (articleId : string) (q : PartialQuiz.t) : bool :=
  match PartialQuiz.article_id q with
  | Some a => String.eqb a articleId
  | None => false
  end.

Definition getOfflineQuizByArticleId (articleId : string) : Async (option Quiz.t) :=
  try_catch
    (quizzes ← getOfflineQuizzes;
     match List.find (article_id_is articleId) quizzes with
     | None => mret None
     | Some quiz =>
         match PartialQuiz.id quiz with
         | None | Some "" => mret None              (* [!quiz.id] *)
         | Some quizId => getOfflineQuiz quizId
         end
     end)
    (fun error => console.error "Error getting offline quiz by article ID:" error;; mret None).

(** [new Date(lastSync).getTime()]; a text that is no date gives NaN. *)
Definition getTime (lastSync : Payload) : option Z :=
  match lastSync with
  | DateString (ISO8601 ms) => Some ms
  | _ => None
  end.

(** [diffHours > 24] with [diffHours = (now - lastSync) / (1000 * 60 * 60)]:
    both times are whole milliseconds, the quotient of 24 hours is exactly 24
    and the division is monotone, so the test is the one on milliseconds.  A
    comparison with NaN is false. *)
Definition isSyncNeeded : Async bool :=
  lastSync ← getLastSyncTime;
  match lastSync with
  | None => mret true
  | Some text =>
      now ← Date.now;
      match getTime text with
      | Some lastSyncDate => mret (Z.ltb (24 * (1000 * 60 * 60)) (now - lastSyncDate))
      | None => mret false
      end
  end.

Definition clearOfflineData : Async unit :=
  try_catch
    (keys ← AsyncStorage.getAllKeys;
     let econquizKeys := List.filter (String.prefix "econquiz_") keys in
     AsyncStorage.multiRemove econquizKeys)
    (fun error => console.error "Error clearing offline data:" error).

(** ** The backend client (supabase)

    Modelled from the spec: the query layer of the backend (spec, 4.4):
    [select], [eq] filters, [order], [single], [insert] and [update] over the
    collections of [Backend.t].  A request consumes the head of
    [backend_faults]: a transport or server failure is answered with its
    [error] and leaves the collections alone. *)
Inductive Cell := Text (s : string) | Flag (b : bool) | Number (n : Z).

Definition cell_eqb (x y : Cell) : bool :=
  match x, y with
  | Text a, Text b => String.eqb a b
  | Flag a, Flag b => Bool.eqb a b
  | Number a, Number b => Z.eqb a b
  | _, _ => false
  end.

Definition cell_leb (x y : Cell) : bool :=
  match x, y with
  | Text a, Text b => String.leb a b
  | Flag a, Flag b => implb a b
  | Number a, Number b => Z.leb a b
  | _, _ => true
  end.

Inductive Response (T : Type) :=
| Data (data : T)
| Failure (error : PostgrestError.t).
Arguments Data {T} data.
Arguments Failure {T} error.

(** [const { data } = ...]: [null] on a failure. *)
Definition data_of {T} (r : Response T) : option T :=
  match r with Data d => Some d | Failure _ => None end.

Module Query.
Record t := make {
  filters : list (string * Cell);
  ordering : option (string * bool);      (* column, ascending *)
}.

Definition select : t := make [] None.
Definition eq (column : string) (value : Cell) (q : t) : t :=
  make (filters q ++ [(column, value)]) (ordering q).
Definition order (column : string) (ascending : bool) (q : t) : t :=
  make (filters q) (Some (column, ascending)).

Section Rows.
Context {Row : Type} (cell : Row -> string -> option Cell).

Definition satisfies (row : Row) (f : string * Cell) : bool :=
  match cell row (fst f) with
  | Some c => cell_eqb c (snd f)
  | None => false
  end.

Definition precedes (column : string) (ascending : bool) (x y : Row) : bool :=
  match cell x column, cell y column with
  | Some a, Some b => if ascending then cell_leb a b else cell_leb b a
  | _, _ => true
  end.

Fixpoint place (column : string) (ascending : bool) (x : Row) (sorted : list Row) : list Row :=
  match sorted with
  | [] => [x]
  | y :: rest =>
      if precedes column ascending x y then x :: y :: rest
      else y :: place column ascending x rest
  end.

Definition sort (column : string) (ascending : bool) (rows : list Row) : list Row :=
  foldr (place column ascending) [] rows.

(** The rows a query selects. *)
Definition rows (q : t) (table : list Row) : list Row :=
  let kept := List.filter (fun row => forallb (satisfies row) (filters q)) table in
  match ordering q with
  | Some (column, ascending) => sort column ascending kept
  | None => kept
  end.

(** [.single()]: exactly one row, or the error PGRST116. *)
Definition single (q : t) (table : list Row) : Response Row :=
  match rows q table with
  | [row] => Data row
  | _ => Failure (PostgrestError.make "PGRST116"
                    "JSON object requested, multiple (or no) rows returned")
  end.
End Rows.
End Query.

Definition article_cell (a : Article.t) (column : string) : option Cell :=
  if String.eqb column "id" then Some (Text (Article.id a))
  else if String.eqb column "title" then Some (Text (Article.title a))
  else if String.eqb column "content" then Some (Text (Article.content a))
  else if String.eqb column "summary" then Some (Text (Article.summary a))
  else if String.eqb column "is_premium" then Some (Flag (Article.is_premium a))
  else if String.eqb column "image_url" then Text <$> Article.image_url a
  else if String.eqb column "created_at" then Some (Text (Article.created_at a))
  else if String.eqb column "updated_at" then Some (Text (Article.updated_at a))
  else if String.eqb column "category" then Text <$> Article.category a
  else if String.eqb column "reading_time_minutes" then Number <$> Article.reading_time_minutes a
  else None.

Definition quiz_cell (q : Quiz.t) (column : string) : option Cell :=
  if String.eqb column "id" then Some (Text (Quiz.id q))
  else if String.eqb column "title" then Some (Text (Quiz.title q))
  else if String.eqb column "description" then Text <$> Quiz.description q
  else if String.eqb column "article_id" then Some (Text (Quiz.article_id q))
  else if String.eqb column "time_limit_minutes" then Number <$> Quiz.time_limit_minutes q
  else if String.eqb column "passing_score" then Some (Number (Quiz.passing_score q))
  else if String.eqb column "created_at" then Some (Text (Quiz.created_at q))
  else if String.eqb column "updated_at" then Some (Text (Quiz.updated_at q))
  else None.

Definition question_cell (q : QuizQuestion.t) (column : string) : option Cell :=
  if String.eqb column "id" then Some (Text (QuizQuestion.id q))
  else if String.eqb column "quiz_id" then Some (Text (QuizQuestion.quiz_id q))
  else if String.eqb column "question_text" then Some (Text (QuizQuestion.question_text q))
  else if String.eqb column "correct_option" then Some (Number (QuizQuestion.correct_option q))
  else if String.eqb column "explanation" then Text <$> QuizQuestion.explanation q
  else if String.eqb column "question_order" then Some (Number (QuizQuestion.question_order q))
  else None.

Definition progress_cell (p : ArticleProgress.t) (column : string) : option Cell :=
  if String.eqb column "id" then Some (Text (ArticleProgress.id p))
  else if String.eqb column "user_id" then Some (Text (ArticleProgress.user_id p))
  else if String.eqb column "article_id" then Some (Text (ArticleProgress.article_id p))
  else if String.eqb column "completed" then Some (Flag (ArticleProgress.completed p))
  else None.

(** The decimal text of a whole number, as in ['offline-' + Date.now()]. *)
Definition decimal (n : Z) : string := NilZero.string_of_int (Z.to_int n).

Module supabase.
(** One request to the backend: journalled, then failed by the coming fault
    or answered from the collections. *)
Definition request {T} (table verb : string)
    (answer : Backend.t -> Response T * Backend.t) : Async (Response T) :=
  fun w =>
    let w1 := record_event (RemoteCall table verb) (next_backend_call w) in
    match hd None (backend_faults w) with
    | Some error => (Returned (Failure error), w1)
    | None => let (r, b) := answer (backend w) in (Returned r, set_backend b w1)
    end.

Definition select_articles (q : Query.t) : Async (Response (list Article.t)) :=
  request "articles" "select"
          (fun b => (Data (Query.rows article_cell q (Backend.articles b)), b)).

Definition single_article (q : Query.t) : Async (Response Article.t) :=
  request "articles" "select"
          (fun b => (Query.single article_cell q (Backend.articles b), b)).

Definition single_quiz (q : Query.t) : Async (Response Quiz.t) :=
  request "quizzes" "select"
          (fun b => (Query.single quiz_cell q (Backend.quizzes b), b)).

Definition select_questions (q : Query.t) : Async (Response (list QuizQuestion.t)) :=
  request "quiz_questions" "select"
          (fun b => (Data (Query.rows question_cell q (Backend.quiz_questions b)), b)).

Definition single_progress (q : Query.t) : Async (Response ArticleProgress.t) :=
  request "user_article_progress" "select"
          (fun b => (Query.single progress_cell q (Backend.user_article_progress b), b)).

Definition with_progress (rows : list ArticleProgress.t) (serial : Z) (b : Backend.t) : Backend.t :=
  Backend.make (Backend.articles b) (Backend.quizzes b) (Backend.quiz_questions b)
               rows (Backend.quiz_attempts b) (Backend.quiz_answers b) serial.

(** [.update({ completed, last_read_at }).eq(...).eq(...)] *)
Definition update_progress (completed : bool) (last_read_at : DateText) (q : Query.t)
    : Async (Response unit) :=
  request "user_article_progress" "update"
          (fun b =>
             let hit p := forallb (Query.satisfies progress_cell p) (Query.filters q) in
             let change p :=
               if hit p
               then ArticleProgress.make (ArticleProgress.id p) (ArticleProgress.user_id p)
                      (ArticleProgress.article_id p) completed last_read_at
                      (ArticleProgress.created_at p)
               else p in
             (Data tt, with_progress (map change (Backend.user_article_progress b))
                                     (Backend.serial b) b)).

(** [.insert({ user_id, article_id, completed, last_read_at })]: the backend
    supplies [id] and [created_at]. *)
Definition insert_progress (user_id article_id : string) (completed : bool)
    (last_read_at : DateText) : Async (Response unit) :=
  request "user_article_progress" "insert"
          (fun b =>
             let row := ArticleProgress.make (decimal (Backend.serial b)) user_id article_id
                          completed last_read_at last_read_at in
             (Data tt, with_progress (Backend.user_article_progress b ++ [row])
                                     (Backend.serial b + 1) b)).

(** [.insert([{ user_id, quiz_id, score, completed_at }]).select().single()] *)
Definition insert_attempt (user_id quiz_id : string) (score : Z) (completed_at : DateText)
    : Async (Response QuizAttempt.t) :=
  request "quiz_attempts" "insert"
          (fun b =>
             let row := QuizAttempt.make (decimal (Backend.serial b)) user_id quiz_id score
                          completed_at completed_at in
             (Data row,
              Backend.make (Backend.articles b) (Backend.quizzes b) (Backend.quiz_questions b)
                (Backend.user_article_progress b) (Backend.quiz_attempts b ++ [row])
                (Backend.quiz_answers b) (Backend.serial b + 1))).

Definition insert_answers (answers : list QuizAnswer.t) : Async (Response unit) :=
  request "quiz_answers" "insert"
          (fun b =>
             (Data tt,
              Backend.make (Backend.articles b) (Backend.quizzes b) (Backend.quiz_questions b)
                (Backend.user_article_progress b) (Backend.quiz_attempts b)
                (Backend.quiz_answers b ++ answers) (Backend.serial b))).
End supabase.

(** ** The article service (articleService.ts) *)

(** [(offlineArticles as Article[]).filter(article => isPremiumUser || !article.is_premium)] *)
Definition visible_to (isPremiumUser : bool) (article : PartialArticle.t) : bool :=
  isPremiumUser || negb (truthy (PartialArticle.is_premium article)).

(** The result is typed [Article[]]; on the cache paths it is the list record
    cast to that type, so the model returns [Partial<Article>] throughout. *)
Definition fetchArticles (isPremiumUser : bool) : Async (list PartialArticle.t) :=
  try_catch
    (netInfo ← NetInfo.fetch;
     if truthy netInfo then
       let query := Query.order "created_at" false Query.select in
       let query := if negb isPremiumUser
                    then Query.eq "is_premium" (Flag false) query
                    else query in
       response ← supabase.select_articles query;
       match response with
       | Failure error => throw (Postgrest error)
       | Data data =>
           saveArticlesOffline data;;
           mret (map PartialArticle.of_article data)
       end
     else
       offlineArticles ← getOfflineArticles;
       mret (List.filter (visible_to isPremiumUser) offlineArticles))
    (fun error =>
       console.error "Error in fetchArticles:" error;;
       offlineArticles ← getOfflineArticles;
       mret (List.filter (visible_to isPremiumUser) offlineArticles)).

Definition fetchArticleById (articleId : string) : Async Article.t :=
  try_catch
    (netInfo ← NetInfo.fetch;
     if truthy netInfo then
       response ← supabase.single_article (Query.eq "id" (Text articleId) Query.select);
       match response with
       | Failure error => throw (Postgrest error)
       | Data data =>
           saveArticlesOffline [data];;
           mret data
       end
     else
       article ← getOfflineArticle articleId;
       match article with
       | None => throw (NewError "Article not found in offline storage")
       | Some article => mret article
       end)
    (fun error =>
       console.error "Error in fetchArticleById:" error;;
       article ← getOfflineArticle articleId;
       match article with
       | None => throw (NewError "Article not found")
       | Some article => mret article
       end).

Definition updateArticleProgress (userId articleId : string) (completed : bool) : Async unit :=
  try_catch
    (netInfo ← NetInfo.fetch;
     if negb (truthy netInfo) then
       console.log "Offline: Article progress update queued for later"
     else
       let mine := Query.eq "article_id" (Text articleId)
                     (Query.eq "user_id" (Text userId) Query.select) in
       existing ← supabase.single_progress mine;
       match data_of existing with
       | Some _ =>
           last_read_at ← Date.toISOString;
           response ← supabase.update_progress completed last_read_at mine;
           match response with
           | Failure error => throw (Postgrest error)
           | Data _ => mret tt
           end
       | None =>
           last_read_at ← Date.toISOString;
           response ← supabase.insert_progress userId articleId completed last_read_at;
           match response with
           | Failure error => throw (Postgrest error)
           | Data _ => mret tt
           end
       end)
    (fun error =>
       console.error "Error updating article progress:" error;;
       throw error).

(** ** The quiz service (quizService.ts) *)

Definition fetchQuizByArticleId (articleId : string) : Async (option Quiz.t) :=
  try_catch
    (netInfo ← NetInfo.fetch;
     if truthy netInfo then
       quizResponse ← supabase.single_quiz (Query.eq "article_id" (Text articleId) Query.select);
       match quizResponse with
       | Failure quizError =>
           if String.eqb (PostgrestError.code quizError) "PGRST116"
           then mret None                       (* no quiz for this article *)
           else throw (Postgrest quizError)
       | Data quizData =>                       (* [quizData] is not null here *)
           questionsResponse ←
             supabase.select_questions
               (Query.order "question_order" true
                  (Query.eq "quiz_id" (Text (Quiz.id quizData)) Query.select));
           match questionsResponse with
           | Failure questionsError => throw (Postgrest questionsError)
           | Data questionsData =>
               let completeQuiz := Quiz.with_questions quizData questionsData in
               saveQuizzesOffline [completeQuiz];;
               mret (Some completeQuiz)
           end
       end
     else
       getOfflineQuizByArticleId articleId)
    (fun error =>
       console.error "Error fetching quiz:" error;;
       getOfflineQuizByArticleId articleId).

Module Answer.
Record t := make { questionId : string; selectedOption : Z }.
End Answer.

Definition saveQuizAttempt (userId quizId : string) (score : Z) (answers : list Answer.t)
    : Async QuizAttempt.t :=
  try_catch
    (netInfo ← NetInfo.fetch;
     if negb (truthy netInfo) then
       console.log "Offline: Quiz attempt saved locally for later sync";;
       millis ← Date.now;
       completed_at ← Date.toISOString;
       created_at ← Date.toISOString;
       mret {| QuizAttempt.id := "offline-" +:+ decimal millis;
               QuizAttempt.user_id := userId;
               QuizAttempt.quiz_id := quizId;
               QuizAttempt.score := score;
               QuizAttempt.completed_at := completed_at;
               QuizAttempt.created_at := created_at |}
     else
       completed_at ← Date.toISOString;
       attemptResponse ← supabase.insert_attempt userId quizId score completed_at;
       match attemptResponse with
       | Failure attemptError => throw (Postgrest attemptError)
       | Data attemptData =>
           let answersToInsert :=
             map (fun answer =>
                    {| QuizAnswer.attempt_id := QuizAttempt.id attemptData;
                       QuizAnswer.question_id := Answer.questionId answer;
                       QuizAnswer.selected_option := Answer.selectedOption answer |})
                 answers in
           answersResponse ← supabase.insert_answers answersToInsert;
           match answersResponse with
           | Failure answersError => throw (Postgrest answersError)
           | Data _ => mret attemptData
           end
       end)
    (fun error =>
       console.error "Error saving quiz attempt:" error;;
       throw error).

(** ** The rest of the services *)

(** [.from('user_article_progress').select('*').eq(...)] *)
Definition select_progress (q : Query.t) : Async (Response (list ArticleProgress.t)) :=
  supabase.request "user_article_progress" "select"
    (fun b => (Data (Query.rows progress_cell q (Backend.user_article_progress b)), b)).

(** [Record<string, any>]: the plain object that [fetchUserArticleProgress]
    fills with progress rows and that [loadArticles] indexes by article id.

    A plain object is not a finite map: its prototype is [Object.prototype],
    whose members every key lookup falls back on, and the key [__proto__] is
    an accessor: assigning an object to it replaces the prototype and adds no
    own property, reading it yields the prototype. *)
Module ProgressMap.
Record t := make {
  own : gmap string ArticleProgress.t;     (* the own properties *)
  prototype : option ArticleProgress.t;    (* the row assigned to [__proto__]; [None]: Object.prototype *)
}.

(** [{}] *)
Definition empty_object : t := make ∅ None.

(** The data and accessor properties of [Object.prototype] other than
    [__proto__]. *)
Definition Object_prototype : list string :=
  ["constructor"; "hasOwnProperty"; "isPrototypeOf"; "propertyIsEnumerable";
   "toLocaleString"; "toString"; "valueOf";
   "__defineGetter__"; "__defineSetter__"; "__lookupGetter__"; "__lookupSetter__"].

(** The own properties of a progress row. *)
Definition columns : list string :=
  ["id"; "user_id"; "article_id"; "completed"; "last_read_at"; "created_at"].

(** [acc[key] = row] *)
Definition set (key : string) (row : ArticleProgress.t) (acc : t) : t :=
  if String.eqb key "__proto__" then make (own acc) (Some row)
  else make (<[key := row]> (own acc)) (prototype acc).

(** What [obj[key]] evaluates to. *)
Inductive Value :=
| Undefined
| Row (row : ArticleProgress.t)
| Inherited.   (* a member of Object.prototype, Object.prototype itself, or a
                  field of the row made the prototype: no progress row *)

(** [obj[key]]: the own property, else what the prototype chain gives. *)
Definition get (key : string) (obj : t) : Value :=
  if String.eqb key "__proto__" then
    match prototype obj with
    | Some row => Row row
    | None => Inherited
    end
  else
    match own obj !! key with
    | Some row => Row row
    | None =>
        if match prototype obj with
           | Some _ => existsb (String.eqb key) columns
           | None => false
           end
           || existsb (String.eqb key) Object_prototype
        then Inherited
        else Undefined
    end.
End ProgressMap.

#[global] Instance ProgressMap_empty : Empty ProgressMap.t := ProgressMap.empty_object.

(** [data.reduce((acc, progress) => { acc[progress.article_id] = progress; return acc }, {})] *)
Definition progress_by_article (data : list ArticleProgress.t) : ProgressMap.t :=
  foldl (fun acc progress => ProgressMap.set (ArticleProgress.article_id progress) progress acc)
        ∅ data.

Definition fetchUserArticleProgress (userId : string) : Async ProgressMap.t :=
  try_catch
    (netInfo ← NetInfo.fetch;
     if negb (truthy netInfo) then
       console.log "Offline: Unable to fetch article progress";;
       mret ∅
     else
       response ← select_progress (Query.eq "user_id" (Text userId) Query.select);
       match response with
       | Failure error =>
           console.error "Error fetching user article progress:" (Postgrest error);;
           throw (Postgrest error)
       | Data data => mret (progress_by_article data)
       end)
    (fun error =>
       console.error "Error in fetchUserArticleProgress:" error;;
       mret ∅).

(** A [Quiz] seen at the type [Partial<Quiz>]. *)
Definition partial_of_quiz (q : Quiz.t) : PartialQuiz.t :=
  {| PartialQuiz.id := Some (Quiz.id q);
     PartialQuiz.title := Some (Quiz.title q);
     PartialQuiz.description := Quiz.description q;
     PartialQuiz.article_id := Some (Quiz.article_id q);
     PartialQuiz.time_limit_minutes := Quiz.time_limit_minutes q;
     PartialQuiz.passing_score := Some (Quiz.passing_score q);
     PartialQuiz.created_at := Some (Quiz.created_at q);
     PartialQuiz.updated_at := Some (Quiz.updated_at q);
     PartialQuiz.questions := Quiz.questions q;
     PartialQuiz.articles := Quiz.articles q |}.

(** Modelled from the spec: the join [articles (id, title)] of a quiz row
    (spec, 4.4: all quizzes with joined article title): the article the row's
    [article_id] refers to, null when there is none. *)
Definition joined_article (articles : list Article.t) (quiz : Quiz.t) : Quiz.t :=
  {| Quiz.id := Quiz.id quiz;
     Quiz.title := Quiz.title quiz;
     Quiz.description := Quiz.description quiz;
     Quiz.article_id := Quiz.article_id quiz;
     Quiz.time_limit_minutes := Quiz.time_limit_minutes quiz;
     Quiz.passing_score := Quiz.passing_score quiz;
     Quiz.created_at := Quiz.created_at quiz;
     Quiz.updated_at := Quiz.updated_at quiz;
     Quiz.questions := Quiz.questions quiz;
     Quiz.articles :=
       match List.find (fun a => String.eqb (Article.id a) (Quiz.article_id quiz)) articles with
       | Some a => Some (ArticleRef.make (Article.id a) (Article.title a))
       | None => None
       end |}.

(** [.from('quizzes').select('*, articles (id, title)')] *)
Definition select_quizzes_with_articles (q : Query.t) : Async (Response (list Quiz.t)) :=
  supabase.request "quizzes" "select"
    (fun b => (Data (map (joined_article (Backend.articles b))
                         (Query.rows quiz_cell q (Backend.quizzes b))), b)).

(** The result is typed [Quiz[]]; on the cache paths it is the list record
    cast to that type, so the model returns [Partial<Quiz>] throughout. *)
Definition fetchQuizzes : Async (list PartialQuiz.t) :=
  try_catch
    (netInfo ← NetInfo.fetch;
     if truthy netInfo then
       response ← select_quizzes_with_articles (Query.order "created_at" false Query.select);
       match response with
       | Failure error => throw (Postgrest error)
       | Data data =>
           saveQuizzesOffline data;;
           mret (map partial_of_quiz data)
       end
     else
       getOfflineQuizzes)
    (fun error =>
       console.error "Error fetching quizzes:" error;;
       getOfflineQuizzes).

(** The joined [quizzes (id, title, article_id)] of an attempt row. *)
Module QuizRef.
Record t := make { id : string; title : string; article_id : string }.
End QuizRef.

(** An attempt row with its joined quiz. *)
Module AttemptWithQuiz.
Record t := make { attempt : QuizAttempt.t; quizzes : option QuizRef.t }.
End AttemptWithQuiz.

(** The columns of an attempt; a timestamp is ordered as the instant it
    denotes. *)
Definition attempt_cell (a : QuizAttempt.t) (column : string) : option Cell :=
  if String.eqb column "id" then Some (Text (QuizAttempt.id a))
  else if String.eqb column "user_id" then Some (Text (QuizAttempt.user_id a))
  else if String.eqb column "quiz_id" then Some (Text (QuizAttempt.quiz_id a))
  else if String.eqb column "score" then Some (Number (QuizAttempt.score a))
  else if String.eqb column "completed_at"
       then Some (Number (match QuizAttempt.completed_at a with ISO8601 ms => ms end))
  else if String.eqb column "created_at"
       then Some (Number (match QuizAttempt.created_at a with ISO8601 ms => ms end))
  else None.

(** Modelled from the spec: the join [quizzes (id, title, article_id)] of an
    attempt row (spec, 4.4: attempts with joined quiz summary). *)
Definition joined_quiz (quizzes : list Quiz.t) (a : QuizAttempt.t) : AttemptWithQuiz.t :=
  {| AttemptWithQuiz.attempt := a;
     AttemptWithQuiz.quizzes :=
       match List.find (fun q => String.eqb (Quiz.id q) (QuizAttempt.quiz_id a)) quizzes with
       | Some q => Some (QuizRef.make (Quiz.id q) (Quiz.title q) (Quiz.article_id q))
       | None => None
       end |}.

(** [.from('quiz_attempts').select('*, quizzes (id, title, article_id)')] *)
Definition select_attempts_with_quizzes (q : Query.t)
    : Async (Response (list AttemptWithQuiz.t)) :=
  supabase.request "quiz_attempts" "select"
    (fun b => (Data (map (joined_quiz (Backend.quizzes b))
                         (Query.rows attempt_cell q (Backend.quiz_attempts b))), b)).

Definition fetchUserQuizAttempts (userId : string) : Async (list AttemptWithQuiz.t) :=
  try_catch
    (netInfo ← NetInfo.fetch;
     if negb (truthy netInfo) then
       console.log "Offline: Unable to fetch quiz attempts";;
       mret []
     else
       response ← select_attempts_with_quizzes
                    (Query.order "completed_at" false
                       (Query.eq "user_id" (Text userId) Query.select));
       match response with
       | Failure error => throw (Postgrest error)
       | Data data => mret data
       end)
    (fun error =>
       console.error "Error fetching user quiz attempts:" error;;
       mret []).

(** ** The screens that call the article service

    A component's state is passed in and returned: what the setters were
    last called with when the asynchronous function settles. *)

(** [ArticleWithProgress]: [{ ...article, progress, isCompleted }] *)
Module ArticleWithProgress.
Record t := make {
  article : PartialArticle.t;
  progress : ProgressMap.Value;
  isCompleted : bool;
}.
End ArticleWithProgress.

(** [user?.id], truthy: a signed-in user with a non-empty id. *)
Definition signed_in (userId : option string) : option string :=
  match userId with
  | None | Some "" => None
  | Some id => Some id
  end.

Module ArticlesScreen.
Record State := make {
  articles : list ArticleWithProgress.t;
  loading : bool;
  refreshing : bool;
}.

Inductive Filter := all | unread | completed.

(** [progressData[article.id]]; an absent id indexes with ["undefined"]. *)
Definition progress_of (progressData : ProgressMap.t)
    (article : PartialArticle.t) : ProgressMap.Value :=
  match PartialArticle.id article with
  | Some id => ProgressMap.get id progressData
  | None => ProgressMap.get "undefined" progressData
  end.

(** The callback of [articlesData.map].  [progress?.completed] is undefined
    on every value that is no progress row. *)
Definition withProgress (progressData : ProgressMap.t)
    (article : PartialArticle.t) : ArticleWithProgress.t :=
  let progress := progress_of progressData article in
  {| ArticleWithProgress.article := article;
     ArticleWithProgress.progress := progress;
     ArticleWithProgress.isCompleted :=
       match progress with
       | ProgressMap.Row p => ArticleProgress.completed p || false
       | ProgressMap.Undefined | ProgressMap.Inherited => false
       end |}.

Definition loadArticles (userId : option string) (isSubscribed : bool) (s : State)
    : Async State :=
  fun w =>
    let started := make (articles s) true (refreshing s) in
    let (outcome, w') :=
      try_catch
        (articlesData ← fetchArticles isSubscribed;
         progressData ← match signed_in userId with
                        | Some id => fetchUserArticleProgress id
                        | None => mret ∅
                        end;
         let articlesWithProgress := map (withProgress progressData) articlesData in
         mret (make articlesWithProgress (loading started) (refreshing started)))
        (fun error =>
           console.error "Error loading articles:" error;;
           mret started)
        w in
    (* finally *)
    match outcome with
    | Returned settled => (Returned (make (articles settled) false false), w')
    | Thrown error => (Thrown error, w')
    end.

Definition getFilteredArticles (filter : Filter) (s : State) : list ArticleWithProgress.t :=
  match filter with
  | unread => List.filter (fun article => negb (ArticleWithProgress.isCompleted article)) (articles s)
  | completed => List.filter (fun article => ArticleWithProgress.isCompleted article) (articles s)
  | all => articles s
  end.
End ArticlesScreen.

Module ArticleDetailScreen.
End ArticleDetailScreen.

(** ** Worlds to run the functions on *)

Definition no_rows : Backend.t := Backend.make [] [] [] [] [] [] 1.

(** A connected device with an empty store, a healthy storage and backend. *)
Definition fresh_world : World :=
  mkWorld ∅ [] (Some true) no_rows [] 1700000000000 [].

Definition disconnect (w : World) : World :=
  mkWorld (storage w) (storage_faults w) (Some false) (backend w)
          (backend_faults w) (clock w) (journal w).

Definition with_storage_faults (faults : list bool) (w : World) : World :=
  mkWorld (storage w) faults (isConnected w) (backend w)
          (backend_faults w) (clock w) (journal w).

Definition with_backend_faults (faults : list (option PostgrestError.t)) (w : World) : World :=
  mkWorld (storage w) (storage_faults w) (isConnected w) (backend w)
          faults (clock w) (journal w).

Definition article1 : Article.t :=
  Article.make "a1" "Inflation" "Prices rise." "On prices" false None
               "2024-01-02T00:00:00Z" "2024-01-02T00:00:00Z" (Some "macro") (Some 4).
Definition article2 : Article.t :=
  Article.make "a2" "Bonds" "Yields fall." "On yields" true (Some "http://img/2")
               "2024-01-03T00:00:00Z" "2024-01-03T00:00:00Z" None None.
Definition article1' : Article.t :=
  Article.make "a1" "Inflation, revised" "Prices rise faster." "On prices" false None
               "2024-01-02T00:00:00Z" "2024-01-05T00:00:00Z" (Some "macro") (Some 5).

Definition question1 : QuizQuestion.t :=
  QuizQuestion.make "qq1" "q1" "What rises?" ["Prices"; "Nothing"] 0 None 1
                    "2024-01-02T00:00:00Z" "2024-01-02T00:00:00Z".
Definition quiz1 : Quiz.t :=
  Quiz.make "q1" "Inflation quiz" None "a1" (Some 10) 70
            "2024-01-02T00:00:00Z" "2024-01-02T00:00:00Z" (Some [question1]) None.
Definition quiz_with_empty_id : Quiz.t :=
  Quiz.make "" "Bonds quiz" None "a2" None 50
            "2024-01-03T00:00:00Z" "2024-01-03T00:00:00Z" (Some []) None.

Definition quiz1_row : Quiz.t :=
  Quiz.make "q1" "Inflation quiz" None "a1" (Some 10) 70
            "2024-01-02T00:00:00Z" "2024-01-02T00:00:00Z" None None.

Definition stocked : Backend.t :=
  Backend.make [article1; article2] [quiz1_row] [question1] [] [] [] 1.

(** A connected device facing a stocked backend, with the premium article
    [article2] cached by an earlier batch. *)
Definition stocked_world : World :=
  set_backend stocked ((saveArticlesOffline [article2] fresh_world).2).

Definition outage : PostgrestError.t := PostgrestError.make "500" "backend unavailable".

(** * Vocabulary of the properties *)

(** What a call returns, the world it leaves, and the events it adds. *)
Definition result_of {A} (m : Async A) (w : World) : Outcome A := (m w).1.
Definition world_after {A} (m : Async A) (w : World) : World := (m w).2.
Definition events_of {A} (m : Async A) (w : World) : list Event :=
  drop (length (journal w)) (journal (world_after m w)).

(** A storage that rejects no coming call. *)
Definition healthy (w : World) : Prop := storage_faults w = [].

(** The device is offline, or the coming backend request fails. *)
Definition falls_back (w : World) : Prop :=
  truthy (isConnected w) = false \/
  exists error, hd None (backend_faults w) = Some error.

(** ** The writes of a batch *)

(** Outcome of the next [n] storage calls: accepted or not. *)
Fixpoint outcomes (n : nat) (faults : list bool) : list bool :=
  match n with
  | O => []
  | S n' => negb (hd false faults) :: outcomes n' (tail faults)
  end.

(** The store after a sequence of writes of which some were accepted. *)
Fixpoint written (details : list (string * Payload)) (accepted : list bool)
    (m : gmap string Payload) : gmap string Payload :=
  match details, accepted with
  | (k, v) :: ds, ok :: oks => written ds oks (if ok then <[k := v]> m else m)
  | _, _ => m
  end.

(** The store after every write of a batch was accepted. *)
Definition stored (details : list (string * Payload)) (m : gmap string Payload)
    : gmap string Payload :=
  written details (replicate (length details) true) m.

Definition write_events (details : list (string * Payload)) (accepted : list bool) : list Event :=
  zip_with (fun kv ok => StorageSet kv.1 kv.2 ok) details accepted.

Definition write_all (details : list (string * Payload)) : Async (list unit) :=
  Promise_all (map (fun kv => AsyncStorage.setItem kv.1 kv.2) details).

(** Saving a list, as both entity types do it: the list record, the detail
    records, the Sync Clock. *)
Definition saveList (listKey : string) (listText : Payload)
    (details : list (string * Payload)) (label : string) : Async unit :=
  try_catch
    (AsyncStorage.setItem listKey listText;;
     Promise_all (map (fun kv => AsyncStorage.setItem kv.1 kv.2) details);;
     saveLastSyncTime)
    (fun error => console.error label error).

Definition article_details (articles : list Article.t) : list (string * Payload) :=
  map (fun article => (KEYS.ARTICLE_PREFIX +:+ Article.id article, JsonArticle article)) articles.

Definition quiz_details (quizzes : list Quiz.t) : list (string * Payload) :=
  map (fun quiz => (KEYS.QUIZ_PREFIX +:+ Quiz.id quiz, JsonQuiz quiz)) quizzes.

(** The Sync Clock text a batch started in [w] writes. *)
Definition stamp (w : World) : Payload := DateString (ISO8601 (clock w)).

Definition stamp_events (w : World) (faults : list bool) : list Event :=
  if hd false faults
  then [StorageSet KEYS.LAST_SYNC (stamp w) false;
        ConsoleError "Error saving last sync time:" StorageError]
  else [StorageSet KEYS.LAST_SYNC (stamp w) true].

Section SaveListEffect.
Variables (listKey : string) (listText : Payload)
          (details : list (string * Payload)) (label : string).

(** Outcome of the detail writes, and the faults left for the stamp. *)
Definition detail_outcomes (w : World) : list bool :=
  outcomes (length details) (tail (storage_faults w)).
Definition faults_at_stamp (w : World) : list bool :=
  drop (length details) (tail (storage_faults w)).

Definition saveList_events (w : World) : list Event :=
  if AsyncStorage.rejects w
  then [StorageSet listKey listText false; ConsoleError label StorageError]
  else StorageSet listKey listText true
         :: write_events details (detail_outcomes w)
         ++ (if forallb id (detail_outcomes w)
             then stamp_events w (faults_at_stamp w)
             else [ConsoleError label StorageError]).

Definition saveList_storage (w : World) : gmap string Payload :=
  if AsyncStorage.rejects w then storage w
  else
    let m := written details (detail_outcomes w) (<[listKey := listText]> (storage w)) in
    if forallb id (detail_outcomes w) && negb (hd false (faults_at_stamp w))
    then <[KEYS.LAST_SYNC := stamp w]> m
    else m.

Definition saveList_faults (w : World) : list bool :=
  if AsyncStorage.rejects w then tail (storage_faults w)
  else if forallb id (detail_outcomes w) then tail (faults_at_stamp w)
       else faults_at_stamp w.
End SaveListEffect.

(** The Sync Clock was stamped, or at least its write attempted. *)
Definition stamp_attempted (events : list Event) : Prop :=
  exists value ok, In (StorageSet KEYS.LAST_SYNC value ok) events.

(** No write of the list record or of a detail record was rejected. *)
Definition batch_accepted (events : list Event) : Prop :=
  forall key value, In (StorageSet key value false) events -> key = KEYS.LAST_SYNC.

Definition failure_logged (events : list Event) : Prop :=
  exists label, In (ConsoleError label StorageError) events.

(** ** The services *)

(** What a read of the article list record yields, whatever the storage does. *)
Definition cached_articles (w : World) : list PartialArticle.t :=
  if AsyncStorage.rejects w then []
  else match storage w !! KEYS.ARTICLES with
       | Some (JsonArticles l) => l
       | _ => []
       end.

(** The query [fetchArticles] sends. *)
Definition articles_query (isPremiumUser : bool) : Query.t :=
  let query := Query.order "created_at" false Query.select in
  if negb isPremiumUser then Query.eq "is_premium" (Flag false) query else query.

(** The world in which the answer of the first backend request is handled. *)
Definition answered (w : World) : World :=
  set_backend (backend w)
    (record_event (RemoteCall "articles" "select") (next_backend_call (record_event NetInfoFetch w))).

(** The questions joined to a quiz row. *)
Definition questions_of (quizData : Quiz.t) (w : World) : list QuizQuestion.t :=
  Query.rows question_cell
             (Query.order "question_order" true
                (Query.eq "quiz_id" (Text (Quiz.id quizData)) Query.select))
             (Backend.quiz_questions (backend w)).

Ltac world_simpl :=
  unfold set_storage, next_storage_call, set_backend, next_backend_call, record_event,
         elapse, disconnect, with_storage_faults, with_backend_faults in *;
  cbn [storage storage_faults isConnected backend backend_faults clock journal
       fst snd hd tail AsyncStorage.rejects negb] in *.

(** ** Vocabulary of the further properties *)

(** An entry without the fields the list record leaves out. *)
Definition without_body (p : PartialArticle.t) : PartialArticle.t :=
  {| PartialArticle.id := PartialArticle.id p;
     PartialArticle.title := PartialArticle.title p;
     PartialArticle.content := None;
     PartialArticle.summary := PartialArticle.summary p;
     PartialArticle.is_premium := PartialArticle.is_premium p;
     PartialArticle.image_url := None;
     PartialArticle.created_at := PartialArticle.created_at p;
     PartialArticle.updated_at := PartialArticle.updated_at p;
     PartialArticle.category := PartialArticle.category p;
     PartialArticle.reading_time_minutes := PartialArticle.reading_time_minutes p |}.

(** The rows of a user for an article. *)
Definition progress_rows (userId articleId : string) (rows : list ArticleProgress.t)
    : list ArticleProgress.t :=
  List.filter (fun p => String.eqb (ArticleProgress.user_id p) userId
                        && String.eqb (ArticleProgress.article_id p) articleId) rows.

(** No call to AsyncStorage among the events. *)
Definition storage_event (e : Event) : bool :=
  match e with
  | StorageSet _ _ _ | StorageGet _ _ | StorageKeys _ | StorageMultiRemove _ _ => true
  | _ => false
  end.

(** [w'] follows [w] without any call to AsyncStorage in between. *)
Definition cache_untouched (w w' : World) : Prop :=
  storage w' = storage w /\ storage_faults w' = storage_faults w /\
  exists events, journal w' = (journal w ++ events)%list /\
                 forallb (fun e => negb (storage_event e)) events = true.

(** A function that never calls AsyncStorage, however it settles. *)
Definition bypasses_cache {A} (m : Async A) : Prop :=
  forall w, cache_untouched w (m w).2.

(** The record under the key of the article list, if there is one, is an
    article list or is no JSON at all: [JSON.parse] gives [getOfflineArticles]
    an array of entries or throws. *)
Definition reads_as_article_list (w : World) : Prop :=
  match storage w !! KEYS.ARTICLES with
  | Some (JsonArticle _) | Some (JsonQuizzes _) | Some (JsonQuiz _) => False
  | Some (JsonArticles _) | Some (DateString _) | None => True
  end.

(** The shape the cache manager reads the record under [key] at; keys outside
    its namespace are not its own. *)
Definition shaped_at (key : string) (value : Payload) : bool :=
  if String.eqb key KEYS.ARTICLES then
    match value with JsonArticles _ => true | _ => false end
  else if String.eqb key KEYS.QUIZZES then
    match value with JsonQuizzes _ => true | _ => false end
  else if String.eqb key KEYS.LAST_SYNC then
    match value with DateString _ => true | _ => false end
  else if String.prefix KEYS.ARTICLE_PREFIX key then
    match value with JsonArticle _ => true | _ => false end
  else if String.prefix KEYS.QUIZ_PREFIX key then
    match value with JsonQuiz _ => true | _ => false end
  else true.

(** Every record of the store has the shape its key is read at. *)
Definition well_shaped (m : gmap string Payload) : Prop :=
  forall key value, m !! key = Some value -> shaped_at key value = true.

(** A name that every plain object inherits from [Object.prototype]. *)
Definition inherited_name (key : string) : bool :=
  String.eqb key "__proto__" || existsb (String.eqb key) ProgressMap.Object_prototype.

(** ** Further worlds *)

Definition progress1 : ArticleProgress.t :=
  ArticleProgress.make "p1" "u1" "a1" false (ISO8601 1690000000000) (ISO8601 1690000000000).

Definition attempt1 : QuizAttempt.t :=
  QuizAttempt.make "t1" "u1" "q1" 80 (ISO8601 1695000000000) (ISO8601 1695000000000).

Definition tracked : Backend.t :=
  Backend.make [article1; article2] [quiz1_row] [question1] [progress1] [attempt1] [] 2.

(** A connected device with an empty store, facing a backend that holds one
    progress row and one attempt of the user u1. *)
Definition tracked_world : World := set_backend tracked fresh_world.

(** A completed row of u1 for an article whose id is [__proto__]. *)
Definition progress_proto : ArticleProgress.t :=
  ArticleProgress.make "p2" "u1" "__proto__" true
                       (ISO8601 1690000000000) (ISO8601 1690000000000).

(** The tracked backend with that row added. *)
Definition prototype_world : World :=
  set_backend
    (Backend.make [article1; article2] [quiz1_row] [question1] [progress1; progress_proto]
                  [attempt1] [] 3)
    fresh_world.

(** * Properties *)

(** A batch of two articles on a healthy storage, as journalled. *)
Example healthy_batch_journal :
  events_of (saveArticlesOffline [article1; article2]) fresh_world =
    [StorageSet "econquiz_articles"
                (JsonArticles [article_list_entry article1; article_list_entry article2]) true;
     StorageSet "econquiz_article_a1" (JsonArticle article1) true;
     StorageSet "econquiz_article_a2" (JsonArticle article2) true;
     StorageSet "econquiz_last_sync" (DateString (ISO8601 1700000000000)) true].
Proof. vm_compute. reflexivity. Qed.

(** The same articles as the backend returns them to a caller without premium
    access, newest first. *)
Example free_rows_newest_first :
  Query.rows article_cell (articles_query false) [article1; article2; article1']
    = [article1; article1'] /\
  Query.rows article_cell (articles_query true) [article1; article2]
    = [article2; article1].
Proof. split; vm_compute; reflexivity. Qed.

(** ** Saving a list *)

Lemma next_storage_call_healthy (w : World) : healthy w -> next_storage_call w = w.
Proof. destruct w; unfold healthy; simpl; intros ->; reflexivity. Qed.

Lemma outcomes_length n faults : length (outcomes n faults) = n.
Proof. revert faults; induction n; simpl; intros; [reflexivity | rewrite IHn; reflexivity]. Qed.

Lemma outcomes_healthy n : outcomes n [] = replicate n true.
Proof. induction n; simpl; [reflexivity | rewrite IHn; reflexivity]. Qed.

Lemma drop_tail {A} n (l : list A) : drop n (tail l) = drop (S n) l.
Proof. destruct l; simpl; [apply drop_nil | reflexivity]. Qed.

Lemma write_all_run details w :
  let accepted := outcomes (length details) (storage_faults w) in
  write_all details w =
    (if forallb id accepted then Returned (map (fun _ => tt) details) else Thrown StorageError,
     mkWorld (written details accepted (storage w))
             (drop (length details) (storage_faults w))
             (isConnected w) (backend w) (backend_faults w) (clock w)
             (journal w ++ write_events details accepted)).
Proof.
  revert w; induction details as [|[k v] ds IH]; intros w accepted.
  - destruct w; simpl. rewrite app_nil_r. reflexivity.
  - unfold write_all in *. cbn [map Promise_all].
    unfold AsyncStorage.setItem at 1. cbn [fst snd].
    subst accepted. cbn [length outcomes written write_events zip_with forallb id].
    destruct (AsyncStorage.rejects w) eqn:Hr; unfold AsyncStorage.rejects in Hr; rewrite Hr;
      rewrite IH; world_simpl; rewrite drop_tail, <- app_assoc; cbn [app fst snd negb];
      destruct (forallb id _); reflexivity.
Qed.

Lemma saveArticlesOffline_saveList articles :
  saveArticlesOffline articles =
  saveList KEYS.ARTICLES (JsonArticles (map article_list_entry articles))
           (article_details articles) "Error saving articles offline:".
Proof. unfold saveArticlesOffline, saveList, article_details. rewrite map_map. reflexivity. Qed.

Lemma saveQuizzesOffline_saveList quizzes :
  saveQuizzesOffline quizzes =
  saveList KEYS.QUIZZES (JsonQuizzes (map quiz_list_entry quizzes))
           (quiz_details quizzes) "Error saving quizzes offline:".
Proof. unfold saveQuizzesOffline, saveList, quiz_details. rewrite map_map. reflexivity. Qed.

Section SaveList.
Variables (listKey : string) (listText : Payload)
          (details : list (string * Payload)) (label : string).

Lemma saveList_run w :
  saveList listKey listText details label w =
    (Returned tt,
     mkWorld (saveList_storage listKey listText details w) (saveList_faults details w)
             (isConnected w) (backend w) (backend_faults w) (clock w)
             (journal w ++ saveList_events listKey listText details label w)).
Proof.
  unfold saveList, saveList_events, saveList_storage, saveList_faults.
  fold (write_all details).
  unfold try_catch, mbind, Async_bind.
  unfold AsyncStorage.setItem at 1.
  destruct (AsyncStorage.rejects w) eqn:Hr.
  - unfold console.error. world_simpl. rewrite <- app_assoc. reflexivity.
  - rewrite write_all_run. world_simpl.
    fold (detail_outcomes details w). fold (faults_at_stamp details w).
    destruct (forallb id (detail_outcomes details w)) eqn:Hall.
    + unfold saveLastSyncTime, try_catch, mbind, Async_bind, Date.toISOString,
        AsyncStorage.setItem, stamp_events, console.error, stamp.
      unfold AsyncStorage.rejects. world_simpl.
      destruct (hd false (faults_at_stamp details w)); world_simpl;
        rewrite <- !app_assoc; reflexivity.
    + unfold console.error. world_simpl. rewrite <- !app_assoc. reflexivity.
Qed.

Lemma saveList_returns w : result_of (saveList listKey listText details label) w = Returned tt.
Proof. unfold result_of. rewrite saveList_run. reflexivity. Qed.

Lemma saveList_journal w :
  events_of (saveList listKey listText details label) w
  = saveList_events listKey listText details label w.
Proof.
  unfold events_of, world_after. rewrite saveList_run. cbn [snd journal].
  rewrite drop_app_length. reflexivity.
Qed.
End SaveList.

(** ** A batch on a healthy storage *)

Lemma written_other details accepted (m : gmap string Payload) k :
  k ∉ map fst details -> written details accepted m !! k = m !! k.
Proof.
  revert accepted m; induction details as [|[k' v'] ds IH]; intros accepted m Hk; [reflexivity|].
  destruct accepted as [|ok oks]; [reflexivity|]. cbn [written].
  cbn [map fst] in Hk. apply not_elem_of_cons in Hk as [Hne Hk].
  rewrite IH by exact Hk. destruct ok; [apply lookup_insert_ne; congruence | reflexivity].
Qed.

(** The last write to a key is the one that is read back. *)
Lemma stored_last before k v later (m : gmap string Payload) :
  k ∉ map fst later -> stored (before ++ (k, v) :: later) m !! k = Some v.
Proof.
  unfold stored. revert m; induction before as [|[k' v'] ds IH]; intros m Hk.
  - cbn [app length replicate written]. rewrite written_other by exact Hk.
    apply lookup_insert_eq.
  - cbn [app length replicate written]. apply IH, Hk.
Qed.

Lemma stored_NoDup details k v (m : gmap string Payload) :
  NoDup (map fst details) -> (k, v) ∈ details -> stored details m !! k = Some v.
Proof.
  intros Hnd Hin. apply list_elem_of_split in Hin as (before & later & ->).
  apply stored_last. rewrite map_app in Hnd. cbn [map fst] in Hnd.
  apply NoDup_app in Hnd as (_ & _ & Hnd). apply NoDup_cons in Hnd as [Hk _]. exact Hk.
Qed.

Section SaveListHealthy.
Variables (listKey : string) (listText : Payload)
          (details : list (string * Payload)) (label : string).
Variable w : World.
Hypothesis Hw : healthy w.

Lemma detail_outcomes_healthy : detail_outcomes details w = replicate (length details) true.
Proof. unfold detail_outcomes. rewrite Hw. apply outcomes_healthy. Qed.

Lemma faults_at_stamp_healthy : faults_at_stamp details w = [].
Proof. unfold faults_at_stamp. rewrite Hw. apply drop_nil. Qed.

Lemma all_accepted n : forallb id (replicate n true) = true.
Proof. induction n; [reflexivity | exact IHn]. Qed.

Lemma saveList_healthy :
  world_after (saveList listKey listText details label) w =
    mkWorld (<[KEYS.LAST_SYNC := stamp w]> (stored details (<[listKey := listText]> (storage w))))
            [] (isConnected w) (backend w) (backend_faults w) (clock w)
            (journal w ++ StorageSet listKey listText true
               :: write_events details (replicate (length details) true)
               ++ [StorageSet KEYS.LAST_SYNC (stamp w) true]).
Proof.
  unfold world_after. rewrite saveList_run. cbn [snd].
  unfold saveList_storage, saveList_faults, saveList_events, stamp_events, AsyncStorage.rejects.
  rewrite detail_outcomes_healthy, faults_at_stamp_healthy, all_accepted, Hw.
  reflexivity.
Qed.
End SaveListHealthy.

(** ** Reads *)

Lemma getItem_healthy key w :
  healthy w ->
  AsyncStorage.getItem key w = (Returned (storage w !! key), record_event (StorageGet key true) w).
Proof.
  intros Hw. unfold AsyncStorage.getItem, AsyncStorage.rejects.
  rewrite (next_storage_call_healthy w Hw), Hw. reflexivity.
Qed.

Lemma getOfflineArticles_healthy w l :
  healthy w -> storage w !! KEYS.ARTICLES = Some (JsonArticles l) ->
  getOfflineArticles w = (Returned l, record_event (StorageGet KEYS.ARTICLES true) w).
Proof.
  intros Hw Hl. unfold getOfflineArticles, try_catch, mbind, Async_bind.
  rewrite getItem_healthy, Hl by exact Hw. reflexivity.
Qed.

Lemma getOfflineArticle_healthy w articleId a :
  healthy w -> storage w !! (KEYS.ARTICLE_PREFIX +:+ articleId) = Some (JsonArticle a) ->
  getOfflineArticle articleId w =
    (Returned (Some a), record_event (StorageGet (KEYS.ARTICLE_PREFIX +:+ articleId) true) w).
Proof.
  intros Hw Hl. unfold getOfflineArticle, try_catch, mbind, Async_bind.
  rewrite getItem_healthy, Hl by exact Hw. reflexivity.
Qed.

Lemma getOfflineQuizzes_healthy w l :
  healthy w -> storage w !! KEYS.QUIZZES = Some (JsonQuizzes l) ->
  getOfflineQuizzes w = (Returned l, record_event (StorageGet KEYS.QUIZZES true) w).
Proof.
  intros Hw Hl. unfold getOfflineQuizzes, try_catch, mbind, Async_bind.
  rewrite getItem_healthy, Hl by exact Hw. reflexivity.
Qed.

Lemma getOfflineQuiz_healthy w quizId q :
  healthy w -> storage w !! (KEYS.QUIZ_PREFIX +:+ quizId) = Some (JsonQuiz q) ->
  getOfflineQuiz quizId w =
    (Returned (Some q), record_event (StorageGet (KEYS.QUIZ_PREFIX +:+ quizId) true) w).
Proof.
  intros Hw Hl. unfold getOfflineQuiz, try_catch, mbind, Async_bind.
  rewrite getItem_healthy, Hl by exact Hw. reflexivity.
Qed.

(** ** Keys do not collide *)

Lemma prefix_inj (p a b : string) : p +:+ a = p +:+ b -> a = b.
Proof. induction p; simpl; intros H; [exact H | injection H; auto]. Qed.

Lemma article_key_not_list id : KEYS.ARTICLE_PREFIX +:+ id ≠ KEYS.ARTICLES.
Proof. destruct id; discriminate. Qed.
Lemma article_key_not_sync id : KEYS.ARTICLE_PREFIX +:+ id ≠ KEYS.LAST_SYNC.
Proof. discriminate. Qed.
Lemma quiz_key_not_list id : KEYS.QUIZ_PREFIX +:+ id ≠ KEYS.QUIZZES.
Proof. destruct id; discriminate. Qed.
Lemma quiz_key_not_sync id : KEYS.QUIZ_PREFIX +:+ id ≠ KEYS.LAST_SYNC.
Proof. discriminate. Qed.

Lemma article_list_not_detail articles : KEYS.ARTICLES ∉ map fst (article_details articles).
Proof.
  unfold article_details. rewrite map_map. cbn [fst]. intros Hin.
  apply list_elem_of_fmap in Hin as (a & Heq & _). symmetry in Heq.
  exact (article_key_not_list _ Heq).
Qed.

Lemma quiz_list_not_detail quizzes : KEYS.QUIZZES ∉ map fst (quiz_details quizzes).
Proof.
  unfold quiz_details. rewrite map_map. cbn [fst]. intros Hin.
  apply list_elem_of_fmap in Hin as (a & Heq & _). symmetry in Heq.
  exact (quiz_key_not_list _ Heq).
Qed.

Lemma article_details_keys articles :
  map fst (article_details articles) = map (fun a => KEYS.ARTICLE_PREFIX +:+ Article.id a) articles.
Proof. unfold article_details. rewrite map_map. reflexivity. Qed.

Lemma quiz_details_keys quizzes :
  map fst (quiz_details quizzes) = map (fun q => KEYS.QUIZ_PREFIX +:+ Quiz.id q) quizzes.
Proof. unfold quiz_details. rewrite map_map. reflexivity. Qed.

Lemma NoDup_prefixed {A} (p : string) (f : A -> string) (l : list A) :
  NoDup (map f l) -> NoDup (map (fun x => p +:+ f x) l).
Proof.
  intros H. rewrite <- (map_map f (fun s => p +:+ s)).
  exact (NoDup_fmap_2 (fun s => p +:+ s) (Inj0 := prefix_inj p) _ H).
Qed.

(** ** The store a healthy batch leaves *)

Section Saved.
Variables (listKey : string) (listText : Payload)
          (details : list (string * Payload)) (label : string).
Variable w : World.
Hypothesis Hw : healthy w.

Let w' := world_after (saveList listKey listText details label) w.

Lemma saved_healthy : healthy w'.
Proof. unfold w'. rewrite saveList_healthy by exact Hw. reflexivity. Qed.

Lemma saved_clock : clock w' = clock w.
Proof. unfold w'. rewrite saveList_healthy by exact Hw. reflexivity. Qed.

Lemma saved_sync : storage w' !! KEYS.LAST_SYNC = Some (stamp w).
Proof.
  unfold w'. rewrite saveList_healthy by exact Hw. cbn [storage].
  apply lookup_insert_eq.
Qed.

Lemma saved_list :
  listKey ≠ KEYS.LAST_SYNC -> listKey ∉ map fst details ->
  storage w' !! listKey = Some listText.
Proof.
  intros Hs Hd. unfold w'. rewrite saveList_healthy by exact Hw. cbn [storage].
  rewrite lookup_insert_ne by congruence. unfold stored.
  rewrite written_other by exact Hd. apply lookup_insert_eq.
Qed.

Lemma saved_detail k v :
  k ≠ KEYS.LAST_SYNC -> NoDup (map fst details) -> (k, v) ∈ details ->
  storage w' !! k = Some v.
Proof.
  intros Hs Hnd Hin. unfold w'. rewrite saveList_healthy by exact Hw. cbn [storage].
  rewrite lookup_insert_ne by congruence. apply stored_NoDup; assumption.
Qed.

Lemma saved_other k :
  k ≠ KEYS.LAST_SYNC -> k ≠ listKey -> k ∉ map fst details ->
  storage w' !! k = storage w !! k.
Proof.
  intros Hs Hl Hd. unfold w'. rewrite saveList_healthy by exact Hw. cbn [storage].
  rewrite lookup_insert_ne by congruence. unfold stored.
  rewrite written_other by exact Hd. apply lookup_insert_ne. congruence.
Qed.
End Saved.

(** ** C2: cache round trip *)

(** C2, as stated, at a list in which one identity occurs twice: the detail
    record read back for the identity of the first entity is the second
    entity, which differs from the first. *)
Lemma round_trip_duplicate_identity :
  let saved := [article1; article1'] in
  let w := world_after (saveArticlesOffline saved) fresh_world in
  healthy fresh_world /\ In article1 saved /\
  result_of (getOfflineArticle (Article.id article1)) w = Returned (Some article1') /\
  article1' <> article1.
Proof.
  cbv zeta. split; [reflexivity|]. split; [left; reflexivity|].
  split; [vm_compute; reflexivity | discriminate].
Qed.

(** C2 (amended): on a storage that rejects no call, after a list of N
    articles (or quizzes) with pairwise distinct identities is saved,
    [getOfflineArticles] ([getOfflineQuizzes]) returns exactly N list entries
    whose identities are those of the input in order, and
    [getOfflineArticle] ([getOfflineQuiz]) of each saved identity returns the
    input entity itself. *)
Theorem cache_round_trip :
  (forall (articles : list Article.t) (w : World),
      healthy w -> NoDup (map Article.id articles) ->
      let w' := world_after (saveArticlesOffline articles) w in
      (exists listed,
          result_of getOfflineArticles w' = Returned listed /\
          length listed = length articles /\
          map PartialArticle.id listed = map (fun a => Some (Article.id a)) articles) /\
      (forall a, In a articles ->
                 result_of (getOfflineArticle (Article.id a)) w' = Returned (Some a))) /\
  (forall (quizzes : list Quiz.t) (w : World),
      healthy w -> NoDup (map Quiz.id quizzes) ->
      let w' := world_after (saveQuizzesOffline quizzes) w in
      (exists listed,
          result_of getOfflineQuizzes w' = Returned listed /\
          length listed = length quizzes /\
          map PartialQuiz.id listed = map (fun q => Some (Quiz.id q)) quizzes) /\
      (forall q, In q quizzes ->
                 result_of (getOfflineQuiz (Quiz.id q)) w' = Returned (Some q))).
Proof.
  split.
  - intros articles w Hw Hnd w'. subst w'. rewrite saveArticlesOffline_saveList.
    split.
    + exists (map article_list_entry articles). split; [|split].
      * unfold result_of. erewrite getOfflineArticles_healthy; [reflexivity| |].
        -- apply saved_healthy, Hw.
        -- apply saved_list; [exact Hw | discriminate | apply article_list_not_detail].
      * apply length_map.
      * rewrite map_map. reflexivity.
    + intros a Ha. unfold result_of. erewrite getOfflineArticle_healthy; [reflexivity| |].
      * apply saved_healthy, Hw.
      * apply saved_detail; [exact Hw | apply article_key_not_sync | |].
        -- rewrite article_details_keys. apply (NoDup_prefixed _ Article.id), Hnd.
        -- unfold article_details. apply list_elem_of_In, in_map_iff. exists a. auto.
  - intros quizzes w Hw Hnd w'. subst w'. rewrite saveQuizzesOffline_saveList.
    split.
    + exists (map quiz_list_entry quizzes). split; [|split].
      * unfold result_of. erewrite getOfflineQuizzes_healthy; [reflexivity| |].
        -- apply saved_healthy, Hw.
        -- apply saved_list; [exact Hw | discriminate | apply quiz_list_not_detail].
      * apply length_map.
      * rewrite map_map. reflexivity.
    + intros q Hq. unfold result_of. erewrite getOfflineQuiz_healthy; [reflexivity| |].
      * apply saved_healthy, Hw.
      * apply saved_detail; [exact Hw | apply quiz_key_not_sync | |].
        -- rewrite quiz_details_keys. apply (NoDup_prefixed _ Quiz.id), Hnd.
        -- unfold quiz_details. apply list_elem_of_In, in_map_iff. exists q. auto.
Qed.

(** ** C6: staleness *)

(** What [isSyncNeeded] answers, whatever the storage does. *)
Lemma isSyncNeeded_run w :
  result_of isSyncNeeded w =
    Returned (if AsyncStorage.rejects w then true
              else match storage w !! KEYS.LAST_SYNC with
                   | None => true
                   | Some text =>
                       match getTime text with
                       | Some lastSyncDate => Z.ltb (24 * (1000 * 60 * 60)) (clock w - lastSyncDate)
                       | None => false
                       end
                   end).
Proof.
  unfold result_of, isSyncNeeded, getLastSyncTime, try_catch, mbind, Async_bind,
    AsyncStorage.getItem.
  destruct (AsyncStorage.rejects w); [reflexivity|].
  destruct (storage w !! KEYS.LAST_SYNC) as [text|]; [|reflexivity].
  unfold Date.now. world_simpl. destruct (getTime text); reflexivity.
Qed.

Lemma lookup_foldr_delete (m : gmap string Payload) (keys : list string) (k : string) :
  foldr delete m keys !! k = if decide (k ∈ keys) then None else m !! k.
Proof.
  induction keys as [|k' ks IH]; cbn [foldr].
  - rewrite decide_False by apply not_elem_of_nil. reflexivity.
  - destruct (decide (k' = k)) as [->|Hne].
    + rewrite lookup_delete_eq, decide_True by apply list_elem_of_here. reflexivity.
    + rewrite lookup_delete_ne, IH by exact Hne.
      destruct (decide (k ∈ ks)) as [Hin|Hin].
      * rewrite decide_True by (apply list_elem_of_further, Hin). reflexivity.
      * rewrite decide_False; [reflexivity|].
        intros Hc. apply elem_of_cons in Hc as [->|Hc]; [congruence | exact (Hin Hc)].
Qed.

(** On a healthy storage [clearOfflineData] removes the keys of the
    namespace and no other. *)
Lemma clearOfflineData_healthy w k :
  healthy w ->
  storage (world_after clearOfflineData w) !! k =
    if String.prefix "econquiz_" k then None else storage w !! k.
Proof.
  intros Hw.
  unfold world_after, clearOfflineData, try_catch, mbind, Async_bind,
    AsyncStorage.getAllKeys, AsyncStorage.multiRemove, AsyncStorage.rejects.
  rewrite (next_storage_call_healthy w Hw), Hw. world_simpl. rewrite Hw. cbn [hd snd storage].
  rewrite lookup_foldr_delete.
  destruct (String.prefix "econquiz_" k) eqn:Hp.
  - destruct (decide _) as [|Hout]; [reflexivity|].
    destruct (storage w !! k) eqn:Hk; [|reflexivity].
    exfalso. apply Hout. apply list_elem_of_In, filter_In. split; [|exact Hp].
    apply list_elem_of_In, elem_of_elements, elem_of_dom. rewrite Hk. eauto.
  - rewrite decide_False; [reflexivity|].
    intros Hin. apply list_elem_of_In, filter_In in Hin as [_ Hin]. congruence.
Qed.

(** C6: [isSyncNeeded] answers true when there is no Sync Clock record, in
    particular right after [clearOfflineData]; false right after a list was
    saved on a healthy storage, and as long as no more than 24 hours have
    passed since; true whenever more than 24 hours separate the stored Sync
    Clock from now. *)
Theorem staleness_threshold :
  (forall w, storage w !! KEYS.LAST_SYNC = None -> result_of isSyncNeeded w = Returned true) /\
  (forall w, healthy w ->
             result_of isSyncNeeded (world_after clearOfflineData w) = Returned true) /\
  (forall articles w, healthy w ->
             result_of isSyncNeeded (world_after (saveArticlesOffline articles) w)
             = Returned false) /\
  (forall quizzes w, healthy w ->
             result_of isSyncNeeded (world_after (saveQuizzesOffline quizzes) w)
             = Returned false) /\
  (forall articles w (passed : Z), healthy w -> passed <= 24 * (1000 * 60 * 60) ->
             result_of isSyncNeeded (elapse passed (world_after (saveArticlesOffline articles) w))
             = Returned false) /\
  (forall w (lastSync : Z),
             storage w !! KEYS.LAST_SYNC = Some (DateString (ISO8601 lastSync)) ->
             clock w - lastSync > 24 * (1000 * 60 * 60) ->
             result_of isSyncNeeded w = Returned true).
Proof.
  repeat split.
  - intros w Hnone. rewrite isSyncNeeded_run, Hnone. destruct (AsyncStorage.rejects w); reflexivity.
  - intros w Hw. rewrite isSyncNeeded_run.
    rewrite clearOfflineData_healthy by exact Hw. cbn [String.prefix].
    destruct (AsyncStorage.rejects _); reflexivity.
  - intros articles w Hw. rewrite isSyncNeeded_run, saveArticlesOffline_saveList.
    unfold AsyncStorage.rejects. rewrite saved_healthy, saved_sync, saved_clock by exact Hw.
    cbn [hd stamp getTime]. f_equal. apply Z.ltb_ge. lia.
  - intros quizzes w Hw. rewrite isSyncNeeded_run, saveQuizzesOffline_saveList.
    unfold AsyncStorage.rejects. rewrite saved_healthy, saved_sync, saved_clock by exact Hw.
    cbn [hd stamp getTime]. f_equal. apply Z.ltb_ge. lia.
  - intros articles w passed Hw Hpassed.
    rewrite isSyncNeeded_run, saveArticlesOffline_saveList.
    unfold AsyncStorage.rejects, elapse. cbn [storage storage_faults clock].
    rewrite saved_healthy, saved_sync, saved_clock by exact Hw.
    cbn [hd stamp getTime]. f_equal. apply Z.ltb_ge. lia.
  - intros w lastSync Hsync Hlate. rewrite isSyncNeeded_run, Hsync. cbn [getTime].
    destruct (AsyncStorage.rejects w); [reflexivity|]. f_equal. apply Z.ltb_lt. lia.
Qed.

(** ** C4: what a batch does when writes are rejected *)

Lemma write_events_attempted details accepted k v :
  length accepted = length details -> (k, v) ∈ details ->
  exists ok, In (StorageSet k v ok) (write_events details accepted).
Proof.
  revert accepted; induction details as [|[k' v'] ds IH]; intros accepted Hlen Hin.
  - apply elem_of_nil in Hin as [].
  - destruct accepted as [|ok oks]; [discriminate|]. injection Hlen as Hlen.
    apply elem_of_cons in Hin as [Heq|Hin].
    + injection Heq as -> ->. exists ok. left. reflexivity.
    + destruct (IH oks Hlen Hin) as [ok' Hok']. exists ok'. right. exact Hok'.
Qed.

Lemma write_events_rejected details accepted k v :
  In (StorageSet k v false) (write_events details accepted) ->
  forallb id accepted = false /\ k ∈ map fst details.
Proof.
  revert accepted; induction details as [|[k' v'] ds IH]; intros accepted Hin.
  - destruct Hin.
  - destruct accepted as [|ok oks]; [destruct Hin|].
    cbn [write_events zip_with] in Hin. destruct Hin as [Heq|Hin].
    + injection Heq as -> -> ->. split; [reflexivity | apply list_elem_of_here].
    + destruct (IH oks Hin) as [Hall Hk]. split.
      * cbn [forallb]. rewrite Hall. apply andb_false_r.
      * apply list_elem_of_further, Hk.
Qed.

Lemma write_events_some_rejected details accepted :
  length accepted = length details -> forallb id accepted = false ->
  exists k v, k ∈ map fst details /\ In (StorageSet k v false) (write_events details accepted).
Proof.
  revert accepted; induction details as [|[k' v'] ds IH]; intros accepted Hlen Hall.
  - destruct accepted; discriminate.
  - destruct accepted as [|ok oks]; [discriminate|]. injection Hlen as Hlen.
    destruct ok.
    + destruct (IH oks Hlen Hall) as (k & v & Hk & Hin).
      exists k, v. split; [apply list_elem_of_further, Hk | right; exact Hin].
    + exists k', v'. split; [apply list_elem_of_here | left; reflexivity].
Qed.

Lemma write_events_keys details accepted k v ok :
  In (StorageSet k v ok) (write_events details accepted) -> k ∈ map fst details.
Proof.
  revert accepted; induction details as [|[k' v'] ds IH]; intros accepted Hin.
  - destruct Hin.
  - destruct accepted as [|ok' oks]; [destruct Hin|].
    destruct Hin as [Heq|Hin].
    + injection Heq as -> -> ->. apply list_elem_of_here.
    + apply list_elem_of_further, (IH oks Hin).
Qed.

Section BestEffort.
Variables (listKey : string) (listText : Payload)
          (details : list (string * Payload)) (label : string).
Hypothesis list_not_sync : listKey ≠ KEYS.LAST_SYNC.
Hypothesis details_not_sync : KEYS.LAST_SYNC ∉ map fst details.
Variable w : World.

Let events := events_of (saveList listKey listText details label) w.

Lemma batch_list_rejected :
  AsyncStorage.rejects w = true ->
  events = [StorageSet listKey listText false; ConsoleError label StorageError].
Proof.
  intros Hr. unfold events. rewrite saveList_journal. unfold saveList_events.
  rewrite Hr. reflexivity.
Qed.

Lemma batch_details_attempted k v :
  AsyncStorage.rejects w = false -> (k, v) ∈ details ->
  exists ok, In (StorageSet k v ok) events.
Proof.
  intros Hr Hin. unfold events. rewrite saveList_journal. unfold saveList_events.
  rewrite Hr.
  destruct (write_events_attempted details (detail_outcomes details w) k v) as [ok Hok];
    [apply outcomes_length | exact Hin |].
  exists ok. right. apply in_or_app. left. exact Hok.
Qed.

Lemma batch_failure_logged :
  (exists key value, In (StorageSet key value false) events) -> failure_logged events.
Proof.
  intros (key & value & Hin). unfold events in *. rewrite saveList_journal in *.
  unfold saveList_events in *. unfold failure_logged.
  destruct (AsyncStorage.rejects w).
  - exists label. right. left. reflexivity.
  - destruct Hin as [Heq|Hin]; [discriminate|].
    apply in_app_or in Hin as [Hin|Hin].
    + apply write_events_rejected in Hin as [Hall _]. rewrite Hall.
      exists label. right. apply in_or_app. right. left. reflexivity.
    + destruct (forallb id (detail_outcomes details w)).
      * unfold stamp_events in *. destruct (hd false _).
        -- exists "Error saving last sync time:". right. apply in_or_app. right.
           right. left. reflexivity.
        -- destruct Hin as [Heq|[]]. discriminate.
      * destruct Hin as [Heq|[]]. discriminate.
Qed.

Lemma batch_stamp_iff : stamp_attempted events <-> batch_accepted events.
Proof.
  unfold events. rewrite saveList_journal. unfold saveList_events, stamp_attempted, batch_accepted.
  destruct (AsyncStorage.rejects w).
  - split.
    + intros (value & ok & [Heq|[Heq|[]]]); [|discriminate].
      injection Heq as Hk _ _. congruence.
    + intros Hacc. exfalso. apply list_not_sync, (Hacc listKey listText). left. reflexivity.
  - pose proof (outcomes_length (length details) (tail (storage_faults w))) as Hlen.
    fold (detail_outcomes details w) in Hlen.
    destruct (forallb id (detail_outcomes details w)) eqn:Hall.
    + split.
      * intros _ key value [Heq|Hin]; [discriminate|].
        apply in_app_or in Hin as [Hin|Hin].
        -- apply write_events_rejected in Hin as [Hno _]. congruence.
        -- unfold stamp_events in Hin. destruct (hd false _).
           ++ destruct Hin as [Heq|[Heq|[]]]; [|discriminate]. injection Heq as <- _. reflexivity.
           ++ destruct Hin as [Heq|[]]. discriminate.
      * intros _. unfold stamp_events. destruct (hd false _).
        -- exists (stamp w), false. right. apply in_or_app. right. left. reflexivity.
        -- exists (stamp w), true. right. apply in_or_app. right. left. reflexivity.
    + split.
      * intros (value & ok & [Heq|Hin]).
        -- injection Heq as Hk _. congruence.
        -- apply in_app_or in Hin as [Hin|[Heq|[]]]; [|discriminate].
           apply write_events_keys in Hin. contradiction.
      * intros Hacc. exfalso.
        destruct (write_events_some_rejected details _ Hlen Hall) as (k & v & Hk & Hin).
        assert (k = KEYS.LAST_SYNC) as ->.
        { apply (Hacc k v). right. apply in_or_app. left. exact Hin. }
        contradiction.
Qed.
End BestEffort.

Lemma sync_not_article_detail articles : KEYS.LAST_SYNC ∉ map fst (article_details articles).
Proof.
  rewrite article_details_keys. intros Hin.
  apply list_elem_of_fmap in Hin as (a & Heq & _). symmetry in Heq.
  exact (article_key_not_sync _ Heq).
Qed.

Lemma sync_not_quiz_detail quizzes : KEYS.LAST_SYNC ∉ map fst (quiz_details quizzes).
Proof.
  rewrite quiz_details_keys. intros Hin.
  apply list_elem_of_fmap in Hin as (a & Heq & _). symmetry in Heq.
  exact (quiz_key_not_sync _ Heq).
Qed.

(** C4, as stated, at a batch whose first detail write is rejected, and at a
    batch whose list write is rejected: in the first the Sync Clock is not
    stamped although every write was attempted; in the second no detail
    write is attempted at all. *)
Lemma batch_with_rejected_write :
  let articles := [article1; article2] in
  let save := saveArticlesOffline articles in
  let listText := JsonArticles (map article_list_entry articles) in
  events_of save (with_storage_faults [false; true] fresh_world) =
    [StorageSet "econquiz_articles" listText true;
     StorageSet "econquiz_article_a1" (JsonArticle article1) false;
     StorageSet "econquiz_article_a2" (JsonArticle article2) true;
     ConsoleError "Error saving articles offline:" StorageError] /\
  storage (world_after save (with_storage_faults [false; true] fresh_world))
    !! "econquiz_last_sync" = None /\
  events_of save (with_storage_faults [true] fresh_world) =
    [StorageSet "econquiz_articles" listText false;
     ConsoleError "Error saving articles offline:" StorageError].
Proof. cbv zeta. repeat split; vm_compute; reflexivity. Qed.

(** C4 (amended): a call to [saveArticlesOffline] ([saveQuizzesOffline])
    never raises.  When the write of the list record, the coming storage call,
    is accepted, the write of every entity's detail record is attempted,
    whatever happened to the writes before it; when it is rejected the batch
    ends there.  A rejected write is logged.  The write of the Sync Clock is
    issued exactly when the list record and every detail record were
    accepted. *)
Theorem saveList_best_effort :
  (forall (articles : list Article.t) (w : World),
      let events := events_of (saveArticlesOffline articles) w in
      result_of (saveArticlesOffline articles) w = Returned tt /\
      (AsyncStorage.rejects w = false ->
       forall a, In a articles ->
         exists ok, In (StorageSet (KEYS.ARTICLE_PREFIX +:+ Article.id a) (JsonArticle a) ok)
                       events) /\
      (AsyncStorage.rejects w = true ->
       events = [StorageSet KEYS.ARTICLES (JsonArticles (map article_list_entry articles)) false;
                 ConsoleError "Error saving articles offline:" StorageError]) /\
      ((exists key value, In (StorageSet key value false) events) -> failure_logged events) /\
      (stamp_attempted events <-> batch_accepted events)) /\
  (forall (quizzes : list Quiz.t) (w : World),
      let events := events_of (saveQuizzesOffline quizzes) w in
      result_of (saveQuizzesOffline quizzes) w = Returned tt /\
      (AsyncStorage.rejects w = false ->
       forall q, In q quizzes ->
         exists ok, In (StorageSet (KEYS.QUIZ_PREFIX +:+ Quiz.id q) (JsonQuiz q) ok) events) /\
      (AsyncStorage.rejects w = true ->
       events = [StorageSet KEYS.QUIZZES (JsonQuizzes (map quiz_list_entry quizzes)) false;
                 ConsoleError "Error saving quizzes offline:" StorageError]) /\
      ((exists key value, In (StorageSet key value false) events) -> failure_logged events) /\
      (stamp_attempted events <-> batch_accepted events)).
Proof.
  split.
  - intros articles w events. subst events. rewrite saveArticlesOffline_saveList.
    split; [apply saveList_returns|]. split; [|split; [|split]].
    + intros Hr a Ha. apply batch_details_attempted; [exact Hr|].
      unfold article_details. apply list_elem_of_In, in_map_iff. exists a. auto.
    + apply batch_list_rejected.
    + apply batch_failure_logged.
    + apply batch_stamp_iff; [discriminate | apply sync_not_article_detail].
  - intros quizzes w events. subst events. rewrite saveQuizzesOffline_saveList.
    split; [apply saveList_returns|]. split; [|split; [|split]].
    + intros Hr q Hq. apply batch_details_attempted; [exact Hr|].
      unfold quiz_details. apply list_elem_of_In, in_map_iff. exists q. auto.
    + apply batch_list_rejected.
    + apply batch_failure_logged.
    + apply batch_stamp_iff; [discriminate | apply sync_not_quiz_detail].
Qed.

(** ** The article service *)

Lemma getOfflineArticles_result w : result_of getOfflineArticles w = Returned (cached_articles w).
Proof.
  unfold result_of, cached_articles, getOfflineArticles, try_catch, mbind, Async_bind,
    AsyncStorage.getItem.
  destruct (AsyncStorage.rejects w); [reflexivity|].
  destruct (storage w !! KEYS.ARTICLES) as [[]|]; reflexivity.
Qed.

Lemma cached_articles_healthy w l :
  healthy w -> storage w !! KEYS.ARTICLES = Some (JsonArticles l) -> cached_articles w = l.
Proof.
  intros Hw Hl. unfold cached_articles, AsyncStorage.rejects. rewrite Hw, Hl. reflexivity.
Qed.

Lemma returned_pair {A} (m : Async A) (w : World) (a : A) :
  result_of m w = Returned a -> m w = (Returned a, world_after m w).
Proof. unfold result_of, world_after. destruct (m w); cbn [fst snd]; intros ->; reflexivity. Qed.

Lemma fetchArticles_fallback isPremiumUser w :
  falls_back w ->
  result_of (fetchArticles isPremiumUser) w =
    Returned (List.filter (visible_to isPremiumUser) (cached_articles w)).
Proof.
  intros Hfb. unfold result_of, fetchArticles, try_catch, mbind, Async_bind, NetInfo.fetch.
  destruct (truthy (isConnected w)) eqn:Hc.
  - destruct Hfb as [Hfb|[error Hfb]]; [congruence|].
    unfold supabase.select_articles, supabase.request. world_simpl. rewrite Hfb.
    unfold throw, console.error. world_simpl.
    match goal with |- context [getOfflineArticles ?w1] =>
      rewrite (returned_pair getOfflineArticles w1 _ (getOfflineArticles_result w1)) end.
    reflexivity.
  - match goal with |- context [getOfflineArticles ?w1] =>
      rewrite (returned_pair getOfflineArticles w1 _ (getOfflineArticles_result w1)) end.
    reflexivity.
Qed.

Lemma fetchArticles_online isPremiumUser w :
  truthy (isConnected w) = true -> hd None (backend_faults w) = None ->
  let data := Query.rows article_cell (articles_query isPremiumUser) (Backend.articles (backend w)) in
  fetchArticles isPremiumUser w =
    (Returned (map PartialArticle.of_article data),
     world_after (saveArticlesOffline data) (answered w)).
Proof.
  intros Hc Hb data. unfold fetchArticles, try_catch, mbind, Async_bind, NetInfo.fetch.
  rewrite Hc. unfold supabase.select_articles, supabase.request. world_simpl. rewrite Hb.
  fold (articles_query isPremiumUser). fold data.
  match goal with |- context [saveArticlesOffline data ?w1] =>
    change w1 with (answered w);
    rewrite (returned_pair (saveArticlesOffline data) (answered w) tt)
  end.
  - reflexivity.
  - rewrite saveArticlesOffline_saveList. apply saveList_returns.
Qed.

(** ** What a query selects *)

Section Selected.
Context {Row : Type} (cell : Row -> string -> option Cell).

Lemma place_In column ascending (x y : Row) sorted :
  In y (Query.place cell column ascending x sorted) -> y = x \/ In y sorted.
Proof.
  induction sorted as [|z rest IH]; cbn [Query.place].
  - intros [<-|[]]. left. reflexivity.
  - destruct (Query.precedes cell column ascending x z).
    + intros [<-|Hin]; [left; reflexivity | right; exact Hin].
    + intros [<-|Hin]; [right; left; reflexivity|].
      destruct (IH Hin) as [->|Hrest]; [left; reflexivity | right; right; exact Hrest].
Qed.

Lemma sort_In column ascending (y : Row) rows :
  In y (Query.sort cell column ascending rows) -> In y rows.
Proof.
  induction rows as [|x rest IH]; cbn [Query.sort foldr]; [tauto|].
  intros Hin. apply place_In in Hin as [->|Hin]; [left; reflexivity | right; apply IH, Hin].
Qed.

Lemma rows_selected q table (row : Row) :
  In row (Query.rows cell q table) ->
  In row table /\ forallb (Query.satisfies cell row) (Query.filters q) = true.
Proof.
  unfold Query.rows. intros Hin.
  apply (filter_In (fun row => forallb (Query.satisfies cell row) (Query.filters q))).
  destruct (Query.ordering q) as [[column ascending]|]; [|exact Hin].
  apply sort_In in Hin. exact Hin.
Qed.
End Selected.

Section Sorted.
Context {Row : Type} (cell : Row -> string -> option Cell).

Lemma In_place column ascending (x y : Row) sorted :
  y = x \/ In y sorted -> In y (Query.place cell column ascending x sorted).
Proof.
  induction sorted as [|z rest IH]; cbn [Query.place].
  - intros [->|[]]. left. reflexivity.
  - destruct (Query.precedes cell column ascending x z).
    + intros [->|Hin]; [left; reflexivity | right; exact Hin].
    + intros [->|[->|Hin]].
      * right. apply IH. left. reflexivity.
      * left. reflexivity.
      * right. apply IH. right. exact Hin.
Qed.

Lemma In_sort column ascending (y : Row) rows :
  In y rows -> In y (Query.sort cell column ascending rows).
Proof.
  induction rows as [|x rest IH]; cbn [Query.sort foldr]; [tauto|].
  intros [->|Hin]; apply In_place; [left; reflexivity | right; apply IH, Hin].
Qed.

Lemma selected_rows q table (row : Row) :
  In row table -> forallb (Query.satisfies cell row) (Query.filters q) = true ->
  In row (Query.rows cell q table).
Proof.
  intros Hin Hsat. unfold Query.rows.
  assert (Hkept : In row (List.filter
                            (fun row => forallb (Query.satisfies cell row) (Query.filters q))
                            table))
    by (apply filter_In; auto).
  destruct (Query.ordering q) as [[column ascending]|]; [apply In_sort|]; exact Hkept.
Qed.
End Sorted.

Lemma single_selected {Row} (cell : Row -> string -> option Cell) q table row :
  Query.single cell q table = Data row -> In row (Query.rows cell q table).
Proof.
  unfold Query.single. destruct (Query.rows cell q table) as [|r [|r' rest]]; try discriminate.
  intros Heq. injection Heq as ->. left. reflexivity.
Qed.

Lemma quiz_of_article articleId table quizData :
  Query.single quiz_cell (Query.eq "article_id" (Text articleId) Query.select) table
  = Data quizData ->
  Quiz.article_id quizData = articleId.
Proof.
  intros Hrow. apply single_selected, rows_selected in Hrow as [_ Hsat].
  cbn in Hsat. rewrite andb_true_r in Hsat. apply String.eqb_eq, Hsat.
Qed.

Lemma article_detail_in a articles :
  In a articles -> (KEYS.ARTICLE_PREFIX +:+ Article.id a, JsonArticle a) ∈ article_details articles.
Proof.
  intros Ha. unfold article_details. apply list_elem_of_In, in_map_iff. exists a. auto.
Qed.

Lemma quiz_detail_in q quizzes :
  In q quizzes -> (KEYS.QUIZ_PREFIX +:+ Quiz.id q, JsonQuiz q) ∈ quiz_details quizzes.
Proof.
  intros Hq. unfold quiz_details. apply list_elem_of_In, in_map_iff. exists q. auto.
Qed.

Lemma article_of_id articleId table data :
  Query.single article_cell (Query.eq "id" (Text articleId) Query.select) table = Data data ->
  Article.id data = articleId.
Proof.
  intros Hrow. apply single_selected, rows_selected in Hrow as [_ Hsat].
  cbn in Hsat. rewrite andb_true_r in Hsat. apply String.eqb_eq, Hsat.
Qed.

(** The rows of the query of a caller without premium access: the articles
    of the backend that are not flagged premium. *)
Lemma free_articles_rows table (a : Article.t) :
  In a (Query.rows article_cell (articles_query false) table) <->
  In a table /\ Article.is_premium a = false.
Proof.
  split.
  - intros Hin. split; [apply rows_selected in Hin as [Hin _]; exact Hin|].
    apply rows_selected in Hin as [_ Hsat].
    cbn in Hsat. destruct (Article.is_premium a); [discriminate | reflexivity].
  - intros [Hin Hfree]. apply selected_rows; [exact Hin|]. cbn. rewrite Hfree. reflexivity.
Qed.

Lemma free_articles_selected table (a : Article.t) :
  In a (Query.rows article_cell (articles_query false) table) -> Article.is_premium a = false.
Proof.
  intros Hin. apply rows_selected in Hin as [_ Hsat].
  cbn in Hsat. destruct (Article.is_premium a); [discriminate | reflexivity].
Qed.

Lemma filter_visible_premium_user l : List.filter (visible_to true) l = l.
Proof. induction l as [|a l IH]; [reflexivity|]. cbn [List.filter visible_to orb]. rewrite IH. reflexivity. Qed.

Lemma filter_list_entries isPremiumUser articles :
  List.filter (visible_to isPremiumUser) (map article_list_entry articles) =
  map article_list_entry
      (List.filter (fun a => isPremiumUser || negb (Article.is_premium a)) articles).
Proof.
  induction articles as [|a l IH]; [reflexivity|]. cbn [map List.filter].
  unfold visible_to at 1. cbn [article_list_entry PartialArticle.is_premium truthy].
  rewrite IH. destruct isPremiumUser, (Article.is_premium a); reflexivity.
Qed.

(** ** C1: fallback on a remote failure *)

(** C1, as stated, at a cache holding one saved article, flagged premium,
    read by a caller without premium access while the backend request fails:
    the cached entry is not returned. *)
Lemma fallback_hides_premium_entry :
  let failure := PostgrestError.make "500" "backend unavailable" in
  let w := with_backend_faults [Some failure]
             (world_after (saveArticlesOffline [article2]) fresh_world) in
  truthy (isConnected w) = true /\
  result_of getOfflineArticles w = Returned [article_list_entry article2] /\
  result_of (fetchArticles false) w = Returned [].
Proof. cbv zeta. repeat split; vm_compute; reflexivity. Qed.

(** C1 (amended): when the device is connected, the backend request fails
    and the storage is healthy, [fetchArticles] returns the entries of the
    cached list the caller may see (all of them for a premium user, those
    not flagged premium otherwise), and the failure is logged instead of
    being raised. *)
Theorem fallback_on_remote_failure :
  forall (isPremiumUser : bool) (articles : list Article.t) (w : World)
         (failure : PostgrestError.t),
    truthy (isConnected w) = true ->
    hd None (backend_faults w) = Some failure ->
    healthy w ->
    storage w !! KEYS.ARTICLES = Some (JsonArticles (map article_list_entry articles)) ->
    result_of (fetchArticles isPremiumUser) w =
      Returned (map article_list_entry
                    (List.filter (fun a => isPremiumUser || negb (Article.is_premium a)) articles))
    /\ (isPremiumUser = true ->
        result_of (fetchArticles isPremiumUser) w = Returned (map article_list_entry articles))
    /\ In (ConsoleError "Error in fetchArticles:" (Postgrest failure))
          (events_of (fetchArticles isPremiumUser) w).
Proof.
  intros isPremiumUser articles w failure Hc Hb Hw Hl.
  assert (Hres : result_of (fetchArticles isPremiumUser) w =
                 Returned (List.filter (visible_to isPremiumUser) (map article_list_entry articles))).
  { rewrite fetchArticles_fallback by (right; eauto).
    rewrite (cached_articles_healthy w _ Hw Hl). reflexivity. }
  split; [|split].
  - rewrite Hres, filter_list_entries. reflexivity.
  - intros ->. rewrite Hres, filter_visible_premium_user. reflexivity.
  - unfold events_of, world_after, fetchArticles, try_catch, mbind, Async_bind, NetInfo.fetch.
    rewrite Hc. unfold supabase.select_articles, supabase.request. world_simpl. rewrite Hb.
    unfold throw, console.error. world_simpl.
    match goal with |- context [getOfflineArticles ?w1] =>
      rewrite (getOfflineArticles_healthy w1 _ Hw Hl) end.
    unfold mret, Async_ret. world_simpl. rewrite <- !app_assoc, drop_app_length. cbn. tauto.
Qed.

(** ** C3: premium filtering *)

(** C3: on the cache paths (offline, or after a failed backend request) a
    caller without premium access gets exactly the cached entries that are
    not flagged premium, and a premium user gets every cached entry; online,
    a caller without premium access gets the rows of the backend that are not
    flagged premium.  A caller without premium access is answered on the
    online path, and on the cache paths whenever the record of the article
    list can be read as one; and on any path whatever, no entry of a list
    returned to such a caller is flagged premium. *)
Theorem premium_filtering :
  (forall (cached : list PartialArticle.t) (w : World),
      falls_back w -> healthy w ->
      storage w !! KEYS.ARTICLES = Some (JsonArticles cached) ->
      result_of (fetchArticles false) w =
        Returned (List.filter (fun a => negb (truthy (PartialArticle.is_premium a))) cached) /\
      result_of (fetchArticles true) w = Returned cached) /\
  (forall (articles : list Article.t) (w : World),
      falls_back w -> healthy w ->
      storage w !! KEYS.ARTICLES = Some (JsonArticles (map article_list_entry articles)) ->
      result_of (fetchArticles false) w =
        Returned (map article_list_entry
                      (List.filter (fun a => negb (Article.is_premium a)) articles))) /\
  (forall w : World,
      truthy (isConnected w) = true -> hd None (backend_faults w) = None ->
      let data := Query.rows article_cell (articles_query false)
                             (Backend.articles (backend w)) in
      result_of (fetchArticles false) w = Returned (map PartialArticle.of_article data) /\
      (forall a, In a data <->
                 In a (Backend.articles (backend w)) /\ Article.is_premium a = false)) /\
  (forall w : World,
      falls_back w -> reads_as_article_list w ->
      exists listed, result_of (fetchArticles false) w = Returned listed) /\
  (forall (w : World) (listed : list PartialArticle.t),
      result_of (fetchArticles false) w = Returned listed ->
      Forall (fun a => PartialArticle.is_premium a <> Some true) listed).
Proof.
  split; [|split; [|split; [|split]]].
  - intros cached w Hfb Hw Hl. rewrite !fetchArticles_fallback by exact Hfb.
    rewrite (cached_articles_healthy w _ Hw Hl), filter_visible_premium_user.
    split; reflexivity.
  - intros articles w Hfb Hw Hl. rewrite fetchArticles_fallback by exact Hfb.
    rewrite (cached_articles_healthy w _ Hw Hl), filter_list_entries. reflexivity.
  - intros w Hc Hb data. split.
    + unfold result_of. rewrite fetchArticles_online by assumption. reflexivity.
    + apply free_articles_rows.
  - intros w Hfb _. eexists. apply fetchArticles_fallback, Hfb.
  - intros w listed.
    destruct (truthy (isConnected w)) eqn:Hc;
      [destruct (hd None (backend_faults w)) as [failure|] eqn:Hb|].
    2:{ unfold result_of. rewrite fetchArticles_online by assumption.
        intros [= <-]. apply Forall_forall. intros p Hp.
        apply list_elem_of_In, in_map_iff in Hp as (a & <- & Ha).
        apply free_articles_selected in Ha. cbn. rewrite Ha. discriminate. }
    all: rewrite fetchArticles_fallback by (unfold falls_back; eauto);
      intros [= <-]; apply Forall_forall; intros p Hp;
      apply list_elem_of_In, filter_In in Hp as [_ Hp]; unfold visible_to in Hp;
      intros Hflag; rewrite Hflag in Hp; discriminate.
Qed.

(** ** C10: an online fetch without premium access caches the filtered set *)

(** C10: when [fetchArticles(false)] runs connected, the backend answers and
    the storage is healthy, it returns the rows of its query, which are the
    articles of the backend that are not flagged premium, and the article
    list record it leaves holds exactly the entries of these rows, whatever
    was cached before; a later offline [fetchArticles(true)] returns these
    entries only, none of them flagged premium. *)
Theorem online_fetch_caches_filtered_set :
  forall w : World,
    truthy (isConnected w) = true -> hd None (backend_faults w) = None -> healthy w ->
    let data := Query.rows article_cell (articles_query false) (Backend.articles (backend w)) in
    let w' := world_after (fetchArticles false) w in
    (forall a, In a data <->
               In a (Backend.articles (backend w)) /\ Article.is_premium a = false) /\
    result_of (fetchArticles false) w = Returned (map PartialArticle.of_article data) /\
    Forall (fun a => Article.is_premium a = false) data /\
    storage w' !! KEYS.ARTICLES = Some (JsonArticles (map article_list_entry data)) /\
    map PartialArticle.id (map article_list_entry data) = map (fun a => Some (Article.id a)) data /\
    result_of (fetchArticles true) (disconnect w') = Returned (map article_list_entry data) /\
    Forall (fun p => PartialArticle.is_premium p = Some false) (map article_list_entry data).
Proof.
  intros w Hc Hb Hw data w'.
  assert (Hfree : Forall (fun a => Article.is_premium a = false) data).
  { apply Forall_forall. intros a Ha. apply list_elem_of_In in Ha.
    exact (free_articles_selected _ a Ha). }
  assert (Hw' : w' = world_after (saveArticlesOffline data) (answered w)).
  { unfold w', world_after at 1. rewrite fetchArticles_online by assumption. reflexivity. }
  assert (Hlist : storage w' !! KEYS.ARTICLES = Some (JsonArticles (map article_list_entry data))).
  { rewrite Hw', saveArticlesOffline_saveList.
    apply saved_list; [exact Hw | discriminate | apply article_list_not_detail]. }
  assert (Hhealthy : healthy w').
  { rewrite Hw', saveArticlesOffline_saveList. apply saved_healthy. exact Hw. }
  split; [|split; [|split; [|split; [|split; [|split]]]]].
  - intros a. apply free_articles_rows.
  - unfold result_of. rewrite fetchArticles_online by assumption. reflexivity.
  - exact Hfree.
  - exact Hlist.
  - rewrite map_map. reflexivity.
  - rewrite fetchArticles_fallback by (left; reflexivity).
    rewrite (cached_articles_healthy (disconnect w') (map article_list_entry data));
      [rewrite filter_visible_premium_user; reflexivity | exact Hhealthy | exact Hlist].
  - apply Forall_forall. intros p Hp.
    apply list_elem_of_In, in_map_iff in Hp as (a & <- & Ha).
    apply list_elem_of_In in Ha. rewrite Forall_forall in Hfree.
    cbn. rewrite (Hfree a Ha). reflexivity.
Qed.

(** ** C9: a single-entity fetch overwrites the list record *)

Lemma fetchArticleById_online articleId w data :
  truthy (isConnected w) = true -> hd None (backend_faults w) = None ->
  Query.single article_cell (Query.eq "id" (Text articleId) Query.select)
               (Backend.articles (backend w)) = Data data ->
  fetchArticleById articleId w =
    (Returned data, world_after (saveArticlesOffline [data]) (answered w)).
Proof.
  intros Hc Hb Hrow. unfold fetchArticleById, try_catch, mbind, Async_bind, NetInfo.fetch.
  rewrite Hc. unfold supabase.single_article, supabase.request. world_simpl. rewrite Hb, Hrow.
  match goal with |- context [saveArticlesOffline [data] ?w1] =>
    change w1 with (answered w);
    rewrite (returned_pair (saveArticlesOffline [data]) (answered w) tt)
  end.
  - reflexivity.
  - rewrite saveArticlesOffline_saveList. apply saveList_returns.
Qed.

Lemma fetchQuizByArticleId_online articleId w quizData :
  truthy (isConnected w) = true -> backend_faults w = [] ->
  Query.single quiz_cell (Query.eq "article_id" (Text articleId) Query.select)
               (Backend.quizzes (backend w)) = Data quizData ->
  let completeQuiz := Quiz.with_questions quizData (questions_of quizData w) in
  exists w1,
    storage w1 = storage w /\ storage_faults w1 = storage_faults w /\
    fetchQuizByArticleId articleId w =
      (Returned (Some completeQuiz), world_after (saveQuizzesOffline [completeQuiz]) w1).
Proof.
  intros Hc Hb Hrow completeQuiz.
  unfold fetchQuizByArticleId, try_catch, mbind, Async_bind, NetInfo.fetch.
  rewrite Hc. unfold supabase.single_quiz, supabase.select_questions, supabase.request.
  world_simpl. rewrite Hb. cbn [hd tail]. rewrite Hrow. world_simpl.
  fold (questions_of quizData w). fold completeQuiz.
  match goal with |- context [saveQuizzesOffline [completeQuiz] ?w1] =>
    exists w1; rewrite (returned_pair (saveQuizzesOffline [completeQuiz]) w1 tt)
  end.
  - repeat split; reflexivity.
  - rewrite saveQuizzesOffline_saveList. apply saveList_returns.
Qed.

(** C9: after [fetchArticleById] (or [fetchQuizByArticleId]) has fetched an
    entity online, on a healthy storage, the list record of that entity type
    holds one entry alone, which carries the identity and the listed fields
    of the fetched entity: the list read returns it and nothing else, so no
    entry of another identity that was listed before; the fetched entity is
    stored under its own identity, and the detail records stored under other
    identities are left as they were. *)
Theorem single_fetch_overwrites_list :
  (forall (articleId : string) (w : World) (data : Article.t),
      truthy (isConnected w) = true -> backend_faults w = [] -> healthy w ->
      Query.single article_cell (Query.eq "id" (Text articleId) Query.select)
                   (Backend.articles (backend w)) = Data data ->
      let w' := world_after (fetchArticleById articleId) w in
      result_of (fetchArticleById articleId) w = Returned data /\
      Article.id data = articleId /\
      result_of getOfflineArticles w'
      = Returned [ {| PartialArticle.id := Some articleId;
                      PartialArticle.title := Some (Article.title data);
                      PartialArticle.content := None;
                      PartialArticle.summary := Some (Article.summary data);
                      PartialArticle.is_premium := Some (Article.is_premium data);
                      PartialArticle.image_url := None;
                      PartialArticle.created_at := Some (Article.created_at data);
                      PartialArticle.updated_at := Some (Article.updated_at data);
                      PartialArticle.category := Article.category data;
                      PartialArticle.reading_time_minutes :=
                        Article.reading_time_minutes data |} ] /\
      (forall previous entry listed,
          storage w !! KEYS.ARTICLES = Some (JsonArticles previous) -> In entry previous ->
          PartialArticle.id entry <> Some articleId ->
          result_of getOfflineArticles w' = Returned listed -> ~ In entry listed) /\
      storage w' !! (KEYS.ARTICLE_PREFIX +:+ articleId) = Some (JsonArticle data) /\
      (forall other, other <> articleId ->
         storage w' !! (KEYS.ARTICLE_PREFIX +:+ other)
         = storage w !! (KEYS.ARTICLE_PREFIX +:+ other))) /\
  (forall (articleId : string) (w : World) (quizData : Quiz.t),
      truthy (isConnected w) = true -> backend_faults w = [] -> healthy w ->
      Query.single quiz_cell (Query.eq "article_id" (Text articleId) Query.select)
                   (Backend.quizzes (backend w)) = Data quizData ->
      let completeQuiz := Quiz.with_questions quizData (questions_of quizData w) in
      let w' := world_after (fetchQuizByArticleId articleId) w in
      result_of (fetchQuizByArticleId articleId) w = Returned (Some completeQuiz) /\
      Quiz.article_id quizData = articleId /\
      result_of getOfflineQuizzes w'
      = Returned [ {| PartialQuiz.id := Some (Quiz.id quizData);
                      PartialQuiz.title := Some (Quiz.title quizData);
                      PartialQuiz.description := Quiz.description quizData;
                      PartialQuiz.article_id := Some articleId;
                      PartialQuiz.time_limit_minutes := Quiz.time_limit_minutes quizData;
                      PartialQuiz.passing_score := Some (Quiz.passing_score quizData);
                      PartialQuiz.created_at := Some (Quiz.created_at quizData);
                      PartialQuiz.updated_at := Some (Quiz.updated_at quizData);
                      PartialQuiz.questions := None;
                      PartialQuiz.articles := Quiz.articles quizData |} ] /\
      (forall previous entry listed,
          storage w !! KEYS.QUIZZES = Some (JsonQuizzes previous) -> In entry previous ->
          PartialQuiz.id entry <> Some (Quiz.id quizData) ->
          result_of getOfflineQuizzes w' = Returned listed -> ~ In entry listed) /\
      storage w' !! (KEYS.QUIZ_PREFIX +:+ Quiz.id quizData) = Some (JsonQuiz completeQuiz) /\
      (forall other, other <> Quiz.id quizData ->
         storage w' !! (KEYS.QUIZ_PREFIX +:+ other)
         = storage w !! (KEYS.QUIZ_PREFIX +:+ other))).
Proof.
  split.
  - intros articleId w data Hc Hb Hw Hrow w'.
    assert (Hb' : hd None (backend_faults w) = None) by (rewrite Hb; reflexivity).
    pose proof (fetchArticleById_online articleId w data Hc Hb' Hrow) as Hrun.
    pose proof (article_of_id _ _ _ Hrow) as Hid.
    assert (Hw' : w' = world_after (saveList KEYS.ARTICLES
                       (JsonArticles (map article_list_entry [data]))
                       (article_details [data]) "Error saving articles offline:") (answered w)).
    { unfold w', world_after at 1. rewrite Hrun, saveArticlesOffline_saveList. reflexivity. }
    assert (Hlist : result_of getOfflineArticles w' = Returned [article_list_entry data]).
    { rewrite Hw'. unfold result_of. erewrite getOfflineArticles_healthy; [reflexivity| |].
      - apply saved_healthy, Hw.
      - apply saved_list; [exact Hw | discriminate | apply article_list_not_detail]. }
    split; [unfold result_of; rewrite Hrun; reflexivity|].
    split; [exact Hid|]. split; [|split; [|split]].
    + rewrite Hlist. unfold article_list_entry. rewrite Hid. reflexivity.
    + intros previous entry listed _ _ Hother Hlisted. rewrite Hlist in Hlisted.
      injection Hlisted as <-. intros [<-|[]]. apply Hother.
      cbn [article_list_entry PartialArticle.id]. rewrite Hid. reflexivity.
    + rewrite Hw', <- Hid. apply saved_detail; [exact Hw | apply article_key_not_sync | |].
      * cbn. apply NoDup_singleton.
      * apply article_detail_in. left. reflexivity.
    + intros other Hother. rewrite Hw', saved_other; [reflexivity | exact Hw | | |].
      * apply article_key_not_sync.
      * apply article_key_not_list.
      * cbn. intros Hin. apply list_elem_of_singleton in Hin.
        apply (prefix_inj "econquiz_article_") in Hin. congruence.
  - intros articleId w quizData Hc Hb Hw Hrow completeQuiz w'.
    destruct (fetchQuizByArticleId_online articleId w quizData Hc Hb Hrow)
      as (w1 & Hs & Hf & Hrun).
    pose proof (quiz_of_article _ _ _ Hrow) as Hid.
    assert (Hw1 : healthy w1) by (unfold healthy; rewrite Hf; exact Hw).
    assert (Hw' : w' = world_after (saveList KEYS.QUIZZES
                       (JsonQuizzes (map quiz_list_entry [completeQuiz]))
                       (quiz_details [completeQuiz]) "Error saving quizzes offline:") w1).
    { unfold w', world_after at 1. rewrite Hrun, saveQuizzesOffline_saveList. reflexivity. }
    assert (Hlist : result_of getOfflineQuizzes w' = Returned [quiz_list_entry completeQuiz]).
    { rewrite Hw'. unfold result_of. erewrite getOfflineQuizzes_healthy; [reflexivity| |].
      - apply saved_healthy, Hw1.
      - apply saved_list; [exact Hw1 | discriminate | apply quiz_list_not_detail]. }
    split; [unfold result_of; rewrite Hrun; reflexivity|].
    split; [exact Hid|]. split; [|split; [|split]].
    + rewrite Hlist. unfold quiz_list_entry, completeQuiz. cbn. rewrite Hid. reflexivity.
    + intros previous entry listed _ _ Hother Hlisted. rewrite Hlist in Hlisted.
      injection Hlisted as <-. intros [<-|[]]. apply Hother. reflexivity.
    + rewrite Hw'.
      change (Quiz.id quizData) with (Quiz.id completeQuiz).
      apply saved_detail; [exact Hw1 | apply quiz_key_not_sync | |].
      * cbn. apply NoDup_singleton.
      * apply quiz_detail_in. left. reflexivity.
    + intros other Hother. rewrite Hw', saved_other; [rewrite Hs; reflexivity | exact Hw1 | | |].
      * apply quiz_key_not_sync.
      * apply quiz_key_not_list.
      * cbn. intros Hin. apply list_elem_of_singleton in Hin.
        apply (prefix_inj "econquiz_quiz_") in Hin. contradiction.
Qed.

(** ** C5: quiz by article *)

Lemma getOfflineQuizzes_returns w : exists l, result_of getOfflineQuizzes w = Returned l.
Proof.
  unfold result_of, getOfflineQuizzes, try_catch, mbind, Async_bind, AsyncStorage.getItem.
  destruct (AsyncStorage.rejects w); [eexists; reflexivity|].
  destruct (storage w !! KEYS.QUIZZES) as [[]|]; eexists; reflexivity.
Qed.

Lemma getOfflineQuiz_returns quizId w : exists found, result_of (getOfflineQuiz quizId) w = Returned found.
Proof.
  unfold result_of, getOfflineQuiz, try_catch, mbind, Async_bind, AsyncStorage.getItem.
  destruct (AsyncStorage.rejects w); [eexists; reflexivity|].
  destruct (storage w !! _) as [[]|]; eexists; reflexivity.
Qed.

Lemma getOfflineQuiz_absent w quizId :
  healthy w -> storage w !! (KEYS.QUIZ_PREFIX +:+ quizId) = None ->
  result_of (getOfflineQuiz quizId) w = Returned None.
Proof.
  intros Hw Hl. unfold result_of, getOfflineQuiz, try_catch, mbind, Async_bind.
  rewrite getItem_healthy, Hl by exact Hw. reflexivity.
Qed.

(** [getOfflineQuizByArticleId] on a healthy storage, by the first entry of
    the cached list that refers to the article. *)
Lemma getOfflineQuizByArticleId_healthy articleId w cached :
  healthy w -> storage w !! KEYS.QUIZZES = Some (JsonQuizzes cached) ->
  result_of (getOfflineQuizByArticleId articleId) w =
    match List.find (article_id_is articleId) cached with
    | None => Returned None
    | Some entry =>
        match PartialQuiz.id entry with
        | None | Some "" => Returned None
        | Some quizId =>
            result_of (getOfflineQuiz quizId) (record_event (StorageGet KEYS.QUIZZES true) w)
        end
    end.
Proof.
  intros Hw Hl. unfold result_of at 1, getOfflineQuizByArticleId, try_catch at 1, mbind, Async_bind.
  rewrite (getOfflineQuizzes_healthy w cached Hw Hl).
  destruct (List.find (article_id_is articleId) cached) as [entry|]; [|reflexivity].
  destruct (PartialQuiz.id entry) as [[|c rest]|]; [reflexivity| |reflexivity].
  destruct (getOfflineQuiz_returns (String c rest) (record_event (StorageGet KEYS.QUIZZES true) w))
    as [found Hfound].
  rewrite (returned_pair _ _ _ Hfound), Hfound. reflexivity.
Qed.

(** C5, as stated, at a cached quiz list whose entry for the article has an
    empty identity: the detail record of that entry is in the cache, yet the
    lookup answers null. *)
Lemma lookup_skips_entry_with_empty_id :
  let w := world_after (saveQuizzesOffline [quiz_with_empty_id]) fresh_world in
  result_of getOfflineQuizzes w = Returned [quiz_list_entry quiz_with_empty_id] /\
  PartialQuiz.article_id (quiz_list_entry quiz_with_empty_id) = Some "a2" /\
  result_of (getOfflineQuiz (Quiz.id quiz_with_empty_id)) w = Returned (Some quiz_with_empty_id) /\
  result_of (getOfflineQuizByArticleId "a2") w = Returned None.
Proof. cbv zeta. repeat split; vm_compute; reflexivity. Qed.

(** C5 (amended): [getOfflineQuizByArticleId] never raises.  On a healthy
    storage it takes the first entry of the cached quiz list whose article
    reference is the given one; if that entry carries a non-empty identity it
    returns the detail record stored for that identity (questions included),
    or null when that record is absent; it returns null when no entry refers
    to the article, and when the entry found has no identity or an empty
    one. *)
Theorem quiz_by_article_lookup :
  (forall articleId w,
      exists found, result_of (getOfflineQuizByArticleId articleId) w = Returned found) /\
  (forall articleId w cached,
      healthy w -> storage w !! KEYS.QUIZZES = Some (JsonQuizzes cached) ->
      List.find (article_id_is articleId) cached = None ->
      result_of (getOfflineQuizByArticleId articleId) w = Returned None) /\
  (forall articleId w cached entry quizId,
      healthy w -> storage w !! KEYS.QUIZZES = Some (JsonQuizzes cached) ->
      List.find (article_id_is articleId) cached = Some entry ->
      PartialQuiz.id entry = Some quizId -> quizId <> "" ->
      (forall quiz, storage w !! (KEYS.QUIZ_PREFIX +:+ quizId) = Some (JsonQuiz quiz) ->
                    result_of (getOfflineQuizByArticleId articleId) w = Returned (Some quiz)) /\
      (storage w !! (KEYS.QUIZ_PREFIX +:+ quizId) = None ->
       result_of (getOfflineQuizByArticleId articleId) w = Returned None)) /\
  (forall articleId w cached entry,
      healthy w -> storage w !! KEYS.QUIZZES = Some (JsonQuizzes cached) ->
      List.find (article_id_is articleId) cached = Some entry ->
      PartialQuiz.id entry = None \/ PartialQuiz.id entry = Some "" ->
      result_of (getOfflineQuizByArticleId articleId) w = Returned None).
Proof.
  split; [|split; [|split]].
  - intros articleId w.
    unfold result_of, getOfflineQuizByArticleId, try_catch at 1, mbind, Async_bind.
    destruct (getOfflineQuizzes_returns w) as [l Hl].
    rewrite (returned_pair _ _ _ Hl).
    destruct (List.find (article_id_is articleId) l) as [entry|]; [|eexists; reflexivity].
    destruct (PartialQuiz.id entry) as [[|c rest]|]; [eexists; reflexivity| |eexists; reflexivity].
    destruct (getOfflineQuiz_returns (String c rest) (world_after getOfflineQuizzes w))
      as [found Hfound].
    rewrite (returned_pair _ _ _ Hfound). eexists; reflexivity.
  - intros articleId w cached Hw Hl Hfind.
    rewrite (getOfflineQuizByArticleId_healthy articleId w cached Hw Hl), Hfind. reflexivity.
  - intros articleId w cached entry quizId Hw Hl Hfind Hid Hne.
    rewrite (getOfflineQuizByArticleId_healthy articleId w cached Hw Hl), Hfind, Hid.
    destruct quizId as [|c rest]; [congruence|]. split.
    + intros quiz Hq. unfold result_of. erewrite getOfflineQuiz_healthy; [reflexivity| |exact Hq].
      exact Hw.
    + intros Hq. apply getOfflineQuiz_absent; [exact Hw | exact Hq].
  - intros articleId w cached entry Hw Hl Hfind Hid.
    rewrite (getOfflineQuizByArticleId_healthy articleId w cached Hw Hl), Hfind.
    destruct Hid as [-> | ->]; reflexivity.
Qed.

(** ** C7 and C8: writes while offline *)

Lemma prefix_append (p s : string) : String.prefix p (p +:+ s) = true.
Proof.
  induction p as [|a p IH]; simpl; [destruct s; reflexivity|].
  destruct (Ascii.ascii_dec a a); [exact IH | contradiction].
Qed.

(** C7: while disconnected, [updateArticleProgress] returns without error;
    it fetches the connectivity and writes one console line, and does
    nothing else: no storage call, no backend request, the store and the
    backend are as they were. *)
Theorem offline_progress_is_noop :
  forall (userId articleId : string) (completed : bool) (w : World),
    truthy (isConnected w) = false ->
    let update := updateArticleProgress userId articleId completed in
    result_of update w = Returned tt /\
    events_of update w
      = [NetInfoFetch; ConsoleLog "Offline: Article progress update queued for later"] /\
    storage (world_after update w) = storage w /\
    backend (world_after update w) = backend w /\
    storage_faults (world_after update w) = storage_faults w /\
    backend_faults (world_after update w) = backend_faults w /\
    clock (world_after update w) = clock w.
Proof.
  intros userId articleId completed w Hc update. subst update.
  unfold events_of, result_of, world_after, updateArticleProgress, try_catch, mbind, Async_bind,
    NetInfo.fetch.
  rewrite Hc. unfold console.log. world_simpl.
  rewrite <- app_assoc, drop_app_length. repeat split.
Qed.

(** C8: while disconnected, [saveQuizAttempt] returns a record built on the
    spot: its identifier is ['offline-'] followed by the current time, and it
    carries the given user, quiz and score; nothing is written to the store
    and no backend request is made. *)
Theorem offline_attempt_is_placeholder :
  forall (userId quizId : string) (score : Z) (answers : list Answer.t) (w : World),
    truthy (isConnected w) = false ->
    let save := saveQuizAttempt userId quizId score answers in
    exists attempt,
      result_of save w = Returned attempt /\
      QuizAttempt.id attempt = "offline-" +:+ decimal (clock w) /\
      String.prefix "offline-" (QuizAttempt.id attempt) = true /\
      QuizAttempt.user_id attempt = userId /\
      QuizAttempt.quiz_id attempt = quizId /\
      QuizAttempt.score attempt = score /\
      events_of save w
        = [NetInfoFetch; ConsoleLog "Offline: Quiz attempt saved locally for later sync"] /\
      storage (world_after save w) = storage w /\
      backend (world_after save w) = backend w.
Proof.
  intros userId quizId score answers w Hc save. subst save.
  unfold events_of, result_of, world_after, saveQuizAttempt, try_catch, mbind, Async_bind,
    NetInfo.fetch.
  rewrite Hc. unfold console.log, Date.now, Date.toISOString, mret, Async_ret. world_simpl.
  eexists. split; [reflexivity|]. cbn [QuizAttempt.id QuizAttempt.user_id QuizAttempt.quiz_id
                                       QuizAttempt.score].
  rewrite <- app_assoc, drop_app_length. repeat split. apply prefix_append.
Qed.

(** ** The theorems at concrete worlds *)

(** [cache_round_trip] at two articles, and at one quiz, saved in a fresh world. *)
Lemma cache_round_trip_witness :
  result_of (getOfflineArticle "a1")
            (world_after (saveArticlesOffline [article1; article2]) fresh_world)
    = Returned (Some article1) /\
  result_of (getOfflineQuiz "q1") (world_after (saveQuizzesOffline [quiz1]) fresh_world)
    = Returned (Some quiz1).
Proof.
  split.
  - refine (proj2 (proj1 cache_round_trip [article1; article2] fresh_world _ _) article1 _).
    + reflexivity.
    + refine (bool_decide_unpack _ _). vm_compute. exact I.
    + left. reflexivity.
  - refine (proj2 (proj2 cache_round_trip [quiz1] fresh_world _ _) quiz1 _).
    + reflexivity.
    + refine (bool_decide_unpack _ _). vm_compute. exact I.
    + left. reflexivity.
Defined.

(** [staleness_threshold] before any batch, after a clear, after a batch, at 24
    hours and one millisecond later. *)
Lemma staleness_threshold_witness :
  result_of isSyncNeeded fresh_world = Returned true /\
  result_of isSyncNeeded (world_after clearOfflineData stocked_world) = Returned true /\
  result_of isSyncNeeded (world_after (saveArticlesOffline [article1]) fresh_world)
    = Returned false /\
  result_of isSyncNeeded
            (elapse 86400000 (world_after (saveArticlesOffline [article1]) fresh_world))
    = Returned false /\
  result_of isSyncNeeded (elapse 86400001 stocked_world) = Returned true.
Proof.
  destruct staleness_threshold as (Hnone & Hclear & Hsaved & _ & Hpassed & Hlate).
  split; [|split; [|split; [|split]]].
  - apply Hnone. reflexivity.
  - apply Hclear. reflexivity.
  - apply Hsaved. reflexivity.
  - apply Hpassed; [reflexivity | vm_compute; discriminate].
  - apply (Hlate _ 1700000000000); [vm_compute; reflexivity | vm_compute; reflexivity].
Defined.

(** [saveList_best_effort] at a batch of two articles whose first detail write
    is rejected: the second is attempted all the same. *)
Lemma saveList_best_effort_witness :
  let w := with_storage_faults [false; true] fresh_world in
  AsyncStorage.rejects w = false /\
  exists ok, In (StorageSet "econquiz_article_a2" (JsonArticle article2) ok)
                (events_of (saveArticlesOffline [article1; article2]) w).
Proof.
  cbv zeta. split; [reflexivity|].
  refine (proj1 (proj2 (proj1 saveList_best_effort [article1; article2]
                              (with_storage_faults [false; true] fresh_world)))
                _ article2 _).
  - reflexivity.
  - right. left. reflexivity.
Defined.

(** [fallback_on_remote_failure] at a cache of one free and one premium article
    when the backend is down. *)
Lemma fallback_on_remote_failure_witness :
  let w := with_backend_faults [Some outage]
             (world_after (saveArticlesOffline [article1; article2]) fresh_world) in
  result_of (fetchArticles false) w = Returned [article_list_entry article1] /\
  result_of (fetchArticles true) w
    = Returned [article_list_entry article1; article_list_entry article2].
Proof.
  cbv zeta. split.
  - refine (proj1 (fallback_on_remote_failure false [article1; article2] _ outage _ _ _ _));
      vm_compute; reflexivity.
  - refine (proj1 (fallback_on_remote_failure true [article1; article2] _ outage _ _ _ _));
      vm_compute; reflexivity.
Defined.

(** [premium_filtering] at the same cache, offline, and at the stocked
    backend, online. *)
Lemma premium_filtering_witness :
  let w := disconnect (world_after (saveArticlesOffline [article1; article2]) fresh_world) in
  falls_back w /\ reads_as_article_list w /\
  result_of (fetchArticles false) w = Returned [article_list_entry article1] /\
  result_of (fetchArticles true) w
    = Returned [article_list_entry article1; article_list_entry article2] /\
  (exists listed, result_of (fetchArticles false) w = Returned listed) /\
  Forall (fun a => PartialArticle.is_premium a <> Some true) [article_list_entry article1] /\
  result_of (fetchArticles false) stocked_world = Returned [PartialArticle.of_article article1].
Proof.
  cbv zeta.
  assert (Hfb : falls_back (disconnect (world_after (saveArticlesOffline [article1; article2])
                                                    fresh_world)))
    by (left; reflexivity).
  assert (Hshape : reads_as_article_list
                     (disconnect (world_after (saveArticlesOffline [article1; article2])
                                              fresh_world)))
    by (vm_compute; exact I).
  destruct premium_filtering as (Hcached & Hsaved & Honline & Hreturns & Hnone).
  assert (Hfree : result_of (fetchArticles false)
                            (disconnect (world_after (saveArticlesOffline [article1; article2])
                                                     fresh_world))
                  = Returned [article_list_entry article1])
    by (refine (Hsaved [article1; article2] _ Hfb _ _); vm_compute; reflexivity).
  split; [exact Hfb|]. split; [exact Hshape|]. split; [exact Hfree|]. split; [|split; [|split]].
  - refine (proj2 (Hcached [article_list_entry article1; article_list_entry article2] _ Hfb _ _));
      vm_compute; reflexivity.
  - exact (Hreturns _ Hfb Hshape).
  - exact (Hnone _ _ Hfree).
  - refine (eq_trans (proj1 (Honline stocked_world _ _)) _); vm_compute; reflexivity.
Defined.

(** [online_fetch_caches_filtered_set] at a world whose cache lists a premium
    article before the fetch. *)
Lemma online_fetch_caches_filtered_set_witness :
  result_of getOfflineArticles stocked_world = Returned [article_list_entry article2] /\
  result_of (fetchArticles false) stocked_world = Returned [PartialArticle.of_article article1] /\
  result_of (fetchArticles true) (disconnect (world_after (fetchArticles false) stocked_world))
    = Returned [article_list_entry article1].
Proof.
  split; [vm_compute; reflexivity|].
  pose proof (online_fetch_caches_filtered_set stocked_world eq_refl eq_refl eq_refl) as H.
  cbv zeta in H. destruct H as (_ & Hr & _ & _ & _ & Hnext & _).
  split.
  - refine (eq_trans Hr _). vm_compute. reflexivity.
  - refine (eq_trans Hnext _). vm_compute. reflexivity.
Defined.

(** [single_fetch_overwrites_list] at the article a1 and at its quiz. *)
Lemma single_fetch_overwrites_list_witness :
  result_of getOfflineArticles (world_after (fetchArticleById "a1") stocked_world)
    = Returned [article_list_entry article1] /\
  storage (world_after (fetchArticleById "a1") stocked_world) !! "econquiz_article_a2"
    = Some (JsonArticle article2) /\
  result_of (fetchQuizByArticleId "a1") stocked_world = Returned (Some quiz1).
Proof.
  assert (Harticle : Query.single article_cell (Query.eq "id" (Text "a1") Query.select)
                                  (Backend.articles (backend stocked_world)) = Data article1)
    by (vm_compute; reflexivity).
  pose proof (proj1 single_fetch_overwrites_list "a1" stocked_world article1
                    eq_refl eq_refl eq_refl Harticle) as H.
  cbv zeta in H. destruct H as (_ & _ & Hlist & _ & _ & Hother).
  split; [|split].
  - exact Hlist.
  - refine (eq_trans (Hother "a2" _) _); [discriminate | vm_compute; reflexivity].
  - refine (proj1 (proj2 single_fetch_overwrites_list "a1" stocked_world quiz1_row _ _ _ _));
      vm_compute; reflexivity.
Defined.

(** [quiz_by_article_lookup] at a cache of one quiz, for its article and for
    another. *)
Lemma quiz_by_article_lookup_witness :
  let w := world_after (saveQuizzesOffline [quiz1]) fresh_world in
  result_of (getOfflineQuizByArticleId "a1") w = Returned (Some quiz1) /\
  result_of (getOfflineQuizByArticleId "a2") w = Returned None.
Proof.
  cbv zeta. destruct quiz_by_article_lookup as (_ & Hnone & Hfirst & _). split.
  - refine (proj1 (Hfirst "a1" _ [quiz_list_entry quiz1] (quiz_list_entry quiz1) "q1"
                          _ _ _ _ _) quiz1 _);
      try (vm_compute; reflexivity). discriminate.
  - refine (Hnone "a2" _ [quiz_list_entry quiz1] _ _ _); vm_compute; reflexivity.
Defined.

(** [offline_progress_is_noop] at a disconnected device. *)
Lemma offline_progress_is_noop_witness :
  truthy (isConnected (disconnect stocked_world)) = false /\
  result_of (updateArticleProgress "u1" "a1" true) (disconnect stocked_world) = Returned tt /\
  storage (world_after (updateArticleProgress "u1" "a1" true) (disconnect stocked_world))
    = storage (disconnect stocked_world).
Proof.
  split; [reflexivity|].
  destruct (offline_progress_is_noop "u1" "a1" true (disconnect stocked_world) eq_refl)
    as (Hr & _ & Hs & _).
  split; [exact Hr | exact Hs].
Defined.

(** [offline_attempt_is_placeholder] at a disconnected device. *)
Lemma offline_attempt_is_placeholder_witness :
  truthy (isConnected (disconnect fresh_world)) = false /\
  exists attempt,
    result_of (saveQuizAttempt "u1" "q1" 80 []) (disconnect fresh_world) = Returned attempt /\
    QuizAttempt.id attempt = "offline-1700000000000" /\
    QuizAttempt.score attempt = 80.
Proof.
  split; [reflexivity|].
  destruct (offline_attempt_is_placeholder "u1" "q1" 80 [] (disconnect fresh_world) eq_refl)
    as (attempt & Hr & Hid & _ & _ & _ & Hscore & _).
  exists attempt. split; [exact Hr|]. split; [exact Hid | exact Hscore].
Defined.

(** * Further properties of the cache manager *)

(** ** Clearing *)

(** X1: on a healthy storage [clearOfflineData] returns, removes every key
    of the namespace [econquiz_] and leaves every other key as it was; the
    lists read afterwards are empty and no detail record is found. *)
Theorem clear_is_namespace_scoped :
  forall w : World,
    healthy w ->
    let w' := world_after clearOfflineData w in
    result_of clearOfflineData w = Returned tt /\
    (forall k, String.prefix "econquiz_" k = true -> storage w' !! k = None) /\
    (forall k, String.prefix "econquiz_" k = false -> storage w' !! k = storage w !! k) /\
    result_of getOfflineArticles w' = Returned [] /\
    result_of getOfflineQuizzes w' = Returned [] /\
    (forall id, result_of (getOfflineArticle id) w' = Returned None) /\
    (forall id, result_of (getOfflineQuiz id) w' = Returned None).
Proof.
  intros w Hw w'.
  assert (Hrun : clearOfflineData w =
                 (Returned tt, world_after clearOfflineData w) /\ healthy w').
  { unfold w', world_after, healthy, clearOfflineData, try_catch, mbind, Async_bind,
      AsyncStorage.getAllKeys, AsyncStorage.multiRemove, AsyncStorage.rejects.
    rewrite (next_storage_call_healthy w Hw), Hw. world_simpl. rewrite Hw. split; reflexivity. }
  destruct Hrun as [Hrun Hw'].
  assert (Hin : forall k, String.prefix "econquiz_" k = true -> storage w' !! k = None).
  { intros k Hk. unfold w'. rewrite clearOfflineData_healthy, Hk by exact Hw. reflexivity. }
  split; [unfold result_of; rewrite Hrun; reflexivity|].
  split; [exact Hin|]. split.
  { intros k Hk. unfold w'. rewrite clearOfflineData_healthy, Hk by exact Hw. reflexivity. }
  split; [|split; [|split]].
  - rewrite getOfflineArticles_result. unfold cached_articles, AsyncStorage.rejects.
    rewrite Hw', (Hin KEYS.ARTICLES) by reflexivity. reflexivity.
  - unfold result_of, getOfflineQuizzes, try_catch, mbind, Async_bind.
    rewrite getItem_healthy, (Hin KEYS.QUIZZES) by (exact Hw' || reflexivity). reflexivity.
  - intros id. unfold result_of, getOfflineArticle, try_catch, mbind, Async_bind.
    rewrite getItem_healthy, Hin by (exact Hw' || reflexivity). reflexivity.
  - intros id. apply getOfflineQuiz_absent; [exact Hw'|]. apply Hin. reflexivity.
Qed.

(** X2: [clearOfflineData] never raises, and it is all or nothing: when
    listing the keys or removing them is rejected, the store is left as it
    was and the failure is logged. *)
Theorem clear_never_raises :
  forall w : World,
    let w' := world_after clearOfflineData w in
    result_of clearOfflineData w = Returned tt /\
    (AsyncStorage.rejects w = true \/ hd false (tail (storage_faults w)) = true ->
     storage w' = storage w /\
     In (ConsoleError "Error clearing offline data:" StorageError)
        (events_of clearOfflineData w)).
Proof.
  intros w w'. subst w'.
  unfold events_of, result_of, world_after, clearOfflineData, try_catch, mbind, Async_bind,
    AsyncStorage.getAllKeys, AsyncStorage.multiRemove, console.error.
  destruct (AsyncStorage.rejects w) eqn:Hr; world_simpl.
  - split; [reflexivity|]. intros _. split; [reflexivity|].
    rewrite <- !app_assoc, drop_app_length. cbn. tauto.
  - unfold AsyncStorage.rejects in *. world_simpl.
    destruct (hd false (tail (storage_faults w))) eqn:Hr2; world_simpl.
    + split; [reflexivity|]. intros _. split; [reflexivity|].
      rewrite <- !app_assoc, drop_app_length. cbn. tauto.
    + split; [reflexivity|]. intros [Hc|Hc]; congruence.
Qed.

(** ** Reads *)

Lemma getItem_storage key w : storage (world_after (AsyncStorage.getItem key) w) = storage w.
Proof. unfold world_after, AsyncStorage.getItem. destruct (AsyncStorage.rejects w); reflexivity. Qed.

Section ReadsKeepTheStore.
Variable w : World.

Lemma getOfflineArticles_storage : storage (world_after getOfflineArticles w) = storage w.
Proof.
  unfold world_after, getOfflineArticles, try_catch, mbind, Async_bind, AsyncStorage.getItem.
  destruct (AsyncStorage.rejects w); [reflexivity|].
  destruct (storage w !! KEYS.ARTICLES) as [[]|]; reflexivity.
Qed.

Lemma getOfflineQuizzes_storage : storage (world_after getOfflineQuizzes w) = storage w.
Proof.
  unfold world_after, getOfflineQuizzes, try_catch, mbind, Async_bind, AsyncStorage.getItem.
  destruct (AsyncStorage.rejects w); [reflexivity|].
  destruct (storage w !! KEYS.QUIZZES) as [[]|]; reflexivity.
Qed.

Lemma getOfflineArticle_storage id : storage (world_after (getOfflineArticle id) w) = storage w.
Proof.
  unfold world_after, getOfflineArticle, try_catch, mbind, Async_bind, AsyncStorage.getItem.
  destruct (AsyncStorage.rejects w); [reflexivity|].
  destruct (storage w !! _) as [[]|]; reflexivity.
Qed.

Lemma getOfflineQuiz_storage id : storage (world_after (getOfflineQuiz id) w) = storage w.
Proof.
  unfold world_after, getOfflineQuiz, try_catch, mbind, Async_bind, AsyncStorage.getItem.
  destruct (AsyncStorage.rejects w); [reflexivity|].
  destruct (storage w !! _) as [[]|]; reflexivity.
Qed.
End ReadsKeepTheStore.

Lemma getOfflineArticle_returns id w :
  exists found, result_of (getOfflineArticle id) w = Returned found.
Proof.
  unfold result_of, getOfflineArticle, try_catch, mbind, Async_bind, AsyncStorage.getItem.
  destruct (AsyncStorage.rejects w); [eexists; reflexivity|].
  destruct (storage w !! _) as [[]|]; eexists; reflexivity.
Qed.

Lemma getOfflineArticle_absent w id :
  healthy w -> storage w !! (KEYS.ARTICLE_PREFIX +:+ id) = None ->
  result_of (getOfflineArticle id) w = Returned None.
Proof.
  intros Hw Hl. unfold result_of, getOfflineArticle, try_catch, mbind, Async_bind.
  rewrite getItem_healthy, Hl by exact Hw. reflexivity.
Qed.

(** X3: the reads of the cache never raise and never change the store.  A
    list read answers the empty list, and a detail read null, when the record
    is missing and when the storage rejects the read; each of the four reads
    logs a rejected read, under its own label, and does nothing else. *)
Theorem cache_reads_degrade :
  forall (w : World) (id : string),
    (exists l, result_of getOfflineArticles w = Returned l) /\
    (exists l, result_of getOfflineQuizzes w = Returned l) /\
    (exists a, result_of (getOfflineArticle id) w = Returned a) /\
    (exists q, result_of (getOfflineQuiz id) w = Returned q) /\
    storage (world_after getOfflineArticles w) = storage w /\
    storage (world_after getOfflineQuizzes w) = storage w /\
    storage (world_after (getOfflineArticle id) w) = storage w /\
    storage (world_after (getOfflineQuiz id) w) = storage w /\
    (AsyncStorage.rejects w = true ->
     result_of getOfflineArticles w = Returned [] /\
     result_of getOfflineQuizzes w = Returned [] /\
     result_of (getOfflineArticle id) w = Returned None /\
     result_of (getOfflineQuiz id) w = Returned None /\
     events_of getOfflineArticles w
     = [StorageGet KEYS.ARTICLES false;
        ConsoleError "Error getting offline articles:" StorageError] /\
     events_of getOfflineQuizzes w
     = [StorageGet KEYS.QUIZZES false;
        ConsoleError "Error getting offline quizzes:" StorageError] /\
     events_of (getOfflineArticle id) w
     = [StorageGet (KEYS.ARTICLE_PREFIX +:+ id) false;
        ConsoleError "Error getting offline article:" StorageError] /\
     events_of (getOfflineQuiz id) w
     = [StorageGet (KEYS.QUIZ_PREFIX +:+ id) false;
        ConsoleError "Error getting offline quiz:" StorageError]) /\
    (AsyncStorage.rejects w = false ->
     (storage w !! KEYS.ARTICLES = None -> result_of getOfflineArticles w = Returned []) /\
     (storage w !! KEYS.QUIZZES = None -> result_of getOfflineQuizzes w = Returned []) /\
     (storage w !! (KEYS.ARTICLE_PREFIX +:+ id) = None ->
      result_of (getOfflineArticle id) w = Returned None) /\
     (storage w !! (KEYS.QUIZ_PREFIX +:+ id) = None ->
      result_of (getOfflineQuiz id) w = Returned None)).
Proof.
  intros w id.
  split; [eexists; apply getOfflineArticles_result|].
  split; [apply getOfflineQuizzes_returns|].
  split; [apply getOfflineArticle_returns|].
  split; [apply getOfflineQuiz_returns|].
  split; [apply getOfflineArticles_storage|].
  split; [apply getOfflineQuizzes_storage|].
  split; [apply getOfflineArticle_storage|].
  split; [apply getOfflineQuiz_storage|].
  unfold events_of, result_of, world_after, getOfflineArticles, getOfflineQuizzes,
    getOfflineArticle, getOfflineQuiz, try_catch, mbind, mret, Async_bind, Async_ret,
    AsyncStorage.getItem, console.error.
  split; intros Hr; rewrite Hr; world_simpl.
  - repeat split; try reflexivity;
      rewrite <- !app_assoc, drop_app_length; reflexivity.
  - repeat split; intros ->; reflexivity.
Qed.

(** ** Batches *)

Section BatchFrame.
Variables (listKey : string) (listText : Payload)
          (details : list (string * Payload)) (label : string).
Variable w : World.

Lemma saveList_frame k :
  k <> listKey -> k <> KEYS.LAST_SYNC -> k ∉ map fst details ->
  storage (world_after (saveList listKey listText details label) w) !! k = storage w !! k.
Proof.
  intros Hl Hs Hd. unfold world_after. rewrite saveList_run. cbn [snd storage].
  unfold saveList_storage. destruct (AsyncStorage.rejects w); [reflexivity|].
  destruct (_ && _).
  - rewrite lookup_insert_ne, written_other, lookup_insert_ne by congruence. reflexivity.
  - rewrite written_other, lookup_insert_ne by congruence. reflexivity.
Qed.

Lemma saveList_sync_record :
  listKey <> KEYS.LAST_SYNC -> KEYS.LAST_SYNC ∉ map fst details ->
  storage (world_after (saveList listKey listText details label) w) !! KEYS.LAST_SYNC =
    if negb (AsyncStorage.rejects w) && forallb id (detail_outcomes details w)
       && negb (hd false (faults_at_stamp details w))
    then Some (stamp w) else storage w !! KEYS.LAST_SYNC.
Proof.
  intros Hl Hd. unfold world_after. rewrite saveList_run. cbn [snd storage].
  unfold saveList_storage. destruct (AsyncStorage.rejects w); [reflexivity|]. cbn [negb andb].
  destruct (_ && _).
  - apply lookup_insert_eq.
  - rewrite written_other, lookup_insert_ne by congruence. reflexivity.
Qed.

Lemma saveList_rejected_iff :
  (exists key value,
      In (StorageSet key value false) (events_of (saveList listKey listText details label) w)) <->
  negb (AsyncStorage.rejects w) && forallb id (detail_outcomes details w)
    && negb (hd false (faults_at_stamp details w)) = false.
Proof.
  rewrite saveList_journal. unfold saveList_events.
  pose proof (outcomes_length (length details) (tail (storage_faults w))) as Hlen.
  fold (detail_outcomes details w) in Hlen.
  destruct (AsyncStorage.rejects w); cbn [negb andb].
  - split; [reflexivity|]. intros _. exists listKey, listText. left. reflexivity.
  - destruct (forallb id (detail_outcomes details w)) eqn:Hall; cbn [andb].
    + unfold stamp_events. destruct (hd false (faults_at_stamp details w)); cbn [negb].
      * split; [reflexivity|]. intros _. exists KEYS.LAST_SYNC, (stamp w).
        right. apply in_or_app. right. left. reflexivity.
      * split; [|discriminate]. intros (key & value & [Heq|Hin]); [discriminate|].
        apply in_app_or in Hin as [Hin|[Heq|[]]]; [|discriminate].
        apply write_events_rejected in Hin as [Hno _]. congruence.
    + split; [reflexivity|]. intros _.
      destruct (write_events_some_rejected details _ Hlen Hall) as (k & v & _ & Hin).
      exists k, v. right. apply in_or_app. left. exact Hin.
Qed.
End BatchFrame.

Lemma quiz_key_not_article_key id id' : KEYS.QUIZ_PREFIX +:+ id <> KEYS.ARTICLE_PREFIX +:+ id'.
Proof. discriminate. Qed.

Lemma quiz_key_not_article_detail id articles :
  KEYS.QUIZ_PREFIX +:+ id ∉ map fst (article_details articles).
Proof.
  rewrite article_details_keys. intros Hin.
  apply list_elem_of_fmap in Hin as (a & Heq & _). exact (quiz_key_not_article_key _ _ Heq).
Qed.

Lemma article_key_not_quiz_detail id quizzes :
  KEYS.ARTICLE_PREFIX +:+ id ∉ map fst (quiz_details quizzes).
Proof.
  rewrite quiz_details_keys. intros Hin.
  apply list_elem_of_fmap in Hin as (a & Heq & _). symmetry in Heq.
  exact (quiz_key_not_article_key _ _ Heq).
Qed.

Lemma foreign_not_article_detail k articles :
  String.prefix "econquiz_" k = false -> k ∉ map fst (article_details articles).
Proof.
  intros Hk. rewrite article_details_keys. intros Hin.
  apply list_elem_of_fmap in Hin as (a & -> & _). discriminate Hk.
Qed.

Lemma foreign_not_quiz_detail k quizzes :
  String.prefix "econquiz_" k = false -> k ∉ map fst (quiz_details quizzes).
Proof.
  intros Hk. rewrite quiz_details_keys. intros Hin.
  apply list_elem_of_fmap in Hin as (a & -> & _). discriminate Hk.
Qed.

(** X4: whatever the storage accepts or rejects, a batch of one entity type
    leaves alone the list record and the detail records of the other type,
    and every key outside the namespace. *)
Theorem batch_keeps_other_records :
  (forall (articles : list Article.t) (w : World),
      let w' := world_after (saveArticlesOffline articles) w in
      storage w' !! KEYS.QUIZZES = storage w !! KEYS.QUIZZES /\
      (forall id, storage w' !! (KEYS.QUIZ_PREFIX +:+ id) = storage w !! (KEYS.QUIZ_PREFIX +:+ id)) /\
      (forall k, String.prefix "econquiz_" k = false -> storage w' !! k = storage w !! k)) /\
  (forall (quizzes : list Quiz.t) (w : World),
      let w' := world_after (saveQuizzesOffline quizzes) w in
      storage w' !! KEYS.ARTICLES = storage w !! KEYS.ARTICLES /\
      (forall id, storage w' !! (KEYS.ARTICLE_PREFIX +:+ id)
                  = storage w !! (KEYS.ARTICLE_PREFIX +:+ id)) /\
      (forall k, String.prefix "econquiz_" k = false -> storage w' !! k = storage w !! k)).
Proof.
  split.
  - intros articles w w'. subst w'. rewrite saveArticlesOffline_saveList. split; [|split].
    + apply saveList_frame; [discriminate | discriminate |].
      rewrite article_details_keys. intros Hin.
      apply list_elem_of_fmap in Hin as (a & Heq & _). discriminate Heq.
    + intros id. apply saveList_frame;
        [destruct id; discriminate | discriminate | apply quiz_key_not_article_detail].
    + intros k Hk. apply saveList_frame; [| |apply foreign_not_article_detail, Hk];
        intros ->; discriminate Hk.
  - intros quizzes w w'. subst w'. rewrite saveQuizzesOffline_saveList. split; [|split].
    + apply saveList_frame; [discriminate | discriminate |].
      rewrite quiz_details_keys. intros Hin.
      apply list_elem_of_fmap in Hin as (a & Heq & _). discriminate Heq.
    + intros id. apply saveList_frame;
        [destruct id; discriminate | discriminate | apply article_key_not_quiz_detail].
    + intros k Hk. apply saveList_frame; [| |apply foreign_not_quiz_detail, Hk];
        intros ->; discriminate Hk.
Qed.

Lemma article_key_not_saved id articles :
  id ∉ map Article.id articles -> KEYS.ARTICLE_PREFIX +:+ id ∉ map fst (article_details articles).
Proof.
  intros Hid. rewrite article_details_keys. intros Hin.
  apply list_elem_of_fmap in Hin as (a & Heq & Ha). apply prefix_inj in Heq. subst id.
  apply Hid. apply list_elem_of_fmap. exists a. auto.
Qed.

Lemma quiz_key_not_saved id quizzes :
  id ∉ map Quiz.id quizzes -> KEYS.QUIZ_PREFIX +:+ id ∉ map fst (quiz_details quizzes).
Proof.
  intros Hid. rewrite quiz_details_keys. intros Hin.
  apply list_elem_of_fmap in Hin as (q & Heq & Hq). apply prefix_inj in Heq. subst id.
  apply Hid. apply list_elem_of_fmap. exists q. auto.
Qed.

(** X5: a later batch replaces the list record, it does not merge into it;
    the detail record of an entity saved by the earlier batch and absent from
    the later one stays in the cache and is still served. *)
Theorem later_batch_replaces_list :
  (forall (earlier later : list Article.t) (w : World),
      healthy w -> NoDup (map Article.id earlier) ->
      let w' := world_after (saveArticlesOffline later)
                            (world_after (saveArticlesOffline earlier) w) in
      result_of getOfflineArticles w' = Returned (map article_list_entry later) /\
      (forall a, In a earlier -> Article.id a ∉ map Article.id later ->
                 result_of (getOfflineArticle (Article.id a)) w' = Returned (Some a))) /\
  (forall (earlier later : list Quiz.t) (w : World),
      healthy w -> NoDup (map Quiz.id earlier) ->
      let w' := world_after (saveQuizzesOffline later)
                            (world_after (saveQuizzesOffline earlier) w) in
      result_of getOfflineQuizzes w' = Returned (map quiz_list_entry later) /\
      (forall q, In q earlier -> Quiz.id q ∉ map Quiz.id later ->
                 result_of (getOfflineQuiz (Quiz.id q)) w' = Returned (Some q))).
Proof.
  split.
  - intros earlier later w Hw Hnd w'. subst w'. rewrite !saveArticlesOffline_saveList.
    set (w1 := world_after (saveList _ _ (article_details earlier) _) w).
    assert (Hw1 : healthy w1) by (apply saved_healthy, Hw).
    split.
    + unfold result_of. erewrite getOfflineArticles_healthy; [reflexivity| |].
      * apply saved_healthy, Hw1.
      * apply saved_list; [exact Hw1 | discriminate | apply article_list_not_detail].
    + intros a Ha Hout. unfold result_of.
      erewrite getOfflineArticle_healthy; [reflexivity| |].
      * apply saved_healthy, Hw1.
      * rewrite saved_other;
          [| exact Hw1 | apply article_key_not_sync | apply article_key_not_list
           | apply article_key_not_saved, Hout].
        apply saved_detail;
          [exact Hw | apply article_key_not_sync | | apply article_detail_in, Ha].
        rewrite article_details_keys. apply (NoDup_prefixed _ Article.id), Hnd.
  - intros earlier later w Hw Hnd w'. subst w'. rewrite !saveQuizzesOffline_saveList.
    set (w1 := world_after (saveList _ _ (quiz_details earlier) _) w).
    assert (Hw1 : healthy w1) by (apply saved_healthy, Hw).
    split.
    + unfold result_of. erewrite getOfflineQuizzes_healthy; [reflexivity| |].
      * apply saved_healthy, Hw1.
      * apply saved_list; [exact Hw1 | discriminate | apply quiz_list_not_detail].
    + intros q Hq Hout. unfold result_of.
      erewrite getOfflineQuiz_healthy; [reflexivity| |].
      * apply saved_healthy, Hw1.
      * rewrite saved_other;
          [| exact Hw1 | apply quiz_key_not_sync | apply quiz_key_not_list
           | apply quiz_key_not_saved, Hout].
        apply saved_detail;
          [exact Hw | apply quiz_key_not_sync | | apply quiz_detail_in, Hq].
        rewrite quiz_details_keys. apply (NoDup_prefixed _ Quiz.id), Hnd.
Qed.

Lemma saved_last listKey listText before k v later label w :
  healthy w -> k <> KEYS.LAST_SYNC -> k ∉ map fst later ->
  storage (world_after (saveList listKey listText (before ++ (k, v) :: later) label) w) !! k
  = Some v.
Proof.
  intros Hw Hs Hk. rewrite saveList_healthy by exact Hw. cbn [storage].
  rewrite lookup_insert_ne by congruence. apply stored_last, Hk.
Qed.

Lemma article_details_app before a later :
  article_details (before ++ a :: later) =
  (article_details before ++ (KEYS.ARTICLE_PREFIX +:+ Article.id a, JsonArticle a)
                          :: article_details later)%list.
Proof. unfold article_details. rewrite map_app. reflexivity. Qed.

Lemma quiz_details_app before q later :
  quiz_details (before ++ q :: later) =
  (quiz_details before ++ (KEYS.QUIZ_PREFIX +:+ Quiz.id q, JsonQuiz q)
                       :: quiz_details later)%list.
Proof. unfold quiz_details. rewrite map_app. reflexivity. Qed.

(** X6: when an identity occurs several times in a batch, the detail read
    returns the last entity of the batch that carries it. *)
Theorem last_entity_of_an_identity_wins :
  (forall (before : list Article.t) (a : Article.t) (later : list Article.t) (w : World),
      healthy w -> Article.id a ∉ map Article.id later ->
      result_of (getOfflineArticle (Article.id a))
                (world_after (saveArticlesOffline (before ++ a :: later)) w)
      = Returned (Some a)) /\
  (forall (before : list Quiz.t) (q : Quiz.t) (later : list Quiz.t) (w : World),
      healthy w -> Quiz.id q ∉ map Quiz.id later ->
      result_of (getOfflineQuiz (Quiz.id q))
                (world_after (saveQuizzesOffline (before ++ q :: later)) w)
      = Returned (Some q)).
Proof.
  split.
  - intros before a later w Hw Hout. rewrite saveArticlesOffline_saveList.
    unfold result_of. erewrite getOfflineArticle_healthy; [reflexivity| |].
    + apply saved_healthy, Hw.
    + rewrite article_details_app.
      apply saved_last; [exact Hw | apply article_key_not_sync |].
      apply article_key_not_saved, Hout.
  - intros before q later w Hw Hout. rewrite saveQuizzesOffline_saveList.
    unfold result_of. erewrite getOfflineQuiz_healthy; [reflexivity| |].
    + apply saved_healthy, Hw.
    + rewrite quiz_details_app.
      apply saved_last; [exact Hw | apply quiz_key_not_sync |].
      apply quiz_key_not_saved, Hout.
Qed.

(** X7: the Sync Clock record follows the accepted batches only: if any
    write of a batch is rejected the record is what it was before the batch,
    and if none is it holds the time the batch ran at. *)
Theorem sync_clock_follows_accepted_batches :
  (forall (articles : list Article.t) (w : World),
      let save := saveArticlesOffline articles in
      ((exists key value, In (StorageSet key value false) (events_of save w)) ->
       storage (world_after save w) !! KEYS.LAST_SYNC = storage w !! KEYS.LAST_SYNC) /\
      ((forall key value, ~ In (StorageSet key value false) (events_of save w)) ->
       storage (world_after save w) !! KEYS.LAST_SYNC
       = Some (DateString (ISO8601 (clock w))))) /\
  (forall (quizzes : list Quiz.t) (w : World),
      let save := saveQuizzesOffline quizzes in
      ((exists key value, In (StorageSet key value false) (events_of save w)) ->
       storage (world_after save w) !! KEYS.LAST_SYNC = storage w !! KEYS.LAST_SYNC) /\
      ((forall key value, ~ In (StorageSet key value false) (events_of save w)) ->
       storage (world_after save w) !! KEYS.LAST_SYNC
       = Some (DateString (ISO8601 (clock w))))).
Proof.
  split.
  - intros articles w save. subst save. rewrite saveArticlesOffline_saveList.
    rewrite saveList_sync_record by (discriminate || apply sync_not_article_detail).
    split.
    + intros Hrej. apply saveList_rejected_iff in Hrej. rewrite Hrej. reflexivity.
    + intros Hnone. destruct (_ && _) eqn:Hall; [reflexivity|].
      destruct (proj2 (saveList_rejected_iff KEYS.ARTICLES
                         (JsonArticles (map article_list_entry articles))
                         (article_details articles) "Error saving articles offline:" w) Hall)
        as (key & value & Hin).
      destruct (Hnone key value Hin).
  - intros quizzes w save. subst save. rewrite saveQuizzesOffline_saveList.
    rewrite saveList_sync_record by (discriminate || apply sync_not_quiz_detail).
    split.
    + intros Hrej. apply saveList_rejected_iff in Hrej. rewrite Hrej. reflexivity.
    + intros Hnone. destruct (_ && _) eqn:Hall; [reflexivity|].
      destruct (proj2 (saveList_rejected_iff KEYS.QUIZZES
                         (JsonQuizzes (map quiz_list_entry quizzes))
                         (quiz_details quizzes) "Error saving quizzes offline:" w) Hall)
        as (key & value & Hin).
      destruct (Hnone key value Hin).
Qed.

(** * Further properties of the article service *)

Lemma getOfflineArticles_pair w :
  getOfflineArticles w = (Returned (cached_articles w), world_after getOfflineArticles w).
Proof. apply returned_pair, getOfflineArticles_result. Qed.

Lemma getOfflineArticles_backend w : backend (world_after getOfflineArticles w) = backend w.
Proof.
  unfold world_after, getOfflineArticles, try_catch, mbind, Async_bind, AsyncStorage.getItem.
  destruct (AsyncStorage.rejects w); [reflexivity|].
  destruct (storage w !! KEYS.ARTICLES) as [[]|]; reflexivity.
Qed.

(** On the cache paths [fetchArticles] ends in the world a read of the list
    leaves. *)
Lemma fetchArticles_fallback_world isPremiumUser w :
  falls_back w ->
  exists w1, storage w1 = storage w /\ backend w1 = backend w /\
             world_after (fetchArticles isPremiumUser) w = world_after getOfflineArticles w1.
Proof.
  intros Hfb. unfold world_after at 1, fetchArticles, try_catch, mbind, Async_bind, NetInfo.fetch.
  destruct (truthy (isConnected w)) eqn:Hc.
  - destruct Hfb as [Hfb|[error Hfb]]; [congruence|].
    unfold supabase.select_articles, supabase.request. world_simpl. rewrite Hfb.
    unfold throw, console.error. world_simpl.
    match goal with |- context [getOfflineArticles ?w1] =>
      exists w1; rewrite (getOfflineArticles_pair w1) end.
    repeat split; reflexivity.
  - match goal with |- context [getOfflineArticles ?w1] =>
      exists w1; rewrite (getOfflineArticles_pair w1) end.
    repeat split; reflexivity.
Qed.

(** X8: connected and with the backend answering, [fetchArticles] returns
    the rows of its query, whatever the storage does with the batch it
    writes.  When it falls back on the cache it returns whenever the record
    of the article list can be read as one, and also when the storage rejects
    the read, the list being empty then; and it changes neither the store nor
    the backend. *)
Theorem fetchArticles_settles :
  forall (isPremiumUser : bool) (w : World),
    (truthy (isConnected w) = true -> hd None (backend_faults w) = None ->
     result_of (fetchArticles isPremiumUser) w
     = Returned (map PartialArticle.of_article
                     (Query.rows article_cell (articles_query isPremiumUser)
                                 (Backend.articles (backend w))))) /\
    (falls_back w ->
     (reads_as_article_list w ->
      exists listed, result_of (fetchArticles isPremiumUser) w = Returned listed) /\
     (AsyncStorage.rejects w = true ->
      result_of (fetchArticles isPremiumUser) w = Returned []) /\
     storage (world_after (fetchArticles isPremiumUser) w) = storage w /\
     backend (world_after (fetchArticles isPremiumUser) w) = backend w).
Proof.
  intros isPremiumUser w. split.
  - intros Hc Hb. unfold result_of. rewrite fetchArticles_online by assumption. reflexivity.
  - intros Hfb. split; [|split].
    + intros _. eexists. apply fetchArticles_fallback, Hfb.
    + intros Hr. rewrite fetchArticles_fallback by exact Hfb.
      unfold cached_articles. rewrite Hr. reflexivity.
    + destruct (fetchArticles_fallback_world isPremiumUser w Hfb) as (w1 & Hs & Hb & ->).
      rewrite getOfflineArticles_storage, getOfflineArticles_backend. auto.
Qed.

Lemma fetchArticleById_offline articleId w a :
  truthy (isConnected w) = false -> healthy w ->
  storage w !! (KEYS.ARTICLE_PREFIX +:+ articleId) = Some (JsonArticle a) ->
  result_of (fetchArticleById articleId) w = Returned a.
Proof.
  intros Hc Hw Hl. unfold result_of, fetchArticleById, try_catch, mbind, Async_bind, NetInfo.fetch.
  rewrite Hc.
  match goal with |- context [getOfflineArticle articleId ?w1] =>
    rewrite (getOfflineArticle_healthy w1 articleId a Hw Hl) end.
  reflexivity.
Qed.

Lemma filter_all {A} (f : A -> bool) (l : list A) :
  (forall a, In a l -> f a = true) -> List.filter f l = l.
Proof.
  induction l as [|a l IH]; intros H; [reflexivity|]. cbn [List.filter].
  rewrite (H a) by (left; reflexivity). rewrite IH; [reflexivity|].
  intros a' Ha'. apply H. right. exact Ha'.
Qed.

Lemma rows_all_free b table :
  List.filter (fun a => b || negb (Article.is_premium a))
              (Query.rows article_cell (articles_query b) table)
  = Query.rows article_cell (articles_query b) table.
Proof.
  apply filter_all. intros a Ha. destruct b; [reflexivity|].
  rewrite (free_articles_selected _ a Ha). reflexivity.
Qed.

Section AfterOnlineFetch.
Variables (isPremiumUser : bool) (w : World).
Hypothesis Hc : truthy (isConnected w) = true.
Hypothesis Hb : hd None (backend_faults w) = None.
Hypothesis Hw : healthy w.

Let data := Query.rows article_cell (articles_query isPremiumUser) (Backend.articles (backend w)).
Let w' := world_after (fetchArticles isPremiumUser) w.

Lemma fetched_world : w' = world_after (saveArticlesOffline data) (answered w).
Proof. unfold w', world_after at 1. rewrite fetchArticles_online by assumption. reflexivity. Qed.

Lemma fetched_healthy : healthy w'.
Proof. rewrite fetched_world, saveArticlesOffline_saveList. apply saved_healthy. exact Hw. Qed.

Lemma fetched_list : storage w' !! KEYS.ARTICLES = Some (JsonArticles (map article_list_entry data)).
Proof.
  rewrite fetched_world, saveArticlesOffline_saveList.
  apply saved_list; [exact Hw | discriminate | apply article_list_not_detail].
Qed.

Lemma fetched_detail a :
  NoDup (map Article.id data) -> In a data ->
  storage w' !! (KEYS.ARTICLE_PREFIX +:+ Article.id a) = Some (JsonArticle a).
Proof.
  intros Hnd Ha. rewrite fetched_world, saveArticlesOffline_saveList.
  apply saved_detail; [exact Hw | apply article_key_not_sync | | apply article_detail_in, Ha].
  rewrite article_details_keys. apply (NoDup_prefixed _ Article.id), Hnd.
Qed.
End AfterOnlineFetch.

(** X9: after a connected [fetchArticles] on a healthy storage, each article
    it returned can be opened offline: [fetchArticleById] of its id returns
    the full article (the rows returned having distinct ids). *)
Theorem list_fetch_serves_details_offline :
  forall (isPremiumUser : bool) (w : World),
    truthy (isConnected w) = true -> hd None (backend_faults w) = None -> healthy w ->
    let data := Query.rows article_cell (articles_query isPremiumUser)
                           (Backend.articles (backend w)) in
    NoDup (map Article.id data) ->
    result_of (fetchArticles isPremiumUser) w = Returned (map PartialArticle.of_article data) /\
    forall a, In a data ->
      result_of (fetchArticleById (Article.id a))
                (disconnect (world_after (fetchArticles isPremiumUser) w))
      = Returned a.
Proof.
  intros isPremiumUser w Hc Hb Hw data Hnd. split.
  - unfold result_of. rewrite fetchArticles_online by assumption. reflexivity.
  - intros a Ha. apply fetchArticleById_offline; [reflexivity | |].
    + exact (fetched_healthy isPremiumUser w Hc Hb Hw).
    + exact (fetched_detail isPremiumUser w Hc Hb Hw a Hnd Ha).
Qed.

(** X10: what [fetchArticles] returns offline after a connected fetch is
    what it returned online with [content] and [image_url] missing: the list
    record keeps neither, although the result is typed [Article[]]. *)
Theorem offline_entries_lack_body :
  forall (isPremiumUser : bool) (w : World),
    truthy (isConnected w) = true -> hd None (backend_faults w) = None -> healthy w ->
    exists online,
      result_of (fetchArticles isPremiumUser) w = Returned online /\
      result_of (fetchArticles isPremiumUser)
                (disconnect (world_after (fetchArticles isPremiumUser) w))
      = Returned (map without_body online) /\
      Forall (fun p => PartialArticle.content p = None /\ PartialArticle.image_url p = None)
             (map without_body online).
Proof.
  intros isPremiumUser w Hc Hb Hw.
  eexists. split; [unfold result_of; rewrite fetchArticles_online by assumption; reflexivity|].
  split.
  - rewrite fetchArticles_fallback by (left; reflexivity).
    rewrite (cached_articles_healthy
               (disconnect (world_after (fetchArticles isPremiumUser) w)) _
               (fetched_healthy isPremiumUser w Hc Hb Hw)
               (fetched_list isPremiumUser w Hc Hb Hw)).
    rewrite filter_list_entries, rows_all_free, map_map. reflexivity.
  - apply Forall_forall. intros p Hp.
    apply list_elem_of_In, in_map_iff in Hp as (p' & <- & _). split; reflexivity.
Qed.

(** A read of a detail record on a healthy storage: the answer, and a world
    with the same store, still healthy. *)
Lemma getOfflineArticle_read articleId w :
  healthy w ->
  exists w', storage w' = storage w /\ healthy w' /\
    getOfflineArticle articleId w =
      (Returned (match storage w !! (KEYS.ARTICLE_PREFIX +:+ articleId) with
                 | Some (JsonArticle a) => Some a
                 | _ => None
                 end), w').
Proof.
  intros Hw. unfold getOfflineArticle, try_catch, mbind, Async_bind.
  rewrite getItem_healthy by exact Hw.
  destruct (storage w !! _) as [[]|]; eexists; (split; [|split; [|reflexivity]]);
    (reflexivity || exact Hw).
Qed.

(** [fetchArticleById] when the article cannot be fetched: the answer is the
    one of a read of the detail record, and the store is the same. *)
Lemma fetchArticleById_fallback articleId w :
  healthy w ->
  truthy (isConnected w) = false
  \/ (exists failure, hd None (backend_faults w) = Some failure)
  \/ (exists failure,
        Query.single article_cell (Query.eq "id" (Text articleId) Query.select)
                     (Backend.articles (backend w)) = Failure failure) ->
  result_of (fetchArticleById articleId) w =
    match storage w !! (KEYS.ARTICLE_PREFIX +:+ articleId) with
    | Some (JsonArticle a) => Returned a
    | _ => Thrown (NewError "Article not found")
    end /\
  storage (world_after (fetchArticleById articleId) w) = storage w.
Proof.
  intros Hw Hcannot.
  unfold result_of, world_after, fetchArticleById, try_catch, mbind, Async_bind, NetInfo.fetch.
  destruct (truthy (isConnected w)) eqn:Hc.
  - unfold supabase.single_article, supabase.request. world_simpl.
    destruct (hd None (backend_faults w)) as [failure|] eqn:Hb.
    + unfold throw, console.error. world_simpl.
      match goal with |- context [getOfflineArticle articleId ?w1] =>
        destruct (getOfflineArticle_read articleId w1 Hw) as (w2 & Hs2 & _ & ->) end.
      cbn [storage] in *.
      destruct (storage w !! _) as [[]|]; split; (reflexivity || exact Hs2).
    + destruct Hcannot as [Hcannot|[[failure Hcannot]|[failure Hcannot]]]; try congruence.
      rewrite Hcannot. unfold throw, console.error. world_simpl.
      match goal with |- context [getOfflineArticle articleId ?w1] =>
        destruct (getOfflineArticle_read articleId w1 Hw) as (w2 & Hs2 & _ & ->) end.
      cbn [storage] in *.
      destruct (storage w !! _) as [[]|]; split; (reflexivity || exact Hs2).
  - match goal with |- context [getOfflineArticle articleId ?w1] =>
      destruct (getOfflineArticle_read articleId w1 Hw) as (w2 & Hs2 & Hw2 & ->) end.
    world_simpl.
    destruct (storage w !! (KEYS.ARTICLE_PREFIX +:+ articleId)) as [text|] eqn:Hl.
    + destruct text;
        try (split; [reflexivity | exact Hs2]);
        unfold throw, console.error; world_simpl;
        match goal with |- context [getOfflineArticle articleId ?w3] =>
          destruct (getOfflineArticle_read articleId w3 Hw2) as (w4 & Hs4 & _ & ->) end;
        world_simpl; rewrite Hs2, Hl in *; (split; [reflexivity | exact Hs4]).
    + unfold throw, console.error. world_simpl.
      match goal with |- context [getOfflineArticle articleId ?w3] =>
        destruct (getOfflineArticle_read articleId w3 Hw2) as (w4 & Hs4 & _ & ->) end.
      world_simpl. rewrite Hs2, Hl in *. split; [reflexivity | exact Hs4].
Qed.

(** X11: when the article cannot be fetched (the device is offline, the
    backend request fails, or the backend has no single row of that id), on a
    healthy storage [fetchArticleById] returns the cached detail record if
    there is one and raises "Article not found" if there is none; the store
    is not changed. *)
Theorem fetchArticleById_cache_paths :
  forall (articleId : string) (w : World),
    healthy w ->
    truthy (isConnected w) = false
    \/ (exists failure, hd None (backend_faults w) = Some failure)
    \/ (exists failure,
          Query.single article_cell (Query.eq "id" (Text articleId) Query.select)
                       (Backend.articles (backend w)) = Failure failure) ->
    (forall a, storage w !! (KEYS.ARTICLE_PREFIX +:+ articleId) = Some (JsonArticle a) ->
               result_of (fetchArticleById articleId) w = Returned a) /\
    (storage w !! (KEYS.ARTICLE_PREFIX +:+ articleId) = None ->
     result_of (fetchArticleById articleId) w = Thrown (NewError "Article not found")) /\
    storage (world_after (fetchArticleById articleId) w) = storage w.
Proof.
  intros articleId w Hw Hcannot.
  destruct (fetchArticleById_fallback articleId w Hw Hcannot) as [Hres Hstore].
  split; [|split; [|exact Hstore]].
  - intros a Ha. rewrite Hres, Ha. reflexivity.
  - intros Ha. rewrite Hres, Ha. reflexivity.
Qed.

Lemma not_found_handler label articleId e w error :
  result_of (console.error label e;;
             article ← getOfflineArticle articleId;
             match article with
             | None => throw (NewError "Article not found")
             | Some article => mret article
             end) w = Thrown error ->
  error = NewError "Article not found".
Proof.
  unfold result_of, mbind, Async_bind, console.error. cbn beta iota.
  destruct (getOfflineArticle_returns articleId (record_event (ConsoleError label e) w))
    as [found Hfound].
  rewrite (returned_pair _ _ _ Hfound). destruct found; cbn; congruence.
Qed.

(** X12: the only error [fetchArticleById] ever raises is "Article not
    found": neither the backend's error nor the "not found in offline
    storage" of the offline branch reaches the caller. *)
Theorem fetchArticleById_only_error :
  forall (articleId : string) (w : World) (error : JsError),
    result_of (fetchArticleById articleId) w = Thrown error ->
    error = NewError "Article not found".
Proof.
  intros articleId w error. unfold result_of at 1, fetchArticleById, try_catch at 1.
  match goal with |- context [match ?body w with _ => _ end] =>
    destruct (body w) as [[a|e] w1] end.
  - discriminate.
  - apply not_found_handler.
Qed.

(** ** Progress updates *)

Lemma progress_hit p userId articleId :
  forallb (Query.satisfies progress_cell p)
          [("user_id", Text userId); ("article_id", Text articleId)]
  = String.eqb (ArticleProgress.user_id p) userId
    && String.eqb (ArticleProgress.article_id p) articleId.
Proof. cbn. rewrite andb_true_r. reflexivity. Qed.

Lemma progress_query_rows userId articleId table :
  Query.rows progress_cell
             (Query.eq "article_id" (Text articleId) (Query.eq "user_id" (Text userId) Query.select))
             table
  = progress_rows userId articleId table.
Proof.
  unfold Query.rows, progress_rows. cbn [Query.ordering Query.eq Query.select Query.filters app].
  apply filter_ext. intros p. apply progress_hit.
Qed.

Section Upsert.
Variables (userId articleId : string) (completed : bool) (now : DateText).

Let change (p : ArticleProgress.t) : ArticleProgress.t :=
  if forallb (Query.satisfies progress_cell p)
             [("user_id", Text userId); ("article_id", Text articleId)]
  then ArticleProgress.make (ArticleProgress.id p) (ArticleProgress.user_id p)
         (ArticleProgress.article_id p) completed now (ArticleProgress.created_at p)
  else p.

Lemma change_keeps_pair p u a :
  String.eqb (ArticleProgress.user_id (change p)) u
  && String.eqb (ArticleProgress.article_id (change p)) a
  = String.eqb (ArticleProgress.user_id p) u && String.eqb (ArticleProgress.article_id p) a.
Proof. unfold change. destruct (forallb _ _); reflexivity. Qed.

Lemma updated_rows_of_pair table :
  progress_rows userId articleId (map change table)
  = map (fun p => ArticleProgress.make (ArticleProgress.id p) (ArticleProgress.user_id p)
                    (ArticleProgress.article_id p) completed now (ArticleProgress.created_at p))
        (progress_rows userId articleId table).
Proof.
  unfold progress_rows. induction table as [|p l IH]; [reflexivity|].
  cbn [map List.filter]. rewrite change_keeps_pair.
  destruct (String.eqb (ArticleProgress.user_id p) userId
            && String.eqb (ArticleProgress.article_id p) articleId) eqn:Hp.
  - cbn [map]. rewrite IH. f_equal. unfold change. rewrite progress_hit, Hp. reflexivity.
  - exact IH.
Qed.

Lemma updated_rows_of_other_pair u a table :
  (u, a) <> (userId, articleId) ->
  progress_rows u a (map change table) = progress_rows u a table.
Proof.
  intros Hne. unfold progress_rows. induction table as [|p l IH]; [reflexivity|].
  cbn [map List.filter]. rewrite change_keeps_pair, IH.
  destruct (String.eqb (ArticleProgress.user_id p) u
            && String.eqb (ArticleProgress.article_id p) a) eqn:Hp; [|reflexivity].
  f_equal. unfold change. rewrite progress_hit.
  apply andb_prop in Hp as [Hu Ha]. apply String.eqb_eq in Hu, Ha. rewrite Hu, Ha.
  destruct (String.eqb u userId && String.eqb a articleId) eqn:Hsame; [|reflexivity].
  apply andb_prop in Hsame as [Hu' Ha']. apply String.eqb_eq in Hu', Ha'. congruence.
Qed.
End Upsert.

(** X13: connected and with the backend answering, [updateArticleProgress]
    is an upsert: if the collection holds at most one row for the user and
    the article, it holds exactly one afterwards, carrying the given flag and
    the current time; the rows of every other user or article are the
    same. *)
Theorem progress_update_is_an_upsert :
  forall (userId articleId : string) (completed : bool) (w : World),
    truthy (isConnected w) = true -> backend_faults w = [] ->
    (length (progress_rows userId articleId (Backend.user_article_progress (backend w))) <= 1)%nat ->
    let update := updateArticleProgress userId articleId completed in
    let table' := Backend.user_article_progress (backend (world_after update w)) in
    result_of update w = Returned tt /\
    (exists row, progress_rows userId articleId table' = [row] /\
                 ArticleProgress.completed row = completed /\
                 ArticleProgress.last_read_at row = ISO8601 (clock w)) /\
    (forall u a, (u, a) <> (userId, articleId) ->
                 progress_rows u a table'
                 = progress_rows u a (Backend.user_article_progress (backend w))).
Proof.
  intros userId articleId completed w Hc Hb Hone update table'. subst table' update.
  unfold result_of, world_after, updateArticleProgress, try_catch, mbind, Async_bind,
    NetInfo.fetch.
  rewrite Hc. cbn [negb].
  unfold supabase.single_progress, supabase.update_progress, supabase.insert_progress,
    supabase.request, Date.toISOString, Query.single, mret, Async_ret.
  world_simpl. rewrite Hb. cbn [hd tail].
  rewrite progress_query_rows.
  destruct (progress_rows userId articleId (Backend.user_article_progress (backend w)))
    as [|p [|p' rest]] eqn:Hrows; cbn [data_of]; world_simpl; cbn [hd tail].
  - (* no row yet: insert *)
    split; [reflexivity|]. cbn [snd backend supabase.with_progress Backend.user_article_progress].
    split.
    + eexists. split.
      * unfold progress_rows in *. rewrite List.filter_app, Hrows. cbn.
        rewrite !String.eqb_refl. reflexivity.
      * split; reflexivity.
    + intros u a Hne. unfold progress_rows. rewrite List.filter_app. cbn.
      destruct (String.eqb userId u && String.eqb articleId a) eqn:Hsame.
      * apply andb_prop in Hsame as [Hu Ha]. apply String.eqb_eq in Hu, Ha. congruence.
      * apply app_nil_r.
  - (* one row: update *)
    split; [reflexivity|]. cbn [snd backend supabase.with_progress Backend.user_article_progress
                                 Query.eq Query.select Query.filters app].
    split.
    + eexists. rewrite updated_rows_of_pair, Hrows. cbn [map].
      split; [reflexivity|]. split; reflexivity.
    + intros u a Hne. apply updated_rows_of_other_pair. exact Hne.
  - cbn [length] in Hone. lia.
Qed.

(** X14: unlike the reads, a progress update that the backend refuses is
    raised to the caller: connected, when the write that follows the lookup
    fails, [updateArticleProgress] logs and rethrows the backend's error, and
    the backend is as it was. *)
Theorem progress_write_failure_is_raised :
  forall (userId articleId : string) (completed : bool) (w : World)
         (lookup : option PostgrestError.t) (failure : PostgrestError.t)
         (rest : list (option PostgrestError.t)),
    truthy (isConnected w) = true ->
    backend_faults w = lookup :: Some failure :: rest ->
    let update := updateArticleProgress userId articleId completed in
    result_of update w = Thrown (Postgrest failure) /\
    backend (world_after update w) = backend w /\
    In (ConsoleError "Error updating article progress:" (Postgrest failure))
       (events_of update w).
Proof.
  intros userId articleId completed w lookup failure rest Hc Hb update. subst update.
  unfold events_of, result_of, world_after, updateArticleProgress, try_catch, mbind, Async_bind,
    NetInfo.fetch.
  rewrite Hc. cbn [negb].
  unfold supabase.single_progress, supabase.update_progress, supabase.insert_progress,
    supabase.request, Date.toISOString, throw, console.error.
  world_simpl. rewrite Hb. cbn [hd tail].
  destruct lookup as [e|]; [|destruct (Query.single _ _ _)]; cbn [data_of]; world_simpl;
    cbn [hd tail fst snd backend journal];
    (split; [reflexivity|]); (split; [reflexivity|]);
    rewrite <- !app_assoc, drop_app_length; cbn; tauto.
Qed.

(** ** What is never cached *)

Lemma cache_untouched_refl w : cache_untouched w w.
Proof.
  split; [reflexivity|]. split; [reflexivity|]. exists []. split; [|reflexivity].
  symmetry. apply app_nil_r.
Qed.

Lemma cache_untouched_trans w1 w2 w3 :
  cache_untouched w1 w2 -> cache_untouched w2 w3 -> cache_untouched w1 w3.
Proof.
  intros (Hs & Hf & ev & Hj & Hev) (Hs' & Hf' & ev' & Hj' & Hev').
  split; [congruence|]. split; [congruence|]. exists (ev ++ ev')%list. split.
  - rewrite Hj', Hj, app_assoc. reflexivity.
  - rewrite forallb_app, Hev, Hev'. reflexivity.
Qed.

Lemma cache_untouched_event e w :
  storage_event e = false -> cache_untouched w (record_event e w).
Proof.
  intros He. split; [reflexivity|]. split; [reflexivity|]. exists [e]. split; [reflexivity|].
  cbn. rewrite He. reflexivity.
Qed.

Section Bypass.
Context {A B : Type}.

Lemma bypass_ret (a : A) : bypasses_cache (mret a : Async A).
Proof. intros w. apply cache_untouched_refl. Qed.

Lemma bypass_throw (e : JsError) : bypasses_cache (throw e : Async A).
Proof. intros w. apply cache_untouched_refl. Qed.

Lemma bypass_bind (m : Async A) (k : A -> Async B) :
  bypasses_cache m -> (forall a, bypasses_cache (k a)) -> bypasses_cache (m ≫= k).
Proof.
  intros Hm Hk w. unfold mbind, Async_bind. specialize (Hm w).
  destruct (m w) as [[a|e] w1]; cbn [snd] in *.
  - eapply cache_untouched_trans; [exact Hm | apply Hk].
  - exact Hm.
Qed.

Lemma bypass_try_catch (body : Async A) (handler : JsError -> Async A) :
  bypasses_cache body -> (forall e, bypasses_cache (handler e)) ->
  bypasses_cache (try_catch body handler).
Proof.
  intros Hm Hk w. unfold try_catch. specialize (Hm w).
  destruct (body w) as [[a|e] w1]; cbn [snd] in *.
  - exact Hm.
  - eapply cache_untouched_trans; [exact Hm | apply Hk].
Qed.

Lemma bypass_request table verb (answer : Backend.t -> Response A * Backend.t) :
  bypasses_cache (supabase.request table verb answer).
Proof.
  intros w. unfold supabase.request.
  destruct (hd None (backend_faults w)); [|destruct (answer (backend w))];
    (split; [reflexivity|]); (split; [reflexivity|]);
    exists [RemoteCall table verb]; split; reflexivity.
Qed.
End Bypass.

Lemma bypass_console_error label e : bypasses_cache (console.error label e).
Proof. intros w. apply cache_untouched_event. reflexivity. Qed.

Lemma bypass_console_log text : bypasses_cache (console.log text).
Proof. intros w. apply cache_untouched_event. reflexivity. Qed.

Lemma bypass_netinfo : bypasses_cache NetInfo.fetch.
Proof. intros w. apply cache_untouched_event. reflexivity. Qed.

Lemma bypass_now : bypasses_cache Date.now.
Proof. intros w. apply cache_untouched_refl. Qed.

Lemma bypass_toISOString : bypasses_cache Date.toISOString.
Proof. intros w. apply cache_untouched_refl. Qed.

Create HintDb bypass.
#[local] Hint Resolve bypass_ret bypass_throw bypass_request bypass_console_error
  bypass_console_log bypass_netinfo bypass_now bypass_toISOString : bypass.

Lemma updateArticleProgress_bypasses userId articleId completed :
  bypasses_cache (updateArticleProgress userId articleId completed).
Proof.
  unfold updateArticleProgress, supabase.single_progress, supabase.update_progress,
    supabase.insert_progress.
  apply bypass_try_catch; [|intros e; apply bypass_bind; auto with bypass].
  apply bypass_bind; [auto with bypass|]. intros netInfo.
  destruct (negb (truthy netInfo)); [auto with bypass|].
  apply bypass_bind; [auto with bypass|]. intros existing.
  destruct (data_of existing);
    (apply bypass_bind; [auto with bypass|]; intros stamp;
     apply bypass_bind; [auto with bypass|]; intros [|]; auto with bypass).
Qed.

Lemma fetchUserArticleProgress_bypasses userId :
  bypasses_cache (fetchUserArticleProgress userId).
Proof.
  unfold fetchUserArticleProgress, select_progress.
  apply bypass_try_catch; [|intros e; apply bypass_bind; auto with bypass].
  apply bypass_bind; [auto with bypass|]. intros netInfo.
  destruct (negb (truthy netInfo)); [apply bypass_bind; auto with bypass|].
  apply bypass_bind; [auto with bypass|]. intros [data|error]; [auto with bypass|].
  apply bypass_bind; auto with bypass.
Qed.

Lemma saveQuizAttempt_bypasses userId quizId score answers :
  bypasses_cache (saveQuizAttempt userId quizId score answers).
Proof.
  unfold saveQuizAttempt, supabase.insert_attempt, supabase.insert_answers.
  apply bypass_try_catch; [|intros e; apply bypass_bind; auto with bypass].
  apply bypass_bind; [auto with bypass|]. intros netInfo.
  destruct (negb (truthy netInfo)).
  - apply bypass_bind; [auto with bypass|]. intros _.
    apply bypass_bind; [auto with bypass|]. intros millis.
    apply bypass_bind; [auto with bypass|]. intros completed_at.
    apply bypass_bind; auto with bypass.
  - apply bypass_bind; [auto with bypass|]. intros completed_at.
    apply bypass_bind; [auto with bypass|]. intros [attemptData|e]; [|auto with bypass].
    apply bypass_bind; [auto with bypass|]. intros [|]; auto with bypass.
Qed.

Lemma fetchUserQuizAttempts_bypasses userId : bypasses_cache (fetchUserQuizAttempts userId).
Proof.
  unfold fetchUserQuizAttempts, select_attempts_with_quizzes.
  apply bypass_try_catch; [|intros e; apply bypass_bind; auto with bypass].
  apply bypass_bind; [auto with bypass|]. intros netInfo.
  destruct (negb (truthy netInfo)); [apply bypass_bind; auto with bypass|].
  apply bypass_bind; [auto with bypass|]. intros [data|error]; auto with bypass.
Qed.

Lemma bypass_events {A} (m : Async A) w :
  bypasses_cache m ->
  storage (world_after m w) = storage w /\
  forallb (fun e => negb (storage_event e)) (events_of m w) = true.
Proof.
  intros Hm. destruct (Hm w) as (Hs & _ & events & Hj & Hev).
  split; [exact Hs|]. unfold events_of, world_after. rewrite Hj, drop_app_length. exact Hev.
Qed.

(** X15: progress and attempts are never cached: however they settle,
    online or offline, [updateArticleProgress], [fetchUserArticleProgress],
    [saveQuizAttempt] and [fetchUserQuizAttempts] make no call to AsyncStorage
    and leave the store as it was. *)
Theorem progress_and_attempts_bypass_cache :
  forall (userId id : string) (completed : bool) (score : Z) (answers : list Answer.t)
         (w : World),
    (storage (world_after (updateArticleProgress userId id completed) w) = storage w /\
     forallb (fun e => negb (storage_event e))
             (events_of (updateArticleProgress userId id completed) w) = true) /\
    (storage (world_after (fetchUserArticleProgress userId) w) = storage w /\
     forallb (fun e => negb (storage_event e))
             (events_of (fetchUserArticleProgress userId) w) = true) /\
    (storage (world_after (saveQuizAttempt userId id score answers) w) = storage w /\
     forallb (fun e => negb (storage_event e))
             (events_of (saveQuizAttempt userId id score answers) w) = true) /\
    (storage (world_after (fetchUserQuizAttempts userId) w) = storage w /\
     forallb (fun e => negb (storage_event e))
             (events_of (fetchUserQuizAttempts userId) w) = true).
Proof.
  intros userId id completed score answers w.
  split; [apply bypass_events, updateArticleProgress_bypasses|].
  split; [apply bypass_events, fetchUserArticleProgress_bypasses|].
  split; [apply bypass_events, saveQuizAttempt_bypasses|].
  apply bypass_events, fetchUserQuizAttempts_bypasses.
Qed.

(** ** The progress of a user *)

Lemma fetchUserArticleProgress_fallback userId w :
  falls_back w -> result_of (fetchUserArticleProgress userId) w = Returned ∅.
Proof.
  intros Hfb. unfold result_of, fetchUserArticleProgress, try_catch, mbind, Async_bind,
    NetInfo.fetch.
  destruct (truthy (isConnected w)) eqn:Hc; cbn [negb]; [|reflexivity].
  destruct Hfb as [Hfb|[error Hfb]]; [congruence|].
  unfold select_progress, supabase.request. world_simpl. rewrite Hfb. reflexivity.
Qed.

Lemma fetchUserArticleProgress_online userId w :
  truthy (isConnected w) = true -> hd None (backend_faults w) = None ->
  result_of (fetchUserArticleProgress userId) w =
    Returned (progress_by_article
                (Query.rows progress_cell (Query.eq "user_id" (Text userId) Query.select)
                            (Backend.user_article_progress (backend w)))).
Proof.
  intros Hc Hb. unfold result_of, fetchUserArticleProgress, try_catch, mbind, Async_bind,
    NetInfo.fetch.
  rewrite Hc. cbn [negb]. unfold select_progress, supabase.request. world_simpl. rewrite Hb.
  reflexivity.
Qed.

(** X16: [fetchUserArticleProgress] never raises; offline, and when the
    backend request fails, it answers the empty mapping. *)
Theorem progress_fetch_degrades_to_empty :
  forall (userId : string) (w : World),
    (exists progress, result_of (fetchUserArticleProgress userId) w = Returned progress) /\
    (falls_back w -> result_of (fetchUserArticleProgress userId) w = Returned ∅).
Proof.
  intros userId w. split; [|apply fetchUserArticleProgress_fallback].
  destruct (truthy (isConnected w)) eqn:Hc;
    [destruct (hd None (backend_faults w)) as [failure|] eqn:Hb|].
  - eexists. apply fetchUserArticleProgress_fallback. right. eauto.
  - eexists. apply fetchUserArticleProgress_online; assumption.
  - eexists. apply fetchUserArticleProgress_fallback. left. exact Hc.
Qed.

Section ProgressMap.
Let step (acc : ProgressMap.t) (progress : ArticleProgress.t) : ProgressMap.t :=
  ProgressMap.set (ArticleProgress.article_id progress) progress acc.

Lemma empty_object_has_no_row k p : ProgressMap.get k ∅ <> ProgressMap.Row p.
Proof.
  unfold ProgressMap.get. cbn [ProgressMap.prototype ProgressMap.own empty ProgressMap_empty
                                ProgressMap.empty_object].
  rewrite lookup_empty. destruct (String.eqb k "__proto__"); [discriminate|].
  destruct (_ || _); discriminate.
Qed.

(** Reading a key after an assignment: the row assigned, if the key is the
    one assigned to, else a row that was there before. *)
Lemma get_set_row k k' x acc p :
  ProgressMap.get k (ProgressMap.set k' x acc) = ProgressMap.Row p ->
  (p = x /\ k = k') \/ ProgressMap.get k acc = ProgressMap.Row p.
Proof.
  unfold ProgressMap.get, ProgressMap.set.
  destruct (String.eqb k' "__proto__") eqn:Hk'; cbn [ProgressMap.own ProgressMap.prototype].
  - apply String.eqb_eq in Hk'. destruct (String.eqb k "__proto__") eqn:Hk.
    + apply String.eqb_eq in Hk. intros [= <-]. left. split; congruence.
    + destruct (ProgressMap.own acc !! k); [auto|].
      destruct (_ || _); discriminate.
  - destruct (String.eqb k "__proto__") eqn:Hk; [auto|].
    destruct (decide (k' = k)) as [->|Hne].
    + rewrite lookup_insert_eq. intros [= <-]. left. split; reflexivity.
    + rewrite lookup_insert_ne by exact Hne. auto.
Qed.

Lemma get_set_same k x acc :
  ProgressMap.get k (ProgressMap.set k x acc) = ProgressMap.Row x.
Proof.
  unfold ProgressMap.get, ProgressMap.set.
  destruct (String.eqb k "__proto__") eqn:Hk; cbn [ProgressMap.own ProgressMap.prototype];
    [reflexivity|].
  rewrite lookup_insert_eq. reflexivity.
Qed.

Lemma get_set_keeps k k' x acc p :
  ProgressMap.get k acc = ProgressMap.Row p ->
  exists p', ProgressMap.get k (ProgressMap.set k' x acc) = ProgressMap.Row p'.
Proof.
  intros Hget. destruct (decide (k' = k)) as [->|Hne].
  - exists x. apply get_set_same.
  - exists p. revert Hget. unfold ProgressMap.get, ProgressMap.set.
    destruct (String.eqb k' "__proto__") eqn:Hk'; cbn [ProgressMap.own ProgressMap.prototype].
    + apply String.eqb_eq in Hk'. destruct (String.eqb k "__proto__") eqn:Hk.
      * apply String.eqb_eq in Hk. congruence.
      * destruct (ProgressMap.own acc !! k); [auto|]. destruct (_ || _); discriminate.
    + destruct (String.eqb k "__proto__") eqn:Hk; [auto|].
      rewrite lookup_insert_ne by exact Hne. auto.
Qed.

Lemma progress_map_from data (acc : ProgressMap.t) k p :
  ProgressMap.get k (foldl step acc data) = ProgressMap.Row p ->
  (In p data /\ ArticleProgress.article_id p = k) \/ ProgressMap.get k acc = ProgressMap.Row p.
Proof.
  revert acc; induction data as [|x l IH]; intros acc; cbn [foldl]; [auto|].
  intros H. destruct (IH _ H) as [[Hin Hk]|Hacc].
  - left. split; [right; exact Hin | exact Hk].
  - unfold step in Hacc. apply get_set_row in Hacc as [[-> ->]|Hacc].
    + left. split; [left; reflexivity | reflexivity].
    + right. exact Hacc.
Qed.

Lemma progress_map_keeps data (acc : ProgressMap.t) k p :
  ProgressMap.get k acc = ProgressMap.Row p ->
  exists p', ProgressMap.get k (foldl step acc data) = ProgressMap.Row p'.
Proof.
  revert acc p; induction data as [|x l IH]; intros acc p Hacc; cbn [foldl]; [eauto|].
  destruct (get_set_keeps k (ArticleProgress.article_id x) x acc p Hacc) as [p' Hp'].
  exact (IH _ _ Hp').
Qed.

Lemma progress_map_covers data (acc : ProgressMap.t) p :
  In p data ->
  exists p', ProgressMap.get (ArticleProgress.article_id p) (foldl step acc data)
             = ProgressMap.Row p'.
Proof.
  revert acc; induction data as [|x l IH]; intros acc; [intros []|].
  intros [->|Hin]; cbn [foldl]; [|apply IH, Hin].
  apply (progress_map_keeps l _ _ p). apply get_set_same.
Qed.

(** The own keys: every key assigned to, but [__proto__]. *)
Lemma progress_map_own data (acc : ProgressMap.t) k :
  is_Some (ProgressMap.own (foldl step acc data) !! k) <->
  is_Some (ProgressMap.own acc !! k)
  \/ (k <> "__proto__" /\ exists p, In p data /\ ArticleProgress.article_id p = k).
Proof.
  revert acc; induction data as [|x l IH]; intros acc; cbn [foldl].
  - split; [auto|]. intros [H|(_ & p & [] & _)]. exact H.
  - rewrite IH. unfold step, ProgressMap.set.
    destruct (String.eqb (ArticleProgress.article_id x) "__proto__") eqn:Hx;
      cbn [ProgressMap.own].
    + apply String.eqb_eq in Hx. split.
      * intros [H|(Hk & p & Hin & Hp)]; [auto|]. right. split; [exact Hk|].
        exists p. split; [right; exact Hin | exact Hp].
      * intros [H|(Hk & p & [->|Hin] & Hp)]; [auto | congruence |].
        right. split; [exact Hk|]. exists p. auto.
    + apply String.eqb_neq in Hx. split.
      * intros [H|(Hk & p & Hin & Hp)].
        -- destruct (decide (ArticleProgress.article_id x = k)) as [Heq|Hne].
           ++ right. split; [congruence|]. exists x. split; [left; reflexivity | exact Heq].
           ++ rewrite lookup_insert_ne in H by exact Hne. auto.
        -- right. split; [exact Hk|]. exists p. split; [right; exact Hin | exact Hp].
      * intros [H|(Hk & p & [->|Hin] & Hp)].
        -- left. destruct (decide (ArticleProgress.article_id x = k)) as [Heq|Hne].
           ++ rewrite Heq, lookup_insert_eq. eauto.
           ++ rewrite lookup_insert_ne by exact Hne. exact H.
        -- left. rewrite Hp, lookup_insert_eq. eauto.
        -- right. split; [exact Hk|]. exists p. auto.
Qed.
End ProgressMap.

Lemma user_rows userId table p :
  In p (Query.rows progress_cell (Query.eq "user_id" (Text userId) Query.select) table) <->
  In p table /\ ArticleProgress.user_id p = userId.
Proof.
  unfold Query.rows. cbn [Query.ordering Query.eq Query.select Query.filters app].
  rewrite filter_In. cbn. rewrite andb_true_r, String.eqb_eq. reflexivity.
Qed.

(** X17: connected and with the backend answering,
    [fetchUserArticleProgress] returns an object in which indexing by an
    article id yields a progress row only if it is a row of the user for that
    article, and yields one for every article the user has a row for, the row
    itself when the user has no other row for that article.  Its own keys
    are the article ids of the user's rows other than [__proto__]: a row
    filed under [__proto__] becomes the prototype of the object and adds no
    key. *)
Theorem progress_map_holds_the_users_rows :
  forall (userId : string) (w : World),
    truthy (isConnected w) = true -> hd None (backend_faults w) = None ->
    let table := Backend.user_article_progress (backend w) in
    exists progress,
      result_of (fetchUserArticleProgress userId) w = Returned progress /\
      (forall articleId p, ProgressMap.get articleId progress = ProgressMap.Row p ->
         In p table /\ ArticleProgress.user_id p = userId
         /\ ArticleProgress.article_id p = articleId) /\
      (forall p, In p table -> ArticleProgress.user_id p = userId ->
         exists p', ProgressMap.get (ArticleProgress.article_id p) progress
                    = ProgressMap.Row p') /\
      (forall p, In p table -> ArticleProgress.user_id p = userId ->
         (forall p', In p' table -> ArticleProgress.user_id p' = userId ->
                     ArticleProgress.article_id p' = ArticleProgress.article_id p -> p' = p) ->
         ProgressMap.get (ArticleProgress.article_id p) progress = ProgressMap.Row p) /\
      (forall key, is_Some (ProgressMap.own progress !! key) <->
         key <> "__proto__" /\
         exists p, In p table /\ ArticleProgress.user_id p = userId
                   /\ ArticleProgress.article_id p = key) /\
      (forall p, ProgressMap.prototype progress = Some p ->
         In p table /\ ArticleProgress.user_id p = userId
         /\ ArticleProgress.article_id p = "__proto__").
Proof.
  intros userId w Hc Hb table. eexists. split; [apply fetchUserArticleProgress_online; assumption|].
  fold table. set (rows := Query.rows _ _ table).
  assert (Hfrom : forall articleId p,
             ProgressMap.get articleId (progress_by_article rows) = ProgressMap.Row p ->
             In p table /\ ArticleProgress.user_id p = userId
             /\ ArticleProgress.article_id p = articleId).
  { intros articleId p Hp. apply progress_map_from in Hp as [[Hin Hk]|Hempty].
    - apply user_rows in Hin as [Hin Hu]. auto.
    - destruct (empty_object_has_no_row _ _ Hempty). }
  assert (Hcovers : forall p, In p table -> ArticleProgress.user_id p = userId ->
             exists p', ProgressMap.get (ArticleProgress.article_id p) (progress_by_article rows)
                        = ProgressMap.Row p').
  { intros p Hin Hu. apply progress_map_covers, user_rows. auto. }
  split; [exact Hfrom|]. split; [exact Hcovers|]. split; [|split].
  - intros p Hin Hu Honly. destruct (Hcovers p Hin Hu) as [p' Hp'].
    rewrite Hp'. f_equal. destruct (Hfrom _ _ Hp') as (Hin' & Hu' & Ha'). apply Honly; assumption.
  - intros key. unfold progress_by_article. rewrite progress_map_own.
    cbn [ProgressMap.own empty ProgressMap_empty ProgressMap.empty_object].
    rewrite lookup_empty. split.
    + intros [[? [=]]|(Hk & p & Hin & Hp)]. split; [exact Hk|].
      apply user_rows in Hin as [Hin Hu]. eauto.
    + intros (Hk & p & Hin & Hu & Hp). right. split; [exact Hk|].
      exists p. split; [apply user_rows; auto | exact Hp].
  - intros p Hp. apply Hfrom. unfold ProgressMap.get. cbn [String.eqb Ascii.eqb Bool.eqb].
    rewrite Hp. reflexivity.
Qed.

(** * Further properties of the quiz service *)

Lemma getOfflineQuizByArticleId_returns articleId w :
  exists found, result_of (getOfflineQuizByArticleId articleId) w = Returned found.
Proof.
  unfold result_of, getOfflineQuizByArticleId, try_catch at 1, mbind, Async_bind.
  destruct (getOfflineQuizzes_returns w) as [l Hl].
  rewrite (returned_pair _ _ _ Hl).
  destruct (List.find (article_id_is articleId) l) as [entry|]; [|eexists; reflexivity].
  destruct (PartialQuiz.id entry) as [[|c rest]|]; [eexists; reflexivity| |eexists; reflexivity].
  destruct (getOfflineQuiz_returns (String c rest) (world_after getOfflineQuizzes w))
    as [found Hfound].
  rewrite (returned_pair _ _ _ Hfound). eexists; reflexivity.
Qed.

Lemma getOfflineQuizByArticleId_storage articleId w :
  storage (world_after (getOfflineQuizByArticleId articleId) w) = storage w.
Proof.
  unfold world_after at 1, getOfflineQuizByArticleId, try_catch at 1, mbind, Async_bind.
  destruct (getOfflineQuizzes_returns w) as [l Hl].
  rewrite (returned_pair _ _ _ Hl).
  pose proof (getOfflineQuizzes_storage w) as Hs.
  destruct (List.find (article_id_is articleId) l) as [entry|]; [|exact Hs].
  destruct (PartialQuiz.id entry) as [[|c rest]|]; [exact Hs| |exact Hs].
  destruct (getOfflineQuiz_returns (String c rest) (world_after getOfflineQuizzes w))
    as [found Hfound].
  rewrite (returned_pair _ _ _ Hfound). cbn [snd].
  rewrite getOfflineQuiz_storage. exact Hs.
Qed.

Lemma fetchQuizByArticleId_offline articleId w :
  truthy (isConnected w) = false ->
  fetchQuizByArticleId articleId w =
    getOfflineQuizByArticleId articleId (record_event NetInfoFetch w).
Proof.
  intros Hc. unfold fetchQuizByArticleId, try_catch at 1, mbind, Async_bind, NetInfo.fetch.
  rewrite Hc.
  destruct (getOfflineQuizByArticleId_returns articleId (record_event NetInfoFetch w))
    as [found Hfound].
  rewrite (returned_pair _ _ _ Hfound). unfold world_after. reflexivity.
Qed.

(** X18: connected, when the backend has no single quiz for the article,
    [fetchQuizByArticleId] answers null at once: the cache is neither read
    nor written, whatever it holds for that article. *)
Theorem missing_quiz_is_null_without_cache :
  forall (articleId : string) (w : World),
    truthy (isConnected w) = true -> hd None (backend_faults w) = None ->
    (forall quizData,
        Query.single quiz_cell (Query.eq "article_id" (Text articleId) Query.select)
                     (Backend.quizzes (backend w)) <> Data quizData) ->
    result_of (fetchQuizByArticleId articleId) w = Returned None /\
    events_of (fetchQuizByArticleId articleId) w
      = [NetInfoFetch; RemoteCall "quizzes" "select"] /\
    storage (world_after (fetchQuizByArticleId articleId) w) = storage w.
Proof.
  intros articleId w Hc Hb Hnone.
  unfold events_of, result_of, world_after, fetchQuizByArticleId, try_catch, mbind, Async_bind,
    NetInfo.fetch.
  rewrite Hc. unfold supabase.single_quiz, supabase.request. world_simpl. rewrite Hb.
  unfold Query.single in *.
  destruct (Query.rows quiz_cell _ _) as [|q [|q' rest]]; cbn [PostgrestError.code];
    try (exfalso; apply (Hnone q); reflexivity);
    rewrite String.eqb_refl; unfold mret, Async_ret; world_simpl;
    rewrite <- !app_assoc, drop_app_length; repeat split.
Qed.

(** X19: a quiz fetched while connected is served offline afterwards: on a
    healthy storage, if the quiz row has a non-empty id, the same call made
    offline returns the same quiz with the same questions. *)
Theorem fetched_quiz_is_served_offline :
  forall (articleId : string) (w : World) (quizData : Quiz.t),
    truthy (isConnected w) = true -> backend_faults w = [] -> healthy w ->
    Query.single quiz_cell (Query.eq "article_id" (Text articleId) Query.select)
                 (Backend.quizzes (backend w)) = Data quizData ->
    Quiz.id quizData <> "" ->
    exists complete,
      result_of (fetchQuizByArticleId articleId) w = Returned (Some complete) /\
      Quiz.questions complete = Some (questions_of quizData w) /\
      result_of (fetchQuizByArticleId articleId)
                (disconnect (world_after (fetchQuizByArticleId articleId) w))
      = Returned (Some complete).
Proof.
  intros articleId w quizData Hc Hb Hw Hrow Hid.
  destruct (fetchQuizByArticleId_online articleId w quizData Hc Hb Hrow) as (w1 & Hs & Hf & Hrun).
  set (complete := Quiz.with_questions quizData (questions_of quizData w)) in *.
  assert (Hw1 : healthy w1) by (unfold healthy; rewrite Hf; exact Hw).
  exists complete. split; [unfold result_of; rewrite Hrun; reflexivity|].
  split; [reflexivity|].
  unfold world_after at 1. rewrite Hrun. cbn [snd].
  unfold result_of. rewrite fetchQuizByArticleId_offline by reflexivity.
  rewrite saveQuizzesOffline_saveList.
  set (w' := world_after (saveList _ _ _ _) w1).
  assert (Hw' : healthy w') by (apply saved_healthy, Hw1).
  assert (Hlist : storage w' !! KEYS.QUIZZES = Some (JsonQuizzes [quiz_list_entry complete])).
  { apply saved_list; [exact Hw1 | discriminate | apply quiz_list_not_detail]. }
  assert (Hdetail : storage w' !! (KEYS.QUIZ_PREFIX +:+ Quiz.id quizData)
                    = Some (JsonQuiz complete)).
  { apply saved_detail; [exact Hw1 | apply quiz_key_not_sync | |].
    - cbn. apply NoDup_singleton.
    - cbn. apply list_elem_of_here. }
  pose proof (getOfflineQuizByArticleId_healthy articleId
                (record_event NetInfoFetch (disconnect w')) [quiz_list_entry complete]
                Hw' Hlist) as Hlookup.
  unfold result_of in Hlookup. rewrite Hlookup.
  cbn [List.find article_id_is quiz_list_entry PartialQuiz.article_id PartialQuiz.id
       complete Quiz.with_questions Quiz.article_id Quiz.id].
  rewrite (quiz_of_article _ _ _ Hrow), String.eqb_refl.
  change (PartialQuiz.id (quiz_list_entry complete)) with (Some (Quiz.id quizData)).
  destruct (Quiz.id quizData) as [|c rest] eqn:Hq; [congruence|].
  erewrite getOfflineQuiz_healthy; [reflexivity | exact Hw' | exact Hdetail].
Qed.

(** X20: [fetchQuizByArticleId] never raises; and when the quiz row was
    found but the request for its questions fails, nothing is cached: the
    store is as it was. *)
Theorem fetchQuizByArticleId_never_raises :
  forall (articleId : string) (w : World),
    (exists found, result_of (fetchQuizByArticleId articleId) w = Returned found) /\
    (forall failure rest,
        truthy (isConnected w) = true ->
        backend_faults w = None :: Some failure :: rest ->
        (exists quizData,
            Query.single quiz_cell (Query.eq "article_id" (Text articleId) Query.select)
                         (Backend.quizzes (backend w)) = Data quizData) ->
        storage (world_after (fetchQuizByArticleId articleId) w) = storage w).
Proof.
  intros articleId w. split.
  - unfold result_of, fetchQuizByArticleId, try_catch at 1.
    match goal with |- context [match ?body w with _ => _ end] =>
      destruct (body w) as [[found|e] w1] end.
    + eexists. reflexivity.
    + unfold mbind, Async_bind, console.error. cbn beta iota.
      match goal with |- context [getOfflineQuizByArticleId articleId ?w2] =>
        destruct (getOfflineQuizByArticleId_returns articleId w2) as [found Hfound];
        rewrite (returned_pair _ _ _ Hfound) end.
      eexists. reflexivity.
  - intros failure rest Hc Hb [quizData Hrow].
    unfold world_after at 1, fetchQuizByArticleId, try_catch at 1, mbind,
      Async_bind, NetInfo.fetch.
    rewrite Hc. unfold supabase.single_quiz, supabase.select_questions, supabase.request.
    world_simpl. rewrite Hb. cbn [hd tail]. rewrite Hrow. world_simpl.
    unfold throw, console.error. world_simpl.
    match goal with |- context [getOfflineQuizByArticleId articleId ?w2] =>
      pose proof (getOfflineQuizByArticleId_storage articleId w2) as Hs;
      destruct (getOfflineQuizByArticleId_returns articleId w2) as [found Hfound];
      rewrite (returned_pair _ _ _ Hfound) end.
    exact Hs.
Qed.

(** ** Saving an attempt online *)

(** X21: connected and with the backend answering, [saveQuizAttempt] returns
    the attempt row the backend stored, carrying the given user, quiz and
    score and the current time; the backend then holds that row and, for each
    answer given, in order, one answer row that refers to it. *)
Theorem attempt_is_stored_with_its_answers :
  forall (userId quizId : string) (score : Z) (answers : list Answer.t) (w : World),
    truthy (isConnected w) = true -> backend_faults w = [] ->
    let save := saveQuizAttempt userId quizId score answers in
    exists attempt,
      result_of save w = Returned attempt /\
      QuizAttempt.user_id attempt = userId /\
      QuizAttempt.quiz_id attempt = quizId /\
      QuizAttempt.score attempt = score /\
      QuizAttempt.completed_at attempt = ISO8601 (clock w) /\
      Backend.quiz_attempts (backend (world_after save w))
        = (Backend.quiz_attempts (backend w) ++ [attempt])%list /\
      Backend.quiz_answers (backend (world_after save w))
        = (Backend.quiz_answers (backend w)
           ++ map (fun answer => QuizAnswer.make (QuizAttempt.id attempt)
                                   (Answer.questionId answer) (Answer.selectedOption answer))
                  answers)%list.
Proof.
  intros userId quizId score answers w Hc Hb save. subst save.
  unfold result_of, world_after, saveQuizAttempt, try_catch, mbind, Async_bind, NetInfo.fetch.
  rewrite Hc. cbn [negb].
  unfold supabase.insert_attempt, supabase.insert_answers, supabase.request, Date.toISOString,
    mret, Async_ret.
  world_simpl. rewrite Hb. cbn [hd tail]. world_simpl.
  eexists. split; [reflexivity|]. repeat split.
Qed.

(** X22: a failed save of an attempt is raised to the caller, and there is no
    rollback: when the insertion of the attempt fails nothing is stored and
    the answers are not sent; when the insertion of the answers fails the
    attempt row stays in the backend, without any answer. *)
Theorem attempt_failure_is_raised_without_rollback :
  forall (userId quizId : string) (score : Z) (answers : list Answer.t) (w : World)
         (failure : PostgrestError.t),
    truthy (isConnected w) = true ->
    let save := saveQuizAttempt userId quizId score answers in
    (hd None (backend_faults w) = Some failure ->
     result_of save w = Thrown (Postgrest failure) /\
     backend (world_after save w) = backend w /\
     events_of save w = [NetInfoFetch; RemoteCall "quiz_attempts" "insert";
                         ConsoleError "Error saving quiz attempt:" (Postgrest failure)]) /\
    (forall rest, backend_faults w = None :: Some failure :: rest ->
     result_of save w = Thrown (Postgrest failure) /\
     (exists attempt,
         Backend.quiz_attempts (backend (world_after save w))
           = (Backend.quiz_attempts (backend w) ++ [attempt])%list /\
         QuizAttempt.user_id attempt = userId /\ QuizAttempt.quiz_id attempt = quizId) /\
     Backend.quiz_answers (backend (world_after save w)) = Backend.quiz_answers (backend w)).
Proof.
  intros userId quizId score answers w failure Hc save. subst save.
  unfold events_of, result_of, world_after, saveQuizAttempt, try_catch, mbind, Async_bind,
    NetInfo.fetch.
  rewrite Hc. cbn [negb].
  unfold supabase.insert_attempt, supabase.insert_answers, supabase.request, Date.toISOString,
    throw, console.error.
  world_simpl. split.
  - intros Hb. rewrite Hb. world_simpl.
    rewrite <- !app_assoc, drop_app_length. repeat split.
  - intros rest Hb. rewrite Hb. cbn [hd tail]. world_simpl.
    split; [reflexivity|]. split; [|reflexivity].
    eexists. split; [reflexivity|]. split; reflexivity.
Qed.

(** ** The list of quizzes *)

(** The rows [fetchQuizzes] receives. *)
Lemma fetchQuizzes_online w :
  truthy (isConnected w) = true -> hd None (backend_faults w) = None ->
  let data := map (joined_article (Backend.articles (backend w)))
                  (Query.rows quiz_cell (Query.order "created_at" false Query.select)
                              (Backend.quizzes (backend w))) in
  exists w1,
    storage w1 = storage w /\ storage_faults w1 = storage_faults w /\
    fetchQuizzes w = (Returned (map partial_of_quiz data),
                      world_after (saveQuizzesOffline data) w1).
Proof.
  intros Hc Hb data. unfold fetchQuizzes, try_catch, mbind, Async_bind, NetInfo.fetch.
  rewrite Hc. unfold select_quizzes_with_articles, supabase.request. world_simpl. rewrite Hb.
  fold data.
  match goal with |- context [saveQuizzesOffline data ?w1] =>
    exists w1; rewrite (returned_pair (saveQuizzesOffline data) w1 tt)
  end.
  - repeat split; reflexivity.
  - rewrite saveQuizzesOffline_saveList. apply saveList_returns.
Qed.

Lemma fetchQuizzes_fallback w :
  falls_back w ->
  exists w1, storage w1 = storage w /\ storage_faults w1 = storage_faults w /\
             fetchQuizzes w = getOfflineQuizzes w1.
Proof.
  intros Hfb. unfold fetchQuizzes, try_catch at 1, mbind, Async_bind, NetInfo.fetch.
  destruct (truthy (isConnected w)) eqn:Hc.
  - destruct Hfb as [Hfb|[error Hfb]]; [congruence|].
    unfold select_quizzes_with_articles, supabase.request. world_simpl. rewrite Hfb.
    unfold throw, console.error. world_simpl.
    match goal with |- context [getOfflineQuizzes ?w1] => exists w1 end.
    repeat split; reflexivity.
  - match goal with |- context [getOfflineQuizzes ?w1] =>
      exists w1; destruct (getOfflineQuizzes_returns w1) as [l Hl];
      rewrite (returned_pair _ _ _ Hl) end.
    repeat split; reflexivity.
Qed.

(** X23: [fetchQuizzes] never raises; when it falls back on the cache, on a
    healthy storage, it returns the cached list, or the empty list if none was
    ever saved, and leaves the store as it was. *)
Theorem fetchQuizzes_degrades_to_cache :
  forall w : World,
    (exists listed, result_of fetchQuizzes w = Returned listed) /\
    (falls_back w -> healthy w ->
     (forall cached, storage w !! KEYS.QUIZZES = Some (JsonQuizzes cached) ->
                     result_of fetchQuizzes w = Returned cached) /\
     (storage w !! KEYS.QUIZZES = None -> result_of fetchQuizzes w = Returned []) /\
     storage (world_after fetchQuizzes w) = storage w).
Proof.
  intros w. split.
  - destruct (truthy (isConnected w)) eqn:Hc;
      [destruct (hd None (backend_faults w)) as [failure|] eqn:Hb|].
    2:{ destruct (fetchQuizzes_online w Hc Hb) as (w1 & _ & _ & Hrun).
        eexists. unfold result_of. rewrite Hrun. reflexivity. }
    all: destruct (fetchQuizzes_fallback w) as (w1 & _ & _ & Hrun);
      [unfold falls_back; eauto|];
      destruct (getOfflineQuizzes_returns w1) as [l Hl];
      exists l; unfold result_of in *; rewrite Hrun; exact Hl.
  - intros Hfb Hw. destruct (fetchQuizzes_fallback w Hfb) as (w1 & Hs & Hf & Hrun).
    assert (Hw1 : healthy w1) by (unfold healthy; rewrite Hf; exact Hw).
    unfold result_of, world_after. rewrite Hrun. split; [|split].
    + intros cached Hl. rewrite (getOfflineQuizzes_healthy w1 cached Hw1); [reflexivity|].
      rewrite Hs. exact Hl.
    + intros Hl. unfold getOfflineQuizzes, try_catch, mbind, Async_bind.
      rewrite getItem_healthy, Hs, Hl by exact Hw1. reflexivity.
    + fold (world_after getOfflineQuizzes w1). rewrite getOfflineQuizzes_storage. exact Hs.
Qed.

Lemma joined_article_id articles q : Quiz.id (joined_article articles q) = Quiz.id q.
Proof. reflexivity. Qed.

(** X24: a connected [fetchQuizzes] on a healthy storage rewrites the detail
    record of every quiz it lists from the row of the list, which carries no
    questions: afterwards the cached detail of a listed quiz has no question
    sequence, whatever complete quiz was cached for it before; the list is
    served offline as it was fetched. *)
Theorem quiz_list_fetch_caches_rows_without_questions :
  forall w : World,
    truthy (isConnected w) = true -> hd None (backend_faults w) = None -> healthy w ->
    Forall (fun q => Quiz.questions q = None) (Backend.quizzes (backend w)) ->
    let data := map (joined_article (Backend.articles (backend w)))
                    (Query.rows quiz_cell (Query.order "created_at" false Query.select)
                                (Backend.quizzes (backend w))) in
    NoDup (map Quiz.id data) ->
    let w' := world_after fetchQuizzes w in
    result_of fetchQuizzes w = Returned (map partial_of_quiz data) /\
    result_of fetchQuizzes (disconnect w') = Returned (map quiz_list_entry data) /\
    (forall q, In q data ->
       result_of (getOfflineQuiz (Quiz.id q)) w' = Returned (Some q) /\
       Quiz.questions q = None).
Proof.
  intros w Hc Hb Hw Hschema data Hnd w'.
  destruct (fetchQuizzes_online w Hc Hb) as (w1 & Hs & Hf & Hrun). fold data in Hrun.
  assert (Hw1 : healthy w1) by (unfold healthy; rewrite Hf; exact Hw).
  assert (Hw' : w' = world_after (saveList KEYS.QUIZZES (JsonQuizzes (map quiz_list_entry data))
                                           (quiz_details data) "Error saving quizzes offline:") w1).
  { unfold w', world_after at 1. rewrite Hrun, saveQuizzesOffline_saveList. reflexivity. }
  assert (Hhealthy : healthy w') by (rewrite Hw'; apply saved_healthy, Hw1).
  assert (Hlist : storage w' !! KEYS.QUIZZES = Some (JsonQuizzes (map quiz_list_entry data))).
  { rewrite Hw'. apply saved_list; [exact Hw1 | discriminate | apply quiz_list_not_detail]. }
  split; [unfold result_of; rewrite Hrun; reflexivity|]. split.
  - destruct (fetchQuizzes_fallback (disconnect w')) as (w2 & Hs2 & Hf2 & Hrun2);
      [left; reflexivity|].
    unfold result_of. rewrite Hrun2.
    rewrite (getOfflineQuizzes_healthy w2 (map quiz_list_entry data)); [reflexivity| |].
    + unfold healthy. rewrite Hf2. exact Hhealthy.
    + rewrite Hs2. exact Hlist.
  - intros q Hq. split.
    + unfold result_of. erewrite getOfflineQuiz_healthy; [reflexivity | exact Hhealthy |].
      rewrite Hw'. apply saved_detail;
        [exact Hw1 | apply quiz_key_not_sync | | apply quiz_detail_in, Hq].
      rewrite quiz_details_keys. apply (NoDup_prefixed _ Quiz.id), Hnd.
    + unfold data in Hq. apply in_map_iff in Hq as (row & <- & Hrow).
      apply rows_selected in Hrow as [Hrow _]. rewrite Forall_forall in Hschema.
      apply (Hschema row). apply list_elem_of_In, Hrow.
Qed.

(** ** The attempts of a user *)

Lemma fetchUserQuizAttempts_fallback userId w :
  falls_back w -> result_of (fetchUserQuizAttempts userId) w = Returned [].
Proof.
  intros Hfb. unfold result_of, fetchUserQuizAttempts, try_catch, mbind, Async_bind,
    NetInfo.fetch.
  destruct (truthy (isConnected w)) eqn:Hc; cbn [negb]; [|reflexivity].
  destruct Hfb as [Hfb|[error Hfb]]; [congruence|].
  unfold select_attempts_with_quizzes, supabase.request. world_simpl. rewrite Hfb. reflexivity.
Qed.

Lemma fetchUserQuizAttempts_online userId w :
  truthy (isConnected w) = true -> hd None (backend_faults w) = None ->
  result_of (fetchUserQuizAttempts userId) w =
    Returned (map (joined_quiz (Backend.quizzes (backend w)))
                  (Query.rows attempt_cell
                              (Query.order "completed_at" false
                                 (Query.eq "user_id" (Text userId) Query.select))
                              (Backend.quiz_attempts (backend w)))).
Proof.
  intros Hc Hb. unfold result_of, fetchUserQuizAttempts, try_catch, mbind, Async_bind,
    NetInfo.fetch.
  rewrite Hc. cbn [negb]. unfold select_attempts_with_quizzes, supabase.request. world_simpl.
  rewrite Hb. reflexivity.
Qed.

(** X25: [fetchUserQuizAttempts] never raises; offline, and when the backend
    request fails, it answers the empty list; connected and answered, it
    returns the attempts of the given user, all of them and no other user's. *)
Theorem attempts_fetch_returns_the_users_attempts :
  forall (userId : string) (w : World),
    (exists attempts, result_of (fetchUserQuizAttempts userId) w = Returned attempts) /\
    (falls_back w -> result_of (fetchUserQuizAttempts userId) w = Returned []) /\
    (truthy (isConnected w) = true -> hd None (backend_faults w) = None ->
     exists attempts,
       result_of (fetchUserQuizAttempts userId) w = Returned attempts /\
       (forall a, In a attempts ->
          QuizAttempt.user_id (AttemptWithQuiz.attempt a) = userId /\
          In (AttemptWithQuiz.attempt a) (Backend.quiz_attempts (backend w))) /\
       (forall row, In row (Backend.quiz_attempts (backend w)) ->
          QuizAttempt.user_id row = userId ->
          exists a, In a attempts /\ AttemptWithQuiz.attempt a = row)).
Proof.
  intros userId w.
  assert (Honline : truthy (isConnected w) = true -> hd None (backend_faults w) = None ->
     exists attempts,
       result_of (fetchUserQuizAttempts userId) w = Returned attempts /\
       (forall a, In a attempts ->
          QuizAttempt.user_id (AttemptWithQuiz.attempt a) = userId /\
          In (AttemptWithQuiz.attempt a) (Backend.quiz_attempts (backend w))) /\
       (forall row, In row (Backend.quiz_attempts (backend w)) ->
          QuizAttempt.user_id row = userId ->
          exists a, In a attempts /\ AttemptWithQuiz.attempt a = row)).
  { intros Hc Hb. eexists. split; [apply fetchUserQuizAttempts_online; assumption|]. split.
    - intros a Ha. apply in_map_iff in Ha as (row & <- & Hrow).
      apply rows_selected in Hrow as [Hin Hsat]. cbn in Hsat.
      rewrite andb_true_r in Hsat. apply String.eqb_eq in Hsat. split; assumption.
    - intros row Hin Hu. exists (joined_quiz (Backend.quizzes (backend w)) row).
      split; [|reflexivity].
      apply in_map. apply selected_rows; [exact Hin|].
      cbn. rewrite andb_true_r. apply String.eqb_eq, Hu. }
  split; [|split; [apply fetchUserQuizAttempts_fallback | exact Honline]].
  destruct (truthy (isConnected w)) eqn:Hc;
    [destruct (hd None (backend_faults w)) as [failure|] eqn:Hb|].
  - eexists. apply fetchUserQuizAttempts_fallback. right. eauto.
  - destruct (Honline eq_refl eq_refl) as (attempts & Hr & _). eauto.
  - eexists. apply fetchUserQuizAttempts_fallback. left. exact Hc.
Qed.

(** X26: [updateArticleProgress] takes a lookup that failed for a missing
    row: connected, when the lookup request fails and the write is accepted,
    a new row is inserted for the user and the article, whatever rows the
    collection already holds for them. *)
Theorem failed_lookup_inserts_a_row :
  forall (userId articleId : string) (completed : bool) (w : World)
         (failure : PostgrestError.t) (rest : list (option PostgrestError.t)),
    truthy (isConnected w) = true ->
    backend_faults w = Some failure :: None :: rest ->
    let update := updateArticleProgress userId articleId completed in
    let table := Backend.user_article_progress (backend w) in
    let table' := Backend.user_article_progress (backend (world_after update w)) in
    result_of update w = Returned tt /\
    (exists row, table' = (table ++ [row])%list /\
                 ArticleProgress.user_id row = userId /\
                 ArticleProgress.article_id row = articleId /\
                 ArticleProgress.completed row = completed) /\
    length (progress_rows userId articleId table')
    = S (length (progress_rows userId articleId table)).
Proof.
  intros userId articleId completed w failure rest Hc Hb update table table'.
  subst table' table update.
  unfold result_of, world_after, updateArticleProgress, try_catch, mbind, Async_bind,
    NetInfo.fetch.
  rewrite Hc. cbn [negb].
  unfold supabase.single_progress, supabase.update_progress, supabase.insert_progress,
    supabase.request, Date.toISOString, mret, Async_ret.
  world_simpl. rewrite Hb. cbn [hd tail data_of]. world_simpl. cbn [hd tail].
  cbn [fst snd backend supabase.with_progress Backend.user_article_progress].
  split; [reflexivity|]. split.
  - eexists. split; [reflexivity|]. repeat split; reflexivity.
  - unfold progress_rows. rewrite List.filter_app, length_app. cbn.
    rewrite !String.eqb_refl. cbn. lia.
Qed.

(** * The screens *)

(** ** The article list screen *)

(** The embedded [fetchArticles] returns in every world; this is the code's
    behaviour where the record of the article list can be read as one. *)
Lemma fetchArticles_returns isPremiumUser w :
  exists listed, result_of (fetchArticles isPremiumUser) w = Returned listed.
Proof.
  destruct (truthy (isConnected w)) eqn:Hc;
    [destruct (hd None (backend_faults w)) as [failure|] eqn:Hb|].
  - eexists. apply fetchArticles_fallback. right. eauto.
  - eexists. unfold result_of. rewrite fetchArticles_online by assumption. reflexivity.
  - eexists. apply fetchArticles_fallback. left. exact Hc.
Qed.

Lemma getOfflineArticles_link w :
  isConnected (world_after getOfflineArticles w) = isConnected w /\
  backend_faults (world_after getOfflineArticles w) = backend_faults w.
Proof.
  unfold world_after, getOfflineArticles, try_catch, mbind, Async_bind, AsyncStorage.getItem.
  destruct (AsyncStorage.rejects w); [split; reflexivity|].
  destruct (storage w !! KEYS.ARTICLES) as [[]|]; split; reflexivity.
Qed.

Lemma fetchArticles_fallback_link isPremiumUser w :
  falls_back w ->
  exists w1, isConnected w1 = isConnected w /\
             backend_faults w1 = (if truthy (isConnected w) then tail (backend_faults w)
                                  else backend_faults w) /\
             backend w1 = backend w /\
             world_after (fetchArticles isPremiumUser) w = world_after getOfflineArticles w1.
Proof.
  intros Hfb. unfold world_after at 1, fetchArticles, try_catch, mbind, Async_bind, NetInfo.fetch.
  destruct (truthy (isConnected w)) eqn:Hc.
  - destruct Hfb as [Hfb|[error Hfb]]; [congruence|].
    unfold supabase.select_articles, supabase.request. world_simpl. rewrite Hfb.
    unfold throw, console.error. world_simpl.
    match goal with |- context [getOfflineArticles ?w1] =>
      exists w1; rewrite (getOfflineArticles_pair w1) end.
    repeat split; reflexivity.
  - match goal with |- context [getOfflineArticles ?w1] =>
      exists w1; rewrite (getOfflineArticles_pair w1) end.
    repeat split; reflexivity.
Qed.

(** What [fetchArticles] leaves of the network: the connectivity and the
    backend as they were, one backend answer consumed if it was connected. *)
Lemma fetchArticles_link isPremiumUser w :
  let w' := world_after (fetchArticles isPremiumUser) w in
  isConnected w' = isConnected w /\ backend w' = backend w /\
  backend_faults w' = if truthy (isConnected w) then tail (backend_faults w)
                      else backend_faults w.
Proof.
  intros w'. subst w'.
  assert (Hfallback : falls_back w ->
    let w' := world_after (fetchArticles isPremiumUser) w in
    isConnected w' = isConnected w /\ backend w' = backend w /\
    backend_faults w' = if truthy (isConnected w) then tail (backend_faults w)
                        else backend_faults w).
  { intros Hfb. cbv zeta. destruct (fetchArticles_fallback_link isPremiumUser w Hfb)
      as (w1 & Hc1 & Hf1 & Hb1 & ->).
    destruct (getOfflineArticles_link w1) as [-> ->]. rewrite getOfflineArticles_backend. auto. }
  destruct (truthy (isConnected w)) eqn:Hc;
    [destruct (hd None (backend_faults w)) as [failure|] eqn:Hb|].
  - apply Hfallback. right. eauto.
  - unfold world_after. rewrite fetchArticles_online by assumption.
    rewrite saveArticlesOffline_saveList. unfold world_after. rewrite saveList_run.
    repeat split; reflexivity.
  - apply Hfallback. left. exact Hc.
Qed.

(** [loadArticles] always settles on the fetched entries joined with the
    fetched progress. *)
Lemma loadArticles_run userId isSubscribed s w :
  exists articlesData progressData,
    result_of (fetchArticles isSubscribed) w = Returned articlesData /\
    match signed_in userId with
    | Some id => result_of (fetchUserArticleProgress id)
                           (world_after (fetchArticles isSubscribed) w)
                 = Returned progressData
    | None => progressData = ∅
    end /\
    result_of (ArticlesScreen.loadArticles userId isSubscribed s) w
    = Returned (ArticlesScreen.make (map (ArticlesScreen.withProgress progressData) articlesData)
                                    false false).
Proof.
  destruct (fetchArticles_returns isSubscribed w) as [articlesData Ha].
  pose proof (returned_pair _ _ _ Ha) as Hrun.
  unfold result_of at 3, ArticlesScreen.loadArticles, try_catch, mbind, Async_bind.
  rewrite Hrun.
  destruct (signed_in userId) as [id|].
  - set (w2 := world_after (fetchArticles isSubscribed) w).
    assert (Hp : exists progress, result_of (fetchUserArticleProgress id) w2 = Returned progress).
    { destruct (truthy (isConnected w2)) eqn:Hc;
        [destruct (hd None (backend_faults w2)) as [failure|] eqn:Hb|].
      - eexists. apply fetchUserArticleProgress_fallback. right. eauto.
      - eexists. apply fetchUserArticleProgress_online; assumption.
      - eexists. apply fetchUserArticleProgress_fallback. left. exact Hc. }
    destruct Hp as [progressData Hp]. exists articlesData, progressData.
    rewrite (returned_pair _ _ _ Hp). repeat split; assumption.
  - exists articlesData, ∅. repeat split; assumption.
Qed.

Lemma filter_none {A} (f : A -> bool) (l : list A) :
  (forall a, In a l -> f a = false) -> List.filter f l = [].
Proof.
  induction l as [|a l IH]; intros H; [reflexivity|]. cbn [List.filter].
  rewrite (H a) by (left; reflexivity). apply IH. intros a' Ha'. apply H. right. exact Ha'.
Qed.

Lemma get_empty_object key :
  ProgressMap.get key ∅
  = if inherited_name key then ProgressMap.Inherited else ProgressMap.Undefined.
Proof.
  unfold ProgressMap.get, inherited_name.
  cbn [ProgressMap.prototype ProgressMap.own empty ProgressMap_empty ProgressMap.empty_object].
  rewrite lookup_empty. destruct (String.eqb key "__proto__"); reflexivity.
Qed.

Lemma withProgress_empty article :
  ArticlesScreen.withProgress ∅ article
  = ArticleWithProgress.make article (ArticlesScreen.progress_of ∅ article) false.
Proof.
  unfold ArticlesScreen.withProgress. f_equal.
  unfold ArticlesScreen.progress_of.
  destruct (PartialArticle.id article) as [id|]; rewrite get_empty_object;
    destruct (inherited_name _); reflexivity.
Qed.

(** X27: [loadArticles] never raises and always ends with both activity
    flags lowered.  When the record of the article list can be read as one,
    it shows what [fetchArticles] returns; and then, with no signed-in user
    or with the device offline, no entry it shows has a progress row or is
    completed, whatever the backend holds: the completed filter shows nothing
    and the unread filter shows every entry.  The [progress] of an entry is
    then undefined, unless the id of the entry is a name that every object
    inherits. *)
Theorem article_list_offline_shows_nothing_completed :
  forall (userId : option string) (isSubscribed : bool) (s : ArticlesScreen.State) (w : World),
    exists s',
      result_of (ArticlesScreen.loadArticles userId isSubscribed s) w = Returned s' /\
      ArticlesScreen.loading s' = false /\ ArticlesScreen.refreshing s' = false /\
      (reads_as_article_list w ->
       (exists articlesData,
           result_of (fetchArticles isSubscribed) w = Returned articlesData /\
           map ArticleWithProgress.article (ArticlesScreen.articles s') = articlesData) /\
       (signed_in userId = None \/ truthy (isConnected w) = false ->
        (forall entry, In entry (ArticlesScreen.articles s') ->
           (forall row, ArticleWithProgress.progress entry <> ProgressMap.Row row) /\
           ArticleWithProgress.isCompleted entry = false /\
           (forall id, PartialArticle.id (ArticleWithProgress.article entry) = Some id ->
                       inherited_name id = false ->
                       ArticleWithProgress.progress entry = ProgressMap.Undefined)) /\
        ArticlesScreen.getFilteredArticles ArticlesScreen.completed s' = [] /\
        ArticlesScreen.getFilteredArticles ArticlesScreen.unread s'
        = ArticlesScreen.articles s')).
Proof.
  intros userId isSubscribed s w.
  destruct (loadArticles_run userId isSubscribed s w) as (articlesData & progressData & Ha & Hp & Hr).
  eexists. split; [exact Hr|]. split; [reflexivity|]. split; [reflexivity|].
  intros _. cbn [ArticlesScreen.articles ArticlesScreen.getFilteredArticles]. split.
  { exists articlesData. split; [exact Ha|].
    rewrite map_map. cbn [ArticlesScreen.withProgress ArticleWithProgress.article].
    apply map_id. }
  intros Hcase.
  assert (Hempty : progressData = ∅).
  { destruct (signed_in userId) as [id|] eqn:Hid; [|exact Hp].
    destruct Hcase as [|Hc]; [discriminate|].
    rewrite fetchUserArticleProgress_fallback in Hp; [congruence|].
    left. destruct (fetchArticles_link isSubscribed w) as (-> & _). exact Hc. }
  subst progressData.
  assert (Hall : forall entry, In entry (map (ArticlesScreen.withProgress ∅) articlesData) ->
             (forall row, ArticleWithProgress.progress entry <> ProgressMap.Row row) /\
             ArticleWithProgress.isCompleted entry = false /\
             (forall id, PartialArticle.id (ArticleWithProgress.article entry) = Some id ->
                         inherited_name id = false ->
                         ArticleWithProgress.progress entry = ProgressMap.Undefined)).
  { intros entry Hin. apply in_map_iff in Hin as (article & <- & _).
    rewrite withProgress_empty.
    cbn [ArticleWithProgress.progress ArticleWithProgress.isCompleted ArticleWithProgress.article].
    unfold ArticlesScreen.progress_of. split; [|split; [reflexivity|]].
    - intros row. destruct (PartialArticle.id article); apply empty_object_has_no_row.
    - intros id -> Hid. rewrite get_empty_object, Hid. reflexivity. }
  split; [exact Hall|]. split.
  - apply filter_none. intros entry Hin. apply Hall, Hin.
  - apply filter_all. intros entry Hin. destruct (Hall entry Hin) as (_ & -> & _). reflexivity.
Qed.

(** X28: connected, signed in and with the backend answering both requests,
    [loadArticles] shows the rows the backend selects, each joined with the
    progress of the user: an entry is completed only if the user has a
    completed row for the article, and it is completed if that row is the
    user's only row for the article. *)
Theorem article_list_shows_the_users_progress :
  forall (userId : option string) (id : string) (isSubscribed : bool)
         (s : ArticlesScreen.State) (w : World) (rest : list (option PostgrestError.t)),
    signed_in userId = Some id ->
    truthy (isConnected w) = true -> backend_faults w = None :: None :: rest ->
    let table := Backend.user_article_progress (backend w) in
    exists s',
      result_of (ArticlesScreen.loadArticles userId isSubscribed s) w = Returned s' /\
      map ArticleWithProgress.article (ArticlesScreen.articles s')
      = map PartialArticle.of_article
            (Query.rows article_cell (articles_query isSubscribed) (Backend.articles (backend w))) /\
      (forall entry articleId,
         In entry (ArticlesScreen.articles s') ->
         PartialArticle.id (ArticleWithProgress.article entry) = Some articleId ->
         (ArticleWithProgress.isCompleted entry = true ->
          exists row, In row table /\ ArticleProgress.user_id row = id /\
                      ArticleProgress.article_id row = articleId /\
                      ArticleProgress.completed row = true) /\
         (forall row, In row table -> ArticleProgress.user_id row = id ->
                      ArticleProgress.article_id row = articleId ->
                      (forall row', In row' table -> ArticleProgress.user_id row' = id ->
                                    ArticleProgress.article_id row' = articleId -> row' = row) ->
                      ArticleWithProgress.isCompleted entry = ArticleProgress.completed row)).
Proof.
  intros userId id isSubscribed s w rest Hid Hc Hb table.
  destruct (loadArticles_run userId isSubscribed s w) as (articlesData & progressData & Ha & Hp & Hr).
  rewrite Hid in Hp.
  destruct (fetchArticles_link isSubscribed w) as (Hc' & Hb' & Hf'). rewrite Hc, Hb in Hf'.
  rewrite fetchUserArticleProgress_online in Hp;
    [| rewrite Hc'; exact Hc | rewrite Hf'; reflexivity].
  rewrite Hb' in Hp. fold table in Hp. injection Hp as Hp.
  unfold result_of in Ha. rewrite fetchArticles_online in Ha by (rewrite ?Hb; auto).
  injection Ha as Ha.
  eexists. split; [exact Hr|]. cbn [ArticlesScreen.articles]. split.
  - rewrite map_map. cbn [ArticlesScreen.withProgress ArticleWithProgress.article].
    rewrite map_id. symmetry. exact Ha.
  - intros entry articleId Hin Hentry. apply in_map_iff in Hin as (article & <- & _).
    cbn [ArticlesScreen.withProgress ArticleWithProgress.article] in Hentry.
    unfold ArticlesScreen.withProgress, ArticlesScreen.progress_of.
    cbn [ArticleWithProgress.isCompleted]. rewrite Hentry. subst progressData. split.
    + destruct (ProgressMap.get articleId (progress_by_article _)) as [|p|] eqn:Hget;
        [discriminate| |discriminate].
      rewrite orb_false_r. intros Hdone.
      apply progress_map_from in Hget as [[Hrow Hk]|Hempty];
        [|destruct (empty_object_has_no_row _ _ Hempty)].
      apply user_rows in Hrow as [Hrow Hu]. exists p. auto.
    + intros row Hrow Hu Hk Honly.
      assert (Hcov : exists p,
                 ProgressMap.get (ArticleProgress.article_id row)
                   (progress_by_article
                      (Query.rows progress_cell (Query.eq "user_id" (Text id) Query.select) table))
                 = ProgressMap.Row p)
        by (apply progress_map_covers, user_rows; auto).
      rewrite Hk in Hcov. destruct Hcov as [p Hget]. rewrite Hget, orb_false_r.
      apply progress_map_from in Hget as [[Hp Hpk]|Hempty];
        [|destruct (empty_object_has_no_row _ _ Hempty)].
      apply user_rows in Hp as [Hp Hpu]. rewrite (Honly p Hp Hpu Hpk). reflexivity.
Qed.

(** ** The article detail screen *)



(** * The shape of the cache *)

Lemma well_shaped_insert (m : gmap string Payload) key value :
  well_shaped m -> shaped_at key value = true -> well_shaped (<[key := value]> m).
Proof.
  intros Hm Hv k v. destruct (decide (key = k)) as [->|Hne].
  - rewrite lookup_insert_eq. intros [= <-]. exact Hv.
  - rewrite lookup_insert_ne by exact Hne. apply Hm.
Qed.

Lemma well_shaped_written details accepted (m : gmap string Payload) :
  well_shaped m ->
  (forall key value, In (key, value) details -> shaped_at key value = true) ->
  well_shaped (written details accepted m).
Proof.
  revert accepted m; induction details as [|[k v] ds IH]; intros accepted m Hm Hd; [exact Hm|].
  destruct accepted as [|ok oks]; [exact Hm|]. cbn [written].
  apply IH; [|intros key value Hin; apply Hd; right; exact Hin].
  destruct ok; [|exact Hm]. apply well_shaped_insert; [exact Hm|]. apply Hd. left. reflexivity.
Qed.

Lemma well_shaped_removed (m : gmap string Payload) keys :
  well_shaped m -> well_shaped (foldr delete m keys).
Proof.
  intros Hm k v. rewrite lookup_foldr_delete. destruct (decide (k ∈ keys)); [discriminate|].
  apply Hm.
Qed.

Lemma article_detail_shaped id a :
  shaped_at (KEYS.ARTICLE_PREFIX +:+ id) (JsonArticle a) = true.
Proof.
  unfold shaped_at.
  rewrite (proj2 (String.eqb_neq _ _) (article_key_not_list id)).
  replace (String.eqb (KEYS.ARTICLE_PREFIX +:+ id) KEYS.QUIZZES) with false by reflexivity.
  replace (String.eqb (KEYS.ARTICLE_PREFIX +:+ id) KEYS.LAST_SYNC) with false by reflexivity.
  rewrite prefix_append. reflexivity.
Qed.

Lemma quiz_detail_shaped id q :
  shaped_at (KEYS.QUIZ_PREFIX +:+ id) (JsonQuiz q) = true.
Proof.
  unfold shaped_at.
  replace (String.eqb (KEYS.QUIZ_PREFIX +:+ id) KEYS.ARTICLES) with false by reflexivity.
  rewrite (proj2 (String.eqb_neq _ _) (quiz_key_not_list id)).
  replace (String.eqb (KEYS.QUIZ_PREFIX +:+ id) KEYS.LAST_SYNC) with false by reflexivity.
  replace (String.prefix KEYS.ARTICLE_PREFIX (KEYS.QUIZ_PREFIX +:+ id)) with false by reflexivity.
  rewrite prefix_append. reflexivity.
Qed.

Section ShapedBatch.
Context (listKey : string) (listText : Payload) (details : list (string * Payload))
        (label : string).
Hypothesis list_shaped : shaped_at listKey listText = true.
Hypothesis details_shaped :
  forall key value, In (key, value) details -> shaped_at key value = true.

Lemma saveList_shaped w :
  well_shaped (storage w) ->
  well_shaped (storage (world_after (saveList listKey listText details label) w)).
Proof.
  intros Hw. unfold world_after. rewrite saveList_run. cbn [snd storage].
  unfold saveList_storage. destruct (AsyncStorage.rejects w); [exact Hw|].
  assert (Hbatch : well_shaped (written details (detail_outcomes details w)
                                        (<[listKey := listText]> (storage w)))).
  { apply well_shaped_written; [|exact details_shaped].
    apply well_shaped_insert; [exact Hw | exact list_shaped]. }
  destruct (_ && _); [|exact Hbatch].
  apply well_shaped_insert; [exact Hbatch | reflexivity].
Qed.
End ShapedBatch.

Lemma saveArticlesOffline_shaped articles w :
  well_shaped (storage w) ->
  well_shaped (storage (world_after (saveArticlesOffline articles) w)).
Proof.
  rewrite saveArticlesOffline_saveList. apply saveList_shaped; [reflexivity|].
  intros key value Hin. apply in_map_iff in Hin as (a & [= <- <-] & _).
  apply article_detail_shaped.
Qed.

Lemma saveQuizzesOffline_shaped quizzes w :
  well_shaped (storage w) ->
  well_shaped (storage (world_after (saveQuizzesOffline quizzes) w)).
Proof.
  rewrite saveQuizzesOffline_saveList. apply saveList_shaped; [reflexivity|].
  intros key value Hin. apply in_map_iff in Hin as (q & [= <- <-] & _).
  apply quiz_detail_shaped.
Qed.

(** X30: the cache manager keeps the shape of its records.  In a store in
    which every record has the shape its key is read at, the record of the
    article list can be read as one; and whatever the storage accepts or
    rejects, the store is still of that kind after [saveArticlesOffline],
    [saveQuizzesOffline], [saveLastSyncTime] and [clearOfflineData], and
    after a [fetchArticles] on any path. *)
Theorem cache_keeps_its_shape :
  forall w : World,
    well_shaped (storage w) ->
    reads_as_article_list w /\
    (forall articles,
        well_shaped (storage (world_after (saveArticlesOffline articles) w))) /\
    (forall quizzes,
        well_shaped (storage (world_after (saveQuizzesOffline quizzes) w))) /\
    well_shaped (storage (world_after saveLastSyncTime w)) /\
    well_shaped (storage (world_after clearOfflineData w)) /\
    (forall isPremiumUser,
        well_shaped (storage (world_after (fetchArticles isPremiumUser) w))).
Proof.
  intros w Hw. split; [|split; [|split; [|split; [|split]]]].
  - unfold reads_as_article_list.
    destruct (storage w !! KEYS.ARTICLES) as [v|] eqn:Hl; [|exact I].
    apply Hw in Hl. destruct v; first [exact I | discriminate Hl].
  - intros articles. apply saveArticlesOffline_shaped, Hw.
  - intros quizzes. apply saveQuizzesOffline_shaped, Hw.
  - unfold world_after, saveLastSyncTime, try_catch, mbind, Async_bind, Date.toISOString,
      AsyncStorage.setItem, console.error.
    destruct (AsyncStorage.rejects w); world_simpl; [exact Hw|].
    apply well_shaped_insert; [exact Hw | reflexivity].
  - unfold world_after, clearOfflineData, try_catch, mbind, Async_bind,
      AsyncStorage.getAllKeys, AsyncStorage.multiRemove, console.error.
    destruct (AsyncStorage.rejects w) eqn:Hr; world_simpl; [exact Hw|].
    unfold AsyncStorage.rejects in *. world_simpl.
    destruct (hd false (tail (storage_faults w))); world_simpl; [exact Hw|].
    apply well_shaped_removed, Hw.
  - intros isPremiumUser.
    destruct (truthy (isConnected w)) eqn:Hc;
      [destruct (hd None (backend_faults w)) as [failure|] eqn:Hb|].
    2:{ unfold world_after at 1. rewrite fetchArticles_online by assumption. cbn [snd].
        apply saveArticlesOffline_shaped. exact Hw. }
    all: destruct (fetchArticles_fallback_world isPremiumUser w) as (w1 & Hs & _ & ->);
      [unfold falls_back; eauto|];
      rewrite getOfflineArticles_storage, Hs; exact Hw.
Qed.

(** * The further properties at concrete worlds *)

(** [clear_is_namespace_scoped] at a world with one cached article. *)
Lemma clear_is_namespace_scoped_witness :
  result_of clearOfflineData stocked_world = Returned tt /\
  result_of getOfflineArticles (world_after clearOfflineData stocked_world) = Returned [] /\
  result_of (getOfflineArticle "a2") (world_after clearOfflineData stocked_world) = Returned None.
Proof.
  assert (Hw : healthy stocked_world) by reflexivity.
  pose proof (clear_is_namespace_scoped stocked_world Hw) as H. cbv zeta in H.
  destruct H as (Hr & _ & _ & Hl & _ & Hd & _).
  split; [exact Hr|]. split; [exact Hl | exact (Hd "a2")].
Defined.

(** [clear_never_raises] when listing the keys is rejected. *)
Lemma clear_never_raises_witness :
  let w := with_storage_faults [true] stocked_world in
  result_of clearOfflineData w = Returned tt /\
  storage (world_after clearOfflineData w) = storage w.
Proof.
  cbv zeta.
  pose proof (clear_never_raises (with_storage_faults [true] stocked_world)) as H.
  cbv zeta in H. destruct H as [Hr Hrejected].
  split; [exact Hr|]. apply Hrejected. left. reflexivity.
Defined.

(** [cache_reads_degrade] at a storage that rejects the read of a cached
    article. *)
Lemma cache_reads_degrade_witness :
  let w := with_storage_faults [true] stocked_world in
  storage w !! "econquiz_article_a2" = Some (JsonArticle article2) /\
  result_of (getOfflineArticle "a2") w = Returned None /\
  result_of getOfflineArticles w = Returned [].
Proof.
  cbv zeta. split; [vm_compute; reflexivity|].
  destruct (cache_reads_degrade (with_storage_faults [true] stocked_world) "a2")
    as (_ & _ & _ & _ & _ & _ & _ & _ & Hrejected & _).
  destruct (Hrejected eq_refl) as (Hl & _ & Ha & _). split; assumption.
Defined.

(** [batch_keeps_other_records] at a key of another module of the app. *)
Lemma batch_keeps_other_records_witness :
  storage (world_after (saveArticlesOffline [article1]) stocked_world) !! "theme"
  = storage stocked_world !! "theme" /\
  storage (world_after (saveQuizzesOffline [quiz1]) stocked_world) !! "econquiz_article_a2"
  = storage stocked_world !! "econquiz_article_a2".
Proof.
  split.
  - refine (proj2 (proj2 (proj1 batch_keeps_other_records [article1] stocked_world)) "theme" _).
    reflexivity.
  - exact (proj1 (proj2 (proj2 batch_keeps_other_records [quiz1] stocked_world)) "a2").
Defined.

(** [later_batch_replaces_list] at a batch of two articles followed by a
    batch of one. *)
Lemma later_batch_replaces_list_witness :
  let w' := world_after (saveArticlesOffline [article1'])
                        (world_after (saveArticlesOffline [article1; article2]) fresh_world) in
  result_of getOfflineArticles w' = Returned [article_list_entry article1'] /\
  result_of (getOfflineArticle "a2") w' = Returned (Some article2).
Proof.
  cbv zeta.
  assert (Hw : healthy fresh_world) by reflexivity.
  assert (Hnd : NoDup (map Article.id [article1; article2]))
    by (refine (bool_decide_unpack _ _); vm_compute; exact I).
  pose proof (proj1 later_batch_replaces_list [article1; article2] [article1'] fresh_world Hw Hnd)
    as H.
  cbv zeta in H. destruct H as [Hl Hd]. split; [exact Hl|].
  apply (Hd article2).
  - right. left. reflexivity.
  - refine (bool_decide_unpack _ _). vm_compute. exact I.
Defined.

(** [last_entity_of_an_identity_wins] at a batch that carries a1 twice. *)
Lemma last_entity_of_an_identity_wins_witness :
  result_of (getOfflineArticle "a1")
            (world_after (saveArticlesOffline [article1; article1'; article2]) fresh_world)
  = Returned (Some article1').
Proof.
  refine (proj1 last_entity_of_an_identity_wins [article1] article1' [article2] fresh_world _ _).
  - reflexivity.
  - refine (bool_decide_unpack _ _). vm_compute. exact I.
Defined.

(** [sync_clock_follows_accepted_batches] at a batch whose detail write is
    rejected, and at an accepted one. *)
Lemma sync_clock_follows_accepted_batches_witness :
  storage (world_after (saveArticlesOffline [article1])
                       (with_storage_faults [false; true] fresh_world)) !! KEYS.LAST_SYNC
  = None /\
  storage (world_after (saveQuizzesOffline [quiz1]) fresh_world) !! KEYS.LAST_SYNC
  = Some (DateString (ISO8601 1700000000000)).
Proof.
  split.
  - refine (proj1 (proj1 sync_clock_follows_accepted_batches [article1]
                         (with_storage_faults [false; true] fresh_world)) _).
    exists "econquiz_article_a1", (JsonArticle article1). vm_compute. right. left. reflexivity.
  - refine (proj2 (proj2 sync_clock_follows_accepted_batches [quiz1] fresh_world) _).
    intros key value Hin. vm_compute in Hin.
    repeat (destruct Hin as [Hin|Hin]; [discriminate Hin|]). exact Hin.
Defined.

(** [fetchArticles_settles] offline, with the read accepted and rejected, and
    online with every write of the batch rejected. *)
Lemma fetchArticles_settles_witness :
  let w := disconnect stocked_world in
  reads_as_article_list w /\
  (exists listed, result_of (fetchArticles false) w = Returned listed) /\
  storage (world_after (fetchArticles false) w) = storage w /\
  result_of (fetchArticles true) (with_storage_faults [true] w) = Returned [] /\
  result_of (fetchArticles false) (with_storage_faults [true] stocked_world)
  = Returned [PartialArticle.of_article article1].
Proof.
  cbv zeta.
  assert (Hfb : falls_back (disconnect stocked_world)) by (left; reflexivity).
  assert (Hshape : reads_as_article_list (disconnect stocked_world)) by (vm_compute; exact I).
  destruct (proj2 (fetchArticles_settles false (disconnect stocked_world)) Hfb)
    as (Hr & _ & Hs & _).
  split; [exact Hshape|]. split; [exact (Hr Hshape)|]. split; [exact Hs|]. split.
  - refine (proj1 (proj2 (proj2 (fetchArticles_settles true
                                   (with_storage_faults [true] (disconnect stocked_world))) _)) _).
    + left. reflexivity.
    + reflexivity.
  - refine (eq_trans (proj1 (fetchArticles_settles false
                               (with_storage_faults [true] stocked_world)) _ _) _);
      vm_compute; reflexivity.
Defined.

(** [list_fetch_serves_details_offline] at the premium article of the
    stocked backend. *)
Lemma list_fetch_serves_details_offline_witness :
  result_of (fetchArticleById "a2") (disconnect (world_after (fetchArticles true) stocked_world))
  = Returned article2.
Proof.
  refine (proj2 (list_fetch_serves_details_offline true stocked_world _ _ _ _) article2 _).
  - reflexivity.
  - reflexivity.
  - reflexivity.
  - refine (bool_decide_unpack _ _). vm_compute. exact I.
  - vm_compute. left. reflexivity.
Defined.

(** [offline_entries_lack_body] at the stocked backend. *)
Lemma offline_entries_lack_body_witness :
  exists online,
    result_of (fetchArticles true) stocked_world = Returned online /\
    result_of (fetchArticles true) (disconnect (world_after (fetchArticles true) stocked_world))
    = Returned (map without_body online).
Proof.
  destruct (offline_entries_lack_body true stocked_world) as (online & Hr & Hoff & _);
    [reflexivity | reflexivity | reflexivity |].
  exists online. split; assumption.
Defined.

(** [fetchArticleById_cache_paths] offline, at a cached and at an uncached
    article. *)
Lemma fetchArticleById_cache_paths_witness :
  result_of (fetchArticleById "a2") (disconnect stocked_world) = Returned article2 /\
  result_of (fetchArticleById "a1") (disconnect stocked_world)
  = Thrown (NewError "Article not found").
Proof.
  split.
  - refine (proj1 (fetchArticleById_cache_paths "a2" (disconnect stocked_world) _ _) article2 _).
    + reflexivity.
    + left. reflexivity.
    + vm_compute. reflexivity.
  - refine (proj1 (proj2 (fetchArticleById_cache_paths "a1" (disconnect stocked_world) _ _)) _).
    + reflexivity.
    + left. reflexivity.
    + vm_compute. reflexivity.
Defined.

(** [fetchArticleById_only_error] when the backend is down and nothing is
    cached. *)
Lemma fetchArticleById_only_error_witness :
  exists error,
    result_of (fetchArticleById "a1") (with_backend_faults [Some outage] fresh_world)
    = Thrown error /\
    error = NewError "Article not found".
Proof.
  assert (H : exists error,
             result_of (fetchArticleById "a1") (with_backend_faults [Some outage] fresh_world)
             = Thrown error) by (eexists; vm_compute; reflexivity).
  destruct H as [error H]. exists error. split; [exact H|].
  exact (fetchArticleById_only_error "a1" _ error H).
Defined.

(** [progress_update_is_an_upsert] at the row of u1 for a1. *)
Lemma progress_update_is_an_upsert_witness :
  result_of (updateArticleProgress "u1" "a1" true) tracked_world = Returned tt /\
  exists row,
    progress_rows "u1" "a1"
      (Backend.user_article_progress
         (backend (world_after (updateArticleProgress "u1" "a1" true) tracked_world)))
    = [row] /\
    ArticleProgress.completed row = true.
Proof.
  assert (Hone : (length (progress_rows "u1" "a1"
                            (Backend.user_article_progress (backend tracked_world))) <= 1)%nat)
    by (vm_compute; lia).
  pose proof (progress_update_is_an_upsert "u1" "a1" true tracked_world eq_refl eq_refl Hone) as H.
  cbv zeta in H. destruct H as (Hr & (row & Hrows & Hdone & _) & _).
  split; [exact Hr|]. exists row. split; assumption.
Defined.

(** [progress_write_failure_is_raised] when the backend refuses the update. *)
Lemma progress_write_failure_is_raised_witness :
  result_of (updateArticleProgress "u1" "a1" true)
            (with_backend_faults [None; Some outage] tracked_world)
  = Thrown (Postgrest outage).
Proof.
  refine (proj1 (progress_write_failure_is_raised "u1" "a1" true
                   (with_backend_faults [None; Some outage] tracked_world)
                   None outage [] _ _)); reflexivity.
Defined.

(** [progress_fetch_degrades_to_empty] offline, although the backend holds a
    row of the user. *)
Lemma progress_fetch_degrades_to_empty_witness :
  result_of (fetchUserArticleProgress "u1") (disconnect tracked_world) = Returned ∅.
Proof.
  refine (proj2 (progress_fetch_degrades_to_empty "u1" (disconnect tracked_world)) _).
  left. reflexivity.
Defined.

(** [progress_map_holds_the_users_rows] at the row of u1. *)
Lemma progress_map_holds_the_users_rows_witness :
  exists progress,
    result_of (fetchUserArticleProgress "u1") prototype_world = Returned progress /\
    ProgressMap.get "a1" progress = ProgressMap.Row progress1 /\
    ProgressMap.get "__proto__" progress = ProgressMap.Row progress_proto /\
    ProgressMap.own progress !! "__proto__" = None.
Proof.
  pose proof (progress_map_holds_the_users_rows "u1" prototype_world eq_refl eq_refl) as H.
  cbv zeta in H. destruct H as (progress & Hr & _ & _ & Honly & Hown & _).
  exists progress. split; [exact Hr|]. split; [|split].
  - apply (Honly progress1).
    + left. reflexivity.
    + reflexivity.
    + intros p' Hin _ Hsame. vm_compute in Hin.
      destruct Hin as [<-|[<-|[]]]; [reflexivity | discriminate Hsame].
  - apply (Honly progress_proto).
    + right. left. reflexivity.
    + reflexivity.
    + intros p' Hin _ Hsame. vm_compute in Hin.
      destruct Hin as [<-|[<-|[]]]; [discriminate Hsame | reflexivity].
  - destruct (ProgressMap.own progress !! "__proto__") as [row|] eqn:Hkey; [|reflexivity].
    destruct (proj1 (Hown "__proto__")) as [Hne _]; [eauto|]. destruct (Hne eq_refl).
Defined.

(** [missing_quiz_is_null_without_cache] at an article without a quiz. *)
Lemma missing_quiz_is_null_without_cache_witness :
  result_of (fetchQuizByArticleId "a2") stocked_world = Returned None /\
  storage (world_after (fetchQuizByArticleId "a2") stocked_world) = storage stocked_world.
Proof.
  assert (Hnone : forall quizData,
             Query.single quiz_cell (Query.eq "article_id" (Text "a2") Query.select)
                          (Backend.quizzes (backend stocked_world)) <> Data quizData)
    by (intros quizData H; vm_compute in H; discriminate H).
  destruct (missing_quiz_is_null_without_cache "a2" stocked_world eq_refl eq_refl Hnone)
    as (Hr & _ & Hs).
  split; assumption.
Defined.

(** [fetched_quiz_is_served_offline] at the quiz of a1. *)
Lemma fetched_quiz_is_served_offline_witness :
  exists complete,
    result_of (fetchQuizByArticleId "a1") stocked_world = Returned (Some complete) /\
    result_of (fetchQuizByArticleId "a1")
              (disconnect (world_after (fetchQuizByArticleId "a1") stocked_world))
    = Returned (Some complete).
Proof.
  destruct (fetched_quiz_is_served_offline "a1" stocked_world quiz1_row)
    as (complete & Hr & _ & Hoff);
    [reflexivity | reflexivity | reflexivity | vm_compute; reflexivity | discriminate |].
  exists complete. split; assumption.
Defined.

(** [fetchQuizByArticleId_never_raises] when the request for the questions
    fails. *)
Lemma fetchQuizByArticleId_never_raises_witness :
  let w := with_backend_faults [None; Some outage] stocked_world in
  (exists found, result_of (fetchQuizByArticleId "a1") w = Returned found) /\
  storage (world_after (fetchQuizByArticleId "a1") w) = storage w.
Proof.
  cbv zeta.
  destruct (fetchQuizByArticleId_never_raises "a1"
              (with_backend_faults [None; Some outage] stocked_world)) as [Hr Hs].
  split; [exact Hr|]. apply (Hs outage []); [reflexivity | reflexivity|].
  exists quiz1_row. vm_compute. reflexivity.
Defined.

(** [attempt_is_stored_with_its_answers] at an attempt with one answer. *)
Lemma attempt_is_stored_with_its_answers_witness :
  exists attempt,
    result_of (saveQuizAttempt "u1" "q1" 100 [Answer.make "qq1" 0]) tracked_world
    = Returned attempt /\
    Backend.quiz_attempts
      (backend (world_after (saveQuizAttempt "u1" "q1" 100 [Answer.make "qq1" 0]) tracked_world))
    = [attempt1; attempt].
Proof.
  pose proof (attempt_is_stored_with_its_answers "u1" "q1" 100 [Answer.make "qq1" 0]
                tracked_world eq_refl eq_refl) as H.
  cbv zeta in H. destruct H as (attempt & Hr & _ & _ & _ & _ & Hrows & _).
  exists attempt. split; [exact Hr | exact Hrows].
Defined.

(** [attempt_failure_is_raised_without_rollback] when the insertion of the
    answers fails. *)
Lemma attempt_failure_is_raised_without_rollback_witness :
  let w := with_backend_faults [None; Some outage] tracked_world in
  let save := saveQuizAttempt "u1" "q1" 100 [Answer.make "qq1" 0] in
  result_of save w = Thrown (Postgrest outage) /\
  length (Backend.quiz_attempts (backend (world_after save w))) = 2%nat /\
  Backend.quiz_answers (backend (world_after save w)) = [].
Proof.
  cbv zeta.
  pose proof (attempt_failure_is_raised_without_rollback "u1" "q1" 100 [Answer.make "qq1" 0]
                (with_backend_faults [None; Some outage] tracked_world) outage eq_refl) as H.
  cbv zeta in H. destruct H as [_ H]. destruct (H [] eq_refl) as (Hr & (attempt & Hrows & _) & Ha).
  split; [exact Hr|]. split; [rewrite Hrows; reflexivity | exact Ha].
Defined.

(** [fetchQuizzes_degrades_to_cache] offline, at a cache of one quiz. *)
Lemma fetchQuizzes_degrades_to_cache_witness :
  result_of fetchQuizzes (disconnect (world_after (saveQuizzesOffline [quiz1]) fresh_world))
  = Returned [quiz_list_entry quiz1].
Proof.
  refine (proj1 (proj2 (fetchQuizzes_degrades_to_cache
                          (disconnect (world_after (saveQuizzesOffline [quiz1]) fresh_world)))
                       _ _) [quiz_list_entry quiz1] _).
  - left. reflexivity.
  - reflexivity.
  - vm_compute. reflexivity.
Defined.

(** [quiz_list_fetch_caches_rows_without_questions] at a world in which the
    complete quiz of a1 was cached before the list is fetched. *)
Lemma quiz_list_fetch_caches_rows_without_questions_witness :
  let w := world_after (fetchQuizByArticleId "a1") stocked_world in
  result_of (getOfflineQuiz "q1") w = Returned (Some quiz1) /\
  exists q, result_of (getOfflineQuiz "q1") (world_after fetchQuizzes w) = Returned (Some q) /\
            Quiz.questions q = None.
Proof.
  cbv zeta. split; [vm_compute; reflexivity|].
  exists (joined_article [article1; article2] quiz1_row).
  refine (proj2 (proj2 (quiz_list_fetch_caches_rows_without_questions
                          (world_after (fetchQuizByArticleId "a1") stocked_world) _ _ _ _ _))
                (joined_article [article1; article2] quiz1_row) _).
  - reflexivity.
  - reflexivity.
  - reflexivity.
  - vm_compute. repeat constructor.
  - refine (bool_decide_unpack _ _). vm_compute. exact I.
  - vm_compute. left. reflexivity.
Defined.

(** [attempts_fetch_returns_the_users_attempts] at the attempt of u1. *)
Lemma attempts_fetch_returns_the_users_attempts_witness :
  result_of (fetchUserQuizAttempts "u1") (disconnect tracked_world) = Returned [] /\
  exists attempts,
    result_of (fetchUserQuizAttempts "u1") tracked_world = Returned attempts /\
    exists a, In a attempts /\ AttemptWithQuiz.attempt a = attempt1.
Proof.
  split.
  - refine (proj1 (proj2 (attempts_fetch_returns_the_users_attempts "u1"
                            (disconnect tracked_world))) _).
    left. reflexivity.
  - destruct (proj2 (proj2 (attempts_fetch_returns_the_users_attempts "u1" tracked_world))
                    eq_refl eq_refl) as (attempts & Hr & _ & Hall).
    exists attempts. split; [exact Hr|].
    apply (Hall attempt1); [left; reflexivity | reflexivity].
Defined.

(** [failed_lookup_inserts_a_row] at the row of u1 for a1. *)
Lemma failed_lookup_inserts_a_row_witness :
  let w := with_backend_faults [Some outage; None] tracked_world in
  length (progress_rows "u1" "a1" (Backend.user_article_progress (backend w))) = 1%nat /\
  length (progress_rows "u1" "a1"
            (Backend.user_article_progress
               (backend (world_after (updateArticleProgress "u1" "a1" true) w)))) = 2%nat.
Proof.
  cbv zeta. split; [reflexivity|].
  pose proof (failed_lookup_inserts_a_row "u1" "a1" true
                (with_backend_faults [Some outage; None] tracked_world) outage []
                eq_refl eq_refl) as H.
  cbv zeta in H. destruct H as (_ & _ & Hlen). exact Hlen.
Defined.

(** [article_list_offline_shows_nothing_completed] offline, with a signed-in
    user. *)
Lemma article_list_offline_shows_nothing_completed_witness :
  exists s',
    result_of (ArticlesScreen.loadArticles (Some "u1") true (ArticlesScreen.make [] true true))
              (disconnect stocked_world)
    = Returned s' /\
    ArticlesScreen.loading s' = false /\
    ArticlesScreen.getFilteredArticles ArticlesScreen.completed s' = [].
Proof.
  destruct (article_list_offline_shows_nothing_completed
              (Some "u1") true (ArticlesScreen.make [] true true) (disconnect stocked_world))
    as (s' & Hr & Hl & _ & Hshaped).
  exists s'. split; [exact Hr|]. split; [exact Hl|].
  destruct Hshaped as (_ & Hoff); [vm_compute; exact I|].
  destruct Hoff as (_ & Hnone & _); [right; reflexivity | exact Hnone].
Defined.

(** [article_list_shows_the_users_progress] at the user u1. *)
Lemma article_list_shows_the_users_progress_witness :
  exists s',
    result_of (ArticlesScreen.loadArticles (Some "u1") true (ArticlesScreen.make [] true false))
              (with_backend_faults [None; None] tracked_world)
    = Returned s' /\
    map ArticleWithProgress.article (ArticlesScreen.articles s')
    = [PartialArticle.of_article article2; PartialArticle.of_article article1].
Proof.
  pose proof (article_list_shows_the_users_progress
                (Some "u1") "u1" true (ArticlesScreen.make [] true false)
                (with_backend_faults [None; None] tracked_world) [] eq_refl eq_refl eq_refl) as H.
  cbv zeta in H. destruct H as (s' & Hr & Hshown & _).
  exists s'. split; [exact Hr|]. rewrite Hshown. vm_compute. reflexivity.
Defined.


(** [cache_keeps_its_shape] at the empty store, for a batch whose second
    detail write is rejected. *)
Lemma cache_keeps_its_shape_witness :
  well_shaped (storage (world_after (saveArticlesOffline [article1; article2])
                                    (with_storage_faults [false; false; true] fresh_world))).
Proof.
  refine (proj1 (proj2 (cache_keeps_its_shape
                          (with_storage_faults [false; false; true] fresh_world) _))
                [article1; article2]).
  intros key value Hl. vm_compute in Hl. discriminate Hl.
Defined.
